(** * scrapeandwrite.py: the metadata pipeline, embedded and verified

    The definitions follow [scripts/scrapeandwrite.py] function by function.
    Python text is modelled as ASCII [string]; JSON values as the values
    [json.load] and [Response.json] hand back (with integer numbers); the
    network, the file system and the console are an explicit [world] that
    answers requests and a [state] that records what the script did. *)

From Stdlib Require Import String Ascii List ZArith Lia Bool Arith.
From Stdlib Require Import DecimalString.
From Stdlib Require DecimalZ.
Import ListNotations.

Local Open Scope list_scope.
Local Open Scope string_scope.
Set Warnings "-register-all".

(* ================================================================== *)
(** * Python text operations used by the script *)
(* ================================================================== *)

Module PyStr.

Definition chars (s : string) : list ascii := list_ascii_of_string s.
Definition text (l : list ascii) : string := string_of_list_ascii l.

(** [bool(s)] of a [str]: non-empty. *)
Definition nonempty (s : string) : bool :=
  match s with EmptyString => false | String _ _ => true end.

(** The ASCII characters for which [str.isspace] holds; [str.strip()]
    removes exactly these. *)
Definition is_space (c : ascii) : bool :=
  let n := nat_of_ascii c in
  (Nat.leb 9 n && Nat.leb n 13) || (Nat.leb 28 n && Nat.leb n 32).

Fixpoint drop_while (p : ascii -> bool) (l : list ascii) : list ascii :=
  match l with
  | [] => []
  | c :: l' => if p c then drop_while p l' else l
  end.

Definition strip_by (p : ascii -> bool) (s : string) : string :=
  text (List.rev (drop_while p (List.rev (drop_while p (chars s))))).

Definition lstrip_by (p : ascii -> bool) (s : string) : string :=
  text (drop_while p (chars s)).

(** [s.strip()] *)
Definition strip (s : string) : string := strip_by is_space s.

Definition mem_char (c : ascii) (set : string) : bool :=
  existsb (Ascii.eqb c) (chars set).

(** [s.strip(set)] *)
Definition strip_chars (set : string) (s : string) : string :=
  strip_by (fun c => mem_char c set) s.

(** [s.startswith(p)] *)
Definition startswith (p s : string) : bool := String.prefix p s.

(** [sub in s] *)
Fixpoint contains (sub s : string) : bool :=
  String.prefix sub s ||
  match s with
  | EmptyString => false
  | String _ s' => contains sub s'
  end.

(** [s.split(sep)] for a one-character separator: the pieces between
    the separators, empty pieces included, never an empty list. *)
Fixpoint split_on (sep : ascii) (s : string) : list string :=
  match s with
  | EmptyString => [EmptyString]
  | String c s' =>
      if Ascii.eqb c sep then EmptyString :: split_on sep s'
      else match split_on sep s' with
           | [] => [String c EmptyString]
           | p :: ps => String c p :: ps
           end
  end.

Definition lower_char (c : ascii) : ascii :=
  let n := nat_of_ascii c in
  if Nat.leb 65 n && Nat.leb n 90 then ascii_of_nat (n + 32) else c.

(** [s.lower()] *)
Fixpoint lower (s : string) : string :=
  match s with
  | EmptyString => EmptyString
  | String c s' => String (lower_char c) (lower s')
  end.

(** [sep.join(pieces)] *)
Definition join (sep : string) (pieces : list string) : string :=
  String.concat sep pieces.

Definition is_digit (c : ascii) : bool :=
  let n := nat_of_ascii c in Nat.leb 48 n && Nat.leb n 57.

Fixpoint take_while (p : ascii -> bool) (s : string) : string :=
  match s with
  | EmptyString => EmptyString
  | String c s' => if p c then String c (take_while p s') else EmptyString
  end.

Fixpoint drop (n : nat) (s : string) : string :=
  match n, s with
  | O, _ => s
  | S n', String _ s' => drop n' s'
  | S _, EmptyString => EmptyString
  end.

(** [re.search(lit + r"(\d+)", s)]: the digits captured by the leftmost
    match, [None] when nothing matches. *)
Fixpoint search_digits_after (lit s : string) : option string :=
  let here :=
    if String.prefix lit s
    then take_while is_digit (drop (String.length lit) s)
    else EmptyString in
  if nonempty here then Some here
  else match s with
       | EmptyString => None
       | String _ s' => search_digits_after lit s'
       end.

(** [str(n)] of an [int]. *)
Definition of_Z (z : Z) : string := NilZero.string_of_int (Z.to_int z).
Definition of_nat (n : nat) : string := of_Z (Z.of_nat n).

Fixpoint zeros (n : nat) : string :=
  match n with O => EmptyString | S n' => String "0" (zeros n') end.

(** [f"{n:04d}"] for a non-negative [n]. *)
Definition pad4 (n : nat) : string :=
  let d := of_nat n in zeros (4 - String.length d) ++ d.

End PyStr.

(* ================================================================== *)
(** * JSON values as Python sees them *)
(* ================================================================== *)

(** What [json.load] and [Response.json] return: [None], [bool], [int],
    [str], [list] and [dict] (with [str] keys, in insertion order, each key
    bound once).  Non-integer numbers are outside this model. *)
Inductive json : Type :=
| JNull
| JBool (b : bool)
| JInt (z : Z)
| JStr (s : string)
| JList (items : list json)
| JDict (fields : list (string * json)).

Module Py.

(** [bool(v)]: what [if v], [not v] and [v or d] test. *)
Definition truthy (v : json) : bool :=
  match v with
  | JNull => false
  | JBool b => b
  | JInt z => negb (Z.eqb z 0)
  | JStr s => PyStr.nonempty s
  | JList l => match l with [] => false | _ => true end
  | JDict d => match d with [] => false | _ => true end
  end.

(** [v or d] *)
Definition or_else (v d : json) : json := if truthy v then v else d.

Fixpoint lookup (k : string) (d : list (string * json)) : option json :=
  match d with
  | [] => None
  | (k', v) :: d' => if String.eqb k k' then Some v else lookup k d'
  end.

(** [d[k] = v] on a dict: the binding is replaced in place, or added at
    the end. *)
Fixpoint store (k : string) (v : json) (d : list (string * json))
  : list (string * json) :=
  match d with
  | [] => [(k, v)]
  | (k', v') :: d' =>
      if String.eqb k k' then (k, v) :: d' else (k', v') :: store k v d'
  end.

Definition quote : ascii := ascii_of_nat 39.
Definition dquote : ascii := ascii_of_nat 34.
Definition backslash : ascii := ascii_of_nat 92.

Definition hex_digit (n : nat) : ascii :=
  if Nat.ltb n 10 then ascii_of_nat (48 + n) else ascii_of_nat (87 + n).

(** One character of [repr(s)], inside the quotes [q]. *)
Definition repr_char (q c : ascii) : string :=
  let n := nat_of_ascii c in
  if Ascii.eqb c q || Ascii.eqb c backslash
  then String backslash (String c EmptyString)
  else if Nat.eqb n 9 then String backslash "t"
  else if Nat.eqb n 10 then String backslash "n"
  else if Nat.eqb n 13 then String backslash "r"
  else if Nat.ltb n 32 || Nat.eqb n 127
  then String backslash
         (String "x" (String (hex_digit (n / 16))
                        (String (hex_digit (n mod 16)) EmptyString)))
  else String c EmptyString.

(** [repr(s)] of a [str]: single quotes, unless the text has a single
    quote and no double quote. *)
Definition repr_str (s : string) : string :=
  let q := if PyStr.mem_char quote s && negb (PyStr.mem_char dquote s)
           then dquote else quote in
  String q
    (String.concat EmptyString (map (repr_char q) (PyStr.chars s))
     ++ String q EmptyString).

(** [repr(v)] *)
Fixpoint repr (v : json) : string :=
  match v with
  | JNull => "None"
  | JBool true => "True"
  | JBool false => "False"
  | JInt z => PyStr.of_Z z
  | JStr s => repr_str s
  | JList l => "[" ++ String.concat ", " (map repr l) ++ "]"
  | JDict d =>
      "{" ++ String.concat ", "
               (map (fun kv => repr_str (fst kv) ++ ": " ++ repr (snd kv)) d)
          ++ "}"
  end.

(** [str(v)], also what an f-string field [{v}] prints. *)
Definition str (v : json) : string :=
  match v with
  | JStr s => s
  | _ => repr v
  end.

End Py.

(* ================================================================== *)
(** * Exceptions, the world outside, and the script's state *)
(* ================================================================== *)

(** The exception classes that occur; all derive from [Exception]. *)
Inductive exn : Type :=
| Timeout                          (* requests.Timeout *)
| NetworkError (msg : string)      (* any other error of requests.get *)
| ValueError (msg : string)
| RuntimeError (msg : string)
| FileNotFoundError (msg : string)
| OSError (path : string)
| JSONDecodeError
| AttributeError
| TypeError
| KeyError
| IndexError
| OverflowError.

Inductive result (A : Type) : Type :=
| Ok (a : A)
| Raise (e : exn).
Arguments Ok {A} a.
Arguments Raise {A} e.

(** An HTTP response as the script reads it. *)
Record response : Type := mkResponse {
  status_code : Z;
  content_type : option string;     (* headers.get("Content-Type") *)
  json_body : option json;          (* [None]: .json() raises *)
  body_chunks : list string;        (* what iter_content yields *)
  body_breaks : bool                (* iter_content raises after them *)
}.

Inductive net_outcome : Type :=
| Responds (r : response)
| Fails (e : exn).

(** The LINKS file: missing; there, but [open] or the decoding of its text
    raises [e], an exception other than [JSONDecodeError] (a
    [PermissionError], a [UnicodeDecodeError], ...); not JSON, [detail]
    being the text of the [JSONDecodeError]; or JSON. *)
Inductive links_file : Type :=
| LinksMissing
| LinksUnreadable (e : exn)
| LinksInvalid (detail : string)
| LinksData (data : json).

(** Everything the script does not control.  [net n url] answers the
    request for [url] issued after [n] earlier requests.  [open_fails p]:
    the [with open(p, ...)] block fails for a reason of its own (not the
    network's): [open] raises, or, when [write_breaks p] is [Some e], the
    file is opened and the writing raises [e], which leaves a truncated file.
    [float_gb n] is what [f"{round(n / 1024 / 1024, 2)}"] gives for an
    integer [n] from 2^53 on, where the division rounds or overflows: the
    float arithmetic of such sizes is not derived here. *)
Record world : Type := mkWorld {
  net : nat -> string -> net_outcome;
  mkdir_fails : string -> bool;
  open_fails : string -> bool;
  write_breaks : string -> option exn;
  float_gb : Z -> result string;
  links : links_file
}.

Inductive pause : Type :=
| Cooldown30                        (* time.sleep(30) *)
| Backoff                           (* rand_sleep() *)
| OneSecond                         (* time.sleep(1) *)
| Polite.                           (* time.sleep(uniform(0.6, 1.2)) *)

(** Console lines, by content; elapsed times are left out. *)
Inductive message : Type :=
| MsgRateLimited
| MsgHttpStatus (code : Z) (url : string)
| MsgTimeout (url : string)
| MsgNetworkError (e : exn)
| MsgThumbStatus (code : Z) (url : string)
| MsgThumbSaved (path : string)
| MsgThumbFailed (e : exn)
| MsgThumbLoopFailed (j : nat) (e : exn)
| MsgModelApiError (e : exn)
| MsgVersionApiError (e : exn)
| MsgLoadError (e : exn)
| MsgNoLinks
| MsgTestMode (limit total : nat)
| MsgStart (total : nat)
| MsgFetching (i total : nat) (filename : string)
| MsgFailed (e : exn)
| MsgParsed (type base_model size : json)
| MsgSaved (path : string)
| MsgSaveFailed (e : exn)
| MsgSummary
| MsgSuccessful (n : nat)
| MsgFailedCount (n : nat)
| MsgOutput (n : nat).

Inductive event : Type :=
| EvGet (url : string) (timeout : Z)
| EvMkdir (path : string)
| EvSleep (p : pause)
| EvConsole (m : message).

Inductive file_content : Type :=
| Bytes (data : string)
| JsonText (doc : json)
| Truncated.                        (* the beginning of an interrupted write *)

Record state : Type := mkState {
  id_counter : nat;                          (* _id_counter *)
  requests_made : nat;
  disk : list (string * file_content);       (* files written, newest first *)
  log : list event                           (* oldest first *)
}.

Definition initial_state : state :=
  {| id_counter := 0; requests_made := 0; disk := []; log := [] |}.

(** Computations that read the world, change the state and may raise. *)
Definition M (A : Type) : Type := state -> result A * state.

Definition ret {A} (a : A) : M A := fun st => (Ok a, st).
Definition raise {A} (e : exn) : M A := fun st => (Raise e, st).
Definition bind {A B} (m : M A) (k : A -> M B) : M B :=
  fun st => match m st with
            | (Ok a, st') => k a st'
            | (Raise e, st') => (Raise e, st')
            end.
(** [try: m  except Exception as e: h e] *)
Definition try_except {A} (m : M A) (h : exn -> M A) : M A :=
  fun st => match m st with
            | (Ok a, st') => (Ok a, st')
            | (Raise e, st') => h e st'
            end.

Declare Scope py_scope.
Delimit Scope py_scope with py.
Notation "x <- m ;; k" := (bind m (fun x => k))
  (at level 61, m at next level, right associativity) : py_scope.
Notation "m ;; k" := (bind m (fun _ => k))
  (at level 61, right associativity) : py_scope.
Local Open Scope py_scope.

Definition emit (e : event) : M unit :=
  fun st => (Ok tt, {| id_counter := id_counter st;
                       requests_made := requests_made st;
                       disk := disk st;
                       log := (log st ++ [e])%list |}).

Definition say (m : message) : M unit := emit (EvConsole m).
Definition sleep (p : pause) : M unit := emit (EvSleep p).

(** [rand_sleep()] *)
Definition rand_sleep : M unit := sleep Backoff.

(* ================================================================== *)
(** * USER CONFIG *)
(* ================================================================== *)

Definition OUTPUT_JSON : string :=
  "E:\GitHubRepos\golden-key\scraped_data\models.json".
Definition LINKS : string := "E:\GitHubRepos\golden-key\link.json".
Definition OUTPUT_DIR : string :=      (* os.path.dirname(OUTPUT_JSON) *)
  "E:\GitHubRepos\golden-key\scraped_data".
Definition THUMB_DIR : string :=
  "E:\GitHubRepos\golden-key\scraped_data\thumbnails".
Definition TIMEOUT_S : Z := 15.
Definition RETRIES : nat := 3.
Definition HTML_TIMEOUT : Z := 15.
Definition THUMB_TIMEOUT : Z := 8.
Definition TEST_LIMIT : nat := 0.

(* ================================================================== *)
(** * Pure helpers of the resolver and the thumbnail acquirer *)
(* ================================================================== *)

(** [os.path] on the platform of the configured paths. *)
Module OsPath.

Definition sep : ascii := Py.backslash.
Definition altsep : ascii := "/"%char.
Definition is_sep (c : ascii) : bool := Ascii.eqb c sep || Ascii.eqb c altsep.
Definition is_dot (c : ascii) : bool := Ascii.eqb c "."%char.

Fixpoint span (p : ascii -> bool) (l : list ascii)
  : list ascii * list ascii :=
  match l with
  | [] => ([], [])
  | c :: l' => if p c then let (a, b) := span p l' in (c :: a, b)
               else ([], l)
  end.

(** [os.path.splitext(p)[1]]: from the last dot of the last component,
    provided some character other than a dot precedes it there. *)
Definition splitext_ext (p : string) : string :=
  let (rbase, _) := span (fun c => negb (is_sep c)) (List.rev (PyStr.chars p)) in
  let (rext, rest) := span (fun c => negb (is_dot c)) rbase in
  match rest with
  | [] => EmptyString                         (* no dot in the component *)
  | dot :: before =>
      if existsb (fun c => negb (is_dot c)) before
      then PyStr.text (dot :: List.rev rext)
      else EmptyString
  end.

(** [os.path.join(dir, name)] for a relative [name] without drive. *)
Definition join (dir name : string) : string :=
  dir ++ String sep name.

End OsPath.

Definition mem_str (s : string) (l : list string) : bool :=
  existsb (String.eqb s) l.

Definition image_exts : list string := [".jpg"; ".jpeg"; ".png"; ".webp"].
Definition video_exts : list string := [".mp4"; ".webm"].

(** Lines 133-142 of [download_thumbnail]: the extension of the saved file,
    from the lower-cased extension of the URL path and the lower-cased
    content type. *)
Definition choose_ext (ext content_type : string) : string :=
  if PyStr.contains "image" content_type then
    if negb (PyStr.nonempty ext) || negb (mem_str ext image_exts)
    then ".jpg" else ext
  else if PyStr.contains "video" content_type then
    if negb (PyStr.nonempty ext) || negb (mem_str ext video_exts)
    then ".mp4" else ext
  else if negb (PyStr.nonempty ext) then ".dat"
  else ext.

(** ** File size *)

(** A number as the comparisons and [int()] take it: [int], or [bool] as
    0 and 1; anything else makes [>=] raise [TypeError]. *)
Definition as_number (v : json) : result Z :=
  match v with
  | JInt z => Ok z
  | JBool b => Ok (if b then 1 else 0)%Z
  | _ => Raise TypeError
  end.

(** [num/den] rounded to the nearest integer, ties to even ([den > 0]). *)
Definition round_half_even (num den : Z) : Z :=
  let q := (num / den)%Z in
  let r := (num mod den)%Z in
  if (2 * r <? den)%Z then q
  else if (den <? 2 * r)%Z then (q + 1)%Z
  else if Z.even q then q else (q + 1)%Z.

(** [repr] of the float that is [h] hundredths, [h >= 0]: at least one
    decimal, no trailing zero beyond it. *)
Definition repr_hundredths (h : Z) : string :=
  let ip := (h / 100)%Z in
  let fp := (h mod 100)%Z in
  PyStr.of_Z ip ++ "." ++
  (if (fp mod 10 =? 0)%Z then PyStr.of_Z (fp / 10)
   else (if (fp <? 10)%Z then "0" else "") ++ PyStr.of_Z fp).

(** The integers from here on are not all floats: dividing them rounds. *)
Definition FLOAT_EXACT : Z := 2 ^ 53.

(** [f"{round(n / den, 2)}"] for an integer [0 <= n < 2^53] and [den] a
    power of two: the quotient is an exact float, [round] rounds its exact
    value half-even to two decimals, and the f-string prints the [repr] of
    the resulting float, which has fewer than sixteen digits. *)
Definition round2_str (n den : Z) : string :=
  repr_hundredths (round_half_even (100 * n) den).

(** The conditional expression of lines 777-781, given [size_kb]; [big] is
    the world's [float_gb], asked for the integers from 2^53 on. *)
Definition format_size (big : Z -> result string) (size_kb : json)
  : result string :=
  match as_number size_kb with
  | Raise e => Raise e
  | Ok n =>
      if (FLOAT_EXACT <=? n)%Z then
        match big n with
        | Ok s => Ok (s ++ " GB")
        | Raise e => Raise e
        end
      else
      Ok (if (1024 * 1024 <=? n)%Z then round2_str n (1024 * 1024) ++ " GB"
          else if (1024 <=? n)%Z then round2_str n 1024 ++ " MB"
          else if Py.truthy size_kb then PyStr.of_Z n ++ " KB"
          else "")
  end.

(** ** [urllib.parse.urlparse(url).path]

    The pipeline takes this library function as a parameter.  [Urllib.path_of]
    is the CPython 3.11 algorithm on ASCII text, used where a concrete run
    is evaluated. *)
Module Urllib.

Fixpoint break_at (p : ascii -> bool) (l : list ascii)
  : list ascii * list ascii :=
  match l with
  | [] => ([], [])
  | c :: l' => if p c then ([], l)
               else let (a, b) := break_at p l' in (c :: a, b)
  end.

Definition is_char (x : string) (c : ascii) : bool :=
  match x with
  | String x' _ => Ascii.eqb c x'
  | EmptyString => false
  end.
Definition is_alpha (c : ascii) : bool :=
  let n := nat_of_ascii c in
  (Nat.leb 65 n && Nat.leb n 90) || (Nat.leb 97 n && Nat.leb n 122).
Definition scheme_char (c : ascii) : bool :=
  is_alpha c || PyStr.is_digit c || PyStr.mem_char c "+-.".
Definition c0_or_space (c : ascii) : bool := Nat.leb (nat_of_ascii c) 32.
Definition unsafe (c : ascii) : bool :=
  let n := nat_of_ascii c in Nat.eqb n 9 || Nat.eqb n 10 || Nat.eqb n 13.

Definition uses_params : list string :=
  [""; "ftp"; "hdl"; "prospero"; "http"; "imap"; "https"; "shttp"; "rtsp";
   "rtspu"; "sip"; "sips"; "mms"; "sftp"; "tel"].

(** [(scheme, rest)] *)
Definition split_scheme (url : list ascii) : string * list ascii :=
  match break_at (is_char ":") url with
  | (c :: before, _ :: rest) =>
      if is_alpha c && forallb scheme_char (c :: before)
      then (PyStr.lower (PyStr.text (c :: before)), rest)
      else (EmptyString, url)
  | _ => (EmptyString, url)
  end.

(** [(netloc, rest)] *)
Definition split_netloc (url : list ascii) : list ascii * list ascii :=
  match url with
  | a :: b :: rest =>
      if is_char "/" a && is_char "/" b
      then break_at (fun c => is_char "/" c || is_char "?" c || is_char "#" c)
                    rest
      else ([], url)
  | _ => ([], url)
  end.

(** [_splitparams(url)[0]] *)
Definition strip_params (path : list ascii) : list ascii :=
  let (rlast, rdirs) := break_at (is_char "/") (List.rev path) in
  (* [rlast]: the last segment reversed; [rdirs]: the rest, reversed, from
     the last slash on *)
  match rdirs with
  | [] => fst (break_at (is_char ";") path)
  | _ => (List.rev rdirs ++ fst (break_at (is_char ";") (List.rev rlast)))%list
  end.

Definition path_of (url : string) : result string :=
  let u := filter (fun c => negb (unsafe c))
                  (PyStr.drop_while c0_or_space (PyStr.chars url)) in
  let (scheme, u) := split_scheme u in
  let (netloc, u) := split_netloc u in
  let has c := existsb (is_char c) netloc in
  if xorb (has "[") (has "]") then Raise (ValueError "Invalid IPv6 URL")
  else
    let u := fst (break_at (is_char "#") u) in
    let u := fst (break_at (is_char "?") u) in
    let u := if mem_str scheme uses_params && existsb (is_char ";") u
             then strip_params u else u in
    Ok (PyStr.text u).

End Urllib.

(** ** Operations on values of unknown type, with the exception Python
    raises when the type does not fit *)
Module Dyn.

(** [d.get(k, default)] *)
Definition get (d : json) (k : string) (default : json) : result json :=
  match d with
  | JDict f => Ok (match Py.lookup k f with Some v => v | None => default end)
  | _ => Raise AttributeError
  end.

(** [v[0]] *)
Definition first (v : json) : result json :=
  match v with
  | JList (x :: _) => Ok x
  | JList [] => Raise IndexError
  | JStr (String c _) => Ok (JStr (String c EmptyString))
  | JStr EmptyString => Raise IndexError
  | JDict _ => Raise KeyError
  | _ => Raise TypeError
  end.

(** [v[k]] for a [str] key *)
Definition item (v : json) (k : string) : result json :=
  match v with
  | JDict f => match Py.lookup k f with
               | Some x => Ok x
               | None => Raise KeyError
               end
  | _ => Raise TypeError
  end.

(** [v[:5]], as the sequence the [for] loop walks *)
Definition first_five (v : json) : result (list json) :=
  match v with
  | JList l => Ok (firstn 5 l)
  | JStr s =>
      Ok (map (fun c => JStr (String c EmptyString)) (firstn 5 (PyStr.chars s)))
  | _ => Raise TypeError
  end.

Fixpoint all_str (l : list json) : result (list string) :=
  match l with
  | [] => Ok []
  | JStr s :: l' => match all_str l' with
                    | Ok r => Ok (s :: r)
                    | Raise e => Raise e
                    end
  | _ :: _ => Raise TypeError
  end.

(** [sep.join(v)]: [v] iterates as a list, as the characters of a [str],
    or as the keys of a [dict]. *)
Definition join (sep : string) (v : json) : result string :=
  match v with
  | JList l => match all_str l with
               | Ok r => Ok (PyStr.join sep r)
               | Raise e => Raise e
               end
  | JStr s =>
      Ok (PyStr.join sep (map (fun c => String c EmptyString) (PyStr.chars s)))
  | JDict f => Ok (PyStr.join sep (map fst f))
  | _ => Raise TypeError
  end.

(** [v.lower()] *)
Definition lower (v : json) : result string :=
  match v with
  | JStr s => Ok (PyStr.lower s)
  | _ => Raise AttributeError
  end.

(** [v.split("T")[0]] *)
Definition before_T (v : json) : result string :=
  match v with
  | JStr s => Ok (hd EmptyString (PyStr.split_on "T" s))
  | _ => Raise AttributeError
  end.

End Dyn.

(* ================================================================== *)
(** * The pipeline *)
(* ================================================================== *)

Definition lift {A} (r : result A) : M A := fun st => (r, st).

Section Pipeline.

Variable w : world.
(** [urlparse(url).path], or the [ValueError] it raises. *)
Variable urlparse_path : string -> result string.

(** [requests.get(url, headers=HEADERS, timeout=timeout)] *)
Definition requests_get (url : string) (timeout : Z) : M response :=
  fun st =>
    let st' := {| id_counter := id_counter st;
                  requests_made := S (requests_made st);
                  disk := disk st;
                  log := (log st ++ [EvGet url timeout])%list |} in
    match net w (requests_made st) url with
    | Responds r => (Ok r, st')
    | Fails e => (Raise e, st')
    end.

(** ** HTTP fetch layer: [get] *)

(** The [for _ in range(RETRIES)] loop with [n] rounds left, and what
    follows it. *)
Fixpoint get_attempts (n : nat) (url : string) (timeout : Z)
         (last_exc : option exn) : M response :=
  match n with
  | O =>
      match last_exc with
      | Some e => raise e
      | None => raise (RuntimeError ("Failed to GET " ++ url))
      end
  | S n' =>
      fun st =>
        match requests_get url timeout st with
        | (Ok resp, st1) =>
            if (status_code resp =? 200)%Z then (Ok resp, st1)
            else
              ((if (status_code resp =? 429)%Z
                then say MsgRateLimited ;; sleep Cooldown30
                else say (MsgHttpStatus (status_code resp) url)) ;;
               rand_sleep ;;
               get_attempts n' url timeout last_exc) st1
        | (Raise Timeout, st1) =>
            (say (MsgTimeout url) ;;
             rand_sleep ;;
             get_attempts n' url timeout last_exc) st1
        | (Raise e, st1) =>
            (say (MsgNetworkError e) ;;
             rand_sleep ;;
             get_attempts n' url timeout (Some e)) st1
        end
  end.

Definition get (url : string) (timeout : option Z) : M response :=
  let timeout := match timeout with
                 | Some t => if (t =? 0)%Z then TIMEOUT_S else t
                 | None => TIMEOUT_S
                 end in
  get_attempts RETRIES url timeout None.

(** ** Small effects *)

(** [ensure_dir(path)] *)
Definition ensure_dir (path : string) : M unit :=
  if mkdir_fails w path then raise (OSError path)
  else emit (EvMkdir path).

(** [gen_id_from(filename, url)] *)
Definition gen_id_from (filename url : string) : M string :=
  fun st =>
    let n := S (id_counter st) in
    (Ok ("A" ++ PyStr.pad4 n),
     {| id_counter := n;
        requests_made := requests_made st;
        disk := disk st;
        log := log st |}).

Definition put_file (path : string) (c : file_content) : M unit :=
  fun st => (Ok tt, {| id_counter := id_counter st;
                       requests_made := requests_made st;
                       disk := (path, c) :: disk st;
                       log := log st |}).

(** A [with open(path, ...)] block that fails by itself: [open] raises and
    nothing is written, or the file is opened and the writing raises, which
    leaves the beginning of the file. *)
Definition failed_write (path : string) : M unit :=
  match write_breaks w path with
  | Some e => put_file path Truncated ;; raise e
  | None => raise (OSError path)
  end.

(** [with open(path, "wb") as f: for chunk in r.iter_content(8192):
    f.write(chunk)]: the block fails by itself ([failed_write]), or the
    chunks are written and the stream may break after them. *)
Definition write_stream (path : string) (r : response) : M unit :=
  if open_fails w path then failed_write path
  else
    put_file path (Bytes (String.concat EmptyString (body_chunks r))) ;;
    if body_breaks r then raise (NetworkError "stream") else ret tt.

(** ** Thumbnail acquirer: [download_thumbnail] *)

Definition download_thumbnail (thumbnail_url : json) (out_id : string)
           (timeout : Z) : M (string * string) :=
  if negb (Py.truthy thumbnail_url) then ret (EmptyString, EmptyString)
  else
    ensure_dir THUMB_DIR ;;
    url <- lift (match thumbnail_url with
                 | JStr s => Ok s
                 | _ => Raise AttributeError
                 end) ;;
    path <- lift (urlparse_path url) ;;
    let ext := PyStr.lower (OsPath.splitext_ext path) in
    try_except
      (r <- requests_get url timeout ;;
       if negb (status_code r =? 200)%Z then
         say (MsgThumbStatus (status_code r) url) ;;
         ret (url, EmptyString)
       else
         let ctype := PyStr.lower (match content_type r with
                                   | Some c => c
                                   | None => EmptyString
                                   end) in
         let ext := choose_ext ext ctype in
         let local_path := OsPath.join THUMB_DIR (out_id ++ ext) in
         write_stream local_path r ;;
         say (MsgThumbSaved local_path) ;;
         ret (url, local_path))
      (fun e => say (MsgThumbFailed e) ;; ret (url, EmptyString)).

(** ** Link loader: [load_links] *)

(** The [urls] list built from one value of the mapping. *)
Definition urls_of (value : json) : list string :=
  match value with
  | JStr s =>
      filter PyStr.nonempty (map PyStr.strip (PyStr.split_on "," s))
  | JList l =>
      filter PyStr.nonempty (map (fun v => PyStr.strip (Py.str v)) l)
  | _ => []
  end.

(** [u.startswith("#") or "http" not in u] *)
Definition comment_or_no_http (u : string) : bool :=
  PyStr.startswith "#" u || negb (PyStr.contains "http" u).

(** [path.strip("/").split("/")[-1] or "unnamed"] *)
Definition name_from_path (path : string) : string :=
  let seg := last (PyStr.split_on "/" (PyStr.strip_chars "/" path))
                  EmptyString in
  if PyStr.nonempty seg then seg else "unnamed".

(** The loop over [urls] under a blank key. *)
Fixpoint name_each (urls : list string) (pairs : list (string * string))
  : result (list (string * string)) :=
  match urls with
  | [] => Ok pairs
  | url :: rest =>
      match urlparse_path url with
      | Raise e => Raise e
      | Ok path => name_each rest (pairs ++ [(name_from_path path, url)])%list
      end
  end.

(** The loop over [data.items()]. *)
Fixpoint load_items (items : list (string * json))
         (pairs : list (string * string))
  : result (list (string * string)) :=
  match items with
  | [] => Ok pairs
  | (model_name, value) :: rest =>
      let model_name := PyStr.strip model_name in
      if negb (Py.truthy value) then load_items rest pairs
      else
        let urls := urls_of value in
        if match urls with [] => true | _ => false end
           || forallb comment_or_no_http urls
        then load_items rest pairs
        else if negb (PyStr.nonempty model_name) then
          match name_each urls pairs with
          | Raise e => Raise e
          | Ok pairs' => load_items rest pairs'
          end
        else
          load_items rest
            (pairs ++ map (fun url => (model_name, url)) urls)%list
  end.

Definition load_links (file_path : string) : M (list (string * string)) :=
  match links w with
  | LinksMissing =>
      raise (FileNotFoundError ("Link file not found: " ++ file_path))
  | LinksUnreadable e => raise e
  | LinksInvalid detail =>
      raise (RuntimeError
               ("Invalid JSON format in " ++ file_path ++ ": " ++ detail))
  | LinksData (JDict items) => lift (load_items items [])
  | LinksData _ => raise AttributeError            (* data.items() *)
  end.

(** ** Metadata resolver: [fetch_from_api] *)

(** Step 1: the loop that asks the model endpoint for the latest
    version; [Some id] is the [break]. *)
Fixpoint find_version (n : nat) (model_api : string) : M (option string) :=
  match n with
  | O => ret None
  | S n' =>
      found <- try_except
        (r <- requests_get model_api HTML_TIMEOUT ;;
         if (status_code r =? 200)%Z then
           model_json <- lift (match json_body r with
                               | Some j => Ok j
                               | None => Raise JSONDecodeError
                               end) ;;
           versions <- lift (Dyn.get model_json "modelVersions" (JList [])) ;;
           if Py.truthy versions then
             v0 <- lift (Dyn.first versions) ;;
             id <- lift (Dyn.item v0 "id") ;;
             ret (Some (Py.str id))
           else sleep OneSecond ;; ret None
         else sleep OneSecond ;; ret None)
        (fun e => say (MsgModelApiError e) ;; sleep OneSecond ;; ret None) ;;
      match found with
      | Some id => ret (Some id)
      | None => find_version n' model_api
      end
  end.

(** Step 2: the loop that fetches the version record; [{}] when every
    round fails. *)
Fixpoint fetch_version (n : nat) (version_api : string) : M json :=
  match n with
  | O => ret (JDict [])
  | S n' =>
      got <- try_except
        (r <- requests_get version_api HTML_TIMEOUT ;;
         if (status_code r =? 200)%Z then
           v <- lift (match json_body r with
                      | Some j => Ok j
                      | None => Raise JSONDecodeError
                      end) ;;
           ret (Some v)
         else sleep OneSecond ;; ret None)
        (fun e => say (MsgVersionApiError e) ;; sleep OneSecond ;; ret None) ;;
      match got with
      | Some v => ret v
      | None => fetch_version n' version_api
      end
  end.

(** The [for j, img in enumerate(images[:5], 1)] loop. *)
Fixpoint thumbs_loop (out_id : string) (j : nat) (images : list json)
         (thumbs_remote thumbs_local : list string)
  : M (list string * list string) :=
  match images with
  | [] => ret (thumbs_remote, thumbs_local)
  | img :: rest =>
      thumb_url <- lift (Dyn.get img "url" JNull) ;;
      if negb (Py.truthy thumb_url)
      then thumbs_loop out_id (S j) rest thumbs_remote thumbs_local
      else
        let thumb_id := out_id ++ "_T" ++ PyStr.of_nat j in
        lists <- try_except
          (p <- download_thumbnail thumb_url thumb_id THUMB_TIMEOUT ;;
           let (remote, local) := p : string * string in
           ret (if PyStr.nonempty remote
                then (thumbs_remote ++ [remote])%list else thumbs_remote,
                if PyStr.nonempty local
                then (thumbs_local ++ [local])%list else thumbs_local))
          (fun e => say (MsgThumbLoopFailed j e) ;;
                    ret (thumbs_remote, thumbs_local)) ;;
        thumbs_loop out_id (S j) rest (fst lists) (snd lists)
  end.

Definition strs (l : list string) : json := JList (map JStr l).

(** Everything from [# --- extract fields ---] on, given the version
    record [v]. *)
Definition build_record (filename url model_id_in_url : string) (v : json)
  : M json :=
  model_info <- lift (Dyn.get v "model" (JDict [])) ;;
  files <- lift (Dyn.get v "files" JNull) ;;
  file_info <- lift (Dyn.first (Py.or_else files (JList [JDict []]))) ;;
  images0 <- lift (Dyn.get v "images" JNull) ;;
  _ <- lift (Dyn.first (Py.or_else images0 (JList [JDict []]))) ;;
  name_m <- lift (Dyn.get model_info "name" (JStr EmptyString)) ;;
  name_v <- lift (Dyn.get v "name" (JStr EmptyString)) ;;
  let title := PyStr.strip_chars " -" (Py.str name_m ++ " - " ++ Py.str name_v) in
  model_type <- lift (Dyn.get model_info "type" (JStr EmptyString)) ;;
  base_model <- lift (Dyn.get v "baseModel" (JStr EmptyString)) ;;
  base_model_type <- lift (Dyn.get v "baseModelType" (JStr EmptyString)) ;;
  words <- lift (Dyn.get v "trainedWords" (JList [])) ;;
  trained_words <- lift (Dyn.join ", " words) ;;
  size_kb <- lift (Dyn.get file_info "sizeKB" (JInt 0)) ;;
  size <- lift (format_size (float_gb w) size_kb) ;;
  hashes <- lift (Dyn.get file_info "hashes" (JDict [])) ;;
  download_url <- lift (Dyn.get file_info "downloadUrl" JNull) ;;
  let download_link := Py.or_else download_url (JStr url) in
  description_html <- lift (Dyn.get v "description" (JStr EmptyString)) ;;
  created <- lift (Dyn.get v "createdAt" (JStr EmptyString)) ;;
  created_at <- lift (Dyn.before_T created) ;;
  id_m <- lift (Dyn.get model_info "id" JNull) ;;
  let model_id := Py.or_else id_m (JStr model_id_in_url) in
  let model_link := "https://civitai.com/models/" ++ Py.str model_id in
  out_id <- gen_id_from filename url ;;
  images1 <- lift (Dyn.get v "images" JNull) ;;
  images <- lift (Dyn.first_five (Py.or_else images1 (JList []))) ;;
  lists <- thumbs_loop out_id 1 images [] [] ;;
  let (thumbs_remote, thumbs_local) := lists : list string * list string in
  let thumbnail := hd EmptyString thumbs_remote in
  let thumbnail_local := hd EmptyString thumbs_local in
  type_lower <- lift (Dyn.lower model_type) ;;
  ret (JDict
    [("filename", JStr filename);
     ("title", JStr title);
     ("type", JStr type_lower);
     ("base_model", base_model);
     ("base_model_type", base_model_type);
     ("size", JStr size);
     ("thumbnail", JStr thumbnail);
     ("thumbnail_local", JStr thumbnail_local);
     ("thumbnails_all", strs thumbs_remote);
     ("thumbnails_local", strs thumbs_local);
     ("model_link", JStr model_link);
     ("metadata", JDict
        [("trained_words", JStr trained_words);
         ("hashes", hashes);
         ("description", description_html);
         ("download_link", download_link);
         ("published_on", JStr created_at)])]).

Definition fetch_from_api (filename url : string) : M json :=
  match PyStr.search_digits_after "/models/" url with
  | None => raise (ValueError ("No model ID found in URL: " ++ url))
  | Some model_id =>
      version_id <-
        match PyStr.search_digits_after "modelVersionId=" url with
        | Some version_id => ret version_id
        | None =>
            let model_api := "https://civitai.com/api/v1/models/" ++ model_id in
            found <- find_version 3 model_api ;;
            match found with
            | Some (String c id) => ret (String c id)
            | _ => raise (RuntimeError
                     ("Could not determine version ID for model " ++ model_id))
            end
        end ;;
      let version_api :=
        "https://civitai.com/api/v1/model-versions/" ++ version_id in
      v <- fetch_version 3 version_api ;;
      if negb (Py.truthy v)
      then raise (RuntimeError ("Failed to fetch version " ++ version_id))
      else build_record filename url model_id v
  end.

(** The [ThumbnailAsset]s of a record: the pair [download_thumbnail]
    returned for each image it was called on, in order.  This walks the
    images exactly as [thumbs_loop] does and is what the two lists of
    [thumbs_loop] are compared with. *)
Fixpoint attempt_assets (out_id : string) (j : nat) (images : list json)
  : M (list (string * string)) :=
  match images with
  | [] => ret []
  | img :: rest =>
      thumb_url <- lift (Dyn.get img "url" JNull) ;;
      if negb (Py.truthy thumb_url)
      then attempt_assets out_id (S j) rest
      else
        let thumb_id := out_id ++ "_T" ++ PyStr.of_nat j in
        one <- try_except
          (p <- download_thumbnail thumb_url thumb_id THUMB_TIMEOUT ;;
           ret [p])
          (fun e => say (MsgThumbLoopFailed j e) ;; ret []) ;;
        more <- attempt_assets out_id (S j) rest ;;
        ret (one ++ more)%list
  end.

(** ** Batch orchestrator and registry writer: [main] *)

(** The registry [out] and the two counters. *)
Definition tally : Type := (list (string * json) * nat * nat)%type.

(** The [for i, (filename, url) in enumerate(links_list, 1)] loop. *)
Fixpoint process_links (total i : nat) (entries : list (string * string))
         (out : list (string * json)) (success_count fail_count : nat)
  : M tally :=
  match entries with
  | [] => ret (out, success_count, fail_count)
  | (filename, url) :: rest =>
      say (MsgFetching i total filename) ;;
      fetched <- try_except
        (meta <- fetch_from_api filename url ;; ret (Some meta))
        (fun e => say (MsgFailed e) ;; ret None) ;;
      match fetched with
      | None =>
          process_links total (S i) rest out success_count (S fail_count)
      | Some meta =>
          out_id <- gen_id_from filename url ;;
          let out := Py.store out_id meta out in
          t <- lift (Dyn.item meta "type") ;;
          b <- lift (Dyn.item meta "base_model") ;;
          z <- lift (Dyn.item meta "size") ;;
          say (MsgParsed t b z) ;;
          sleep Polite ;;
          process_links total (S i) rest out (S success_count) fail_count
      end
  end.

(** The [# Save JSON] block: the directory, then the [with open] block,
    which writes the whole registry or fails by itself ([failed_write]:
    [open] raises, or [json.dump] raises on the way and a truncated file
    stays); every exception ends in the save-error line. *)
Definition save_registry (out : list (string * json)) : M unit :=
  try_except
    (ensure_dir OUTPUT_DIR ;;
     (if open_fails w OUTPUT_JSON then failed_write OUTPUT_JSON
      else put_file OUTPUT_JSON (JsonText (JDict out))) ;;
     say (MsgSaved OUTPUT_JSON))
    (fun e => say (MsgSaveFailed e)).

(** Everything in [main] once the list of links is in hand. *)
Definition run_batch (links_list : list (string * string)) : M json :=
  links_list <-
    (if negb (Nat.eqb TEST_LIMIT 0) && Nat.ltb TEST_LIMIT (length links_list)
     then say (MsgTestMode TEST_LIMIT (length links_list)) ;;
          ret (firstn TEST_LIMIT links_list)
     else ret links_list) ;;
  say (MsgStart (length links_list)) ;;
  counts <- process_links (length links_list) 1 links_list [] 0 0 ;;
  let '(out, success_count, fail_count) := counts : tally in
  save_registry out ;;
  say MsgSummary ;;
  say (MsgSuccessful success_count) ;;
  say (MsgFailedCount fail_count) ;;
  say (MsgOutput (length out)) ;;
  ret JNull.

(** [main()]; the value is what the call returns: [None] on every path. *)
Definition main : M json :=
  ensure_dir THUMB_DIR ;;
  loaded <- try_except
    (l <- load_links LINKS ;; ret (Some l))
    (fun e => say (MsgLoadError e) ;; ret None) ;;
  match loaded with
  | None => ret JNull
  | Some [] => say MsgNoLinks ;; ret JNull
  | Some links_list => run_batch links_list
  end.

End Pipeline.

(* ================================================================== *)
(** * The size rule inside [parse_civitai_page] *)
(* ================================================================== *)

Definition and_then {A B} (r : result A) (k : A -> result B) : result B :=
  match r with
  | Ok a => k a
  | Raise e => Raise e
  end.

(** [s.replace("  ", " ")] *)
Fixpoint replace_double_space (s : string) : string :=
  match s with
  | String a (String b r as t) =>
      if Ascii.eqb a " " && Ascii.eqb b " "
      then String " " (replace_double_space r)
      else String a (replace_double_space t)
  | _ => s
  end.

(** The [# --- SIZE ---] block of [parse_civitai_page] (lines 619-640), given
    the page's [__NEXT_DATA__] JSON and what [find_table_file_size] finds in
    the markup. *)
Definition page_size (big : Z -> result string) (next_json : json)
           (table_file_size : string) : string :=
  let looked_up :=
    and_then (Dyn.item next_json "props") (fun p =>
    and_then (Dyn.item p "pageProps") (fun pp =>
    and_then (Dyn.item pp "modelVersion") (fun mv =>
    and_then (Dyn.item mv "files") (fun fs =>
    and_then (Dyn.first fs) (fun f0 =>
    Dyn.item f0 "sizeKB"))))) in
  let size :=
    match looked_up with
    | Ok size_kb =>
        if Py.truthy size_kb
        then match format_size big size_kb with
             | Ok s => s
             | Raise _ => EmptyString
             end
        else EmptyString
    | Raise _ => EmptyString
    end in
  let size := if PyStr.nonempty size then size else table_file_size in
  if PyStr.nonempty size then PyStr.strip (replace_double_space size)
  else size.

(** ** The size string, described *)

(** [h] is the integer nearest to [num/den], the even one of two that are
    equally near. *)
Definition nearest_even (num den h : Z) : Prop :=
  (2 * Z.abs (num - den * h) <= den)%Z /\
  ((2 * Z.abs (num - den * h) = den)%Z -> Z.even h = true).

(** The size string [s] for [n] kilobytes: the largest unit that keeps the
    value at 1 or above, the value in hundredths [h] for megabytes and
    gigabytes, printed as Python prints the float [h/100]. *)
Definition sized (n : Z) (s : string) : Prop :=
  (n = 0%Z -> s = EmptyString) /\
  ((0 < n < 1024)%Z -> s = PyStr.of_Z n ++ " KB") /\
  ((1024 <= n < 1024 * 1024)%Z ->
   exists h, nearest_even (100 * n) 1024 h /\ s = repr_hundredths h ++ " MB") /\
  ((1024 * 1024 <= n)%Z ->
   exists h, nearest_even (100 * n) (1024 * 1024) h /\
             s = repr_hundredths h ++ " GB").

(** A page whose embedded JSON carries [sizeKB]. *)
Definition page_with_size (size_kb : Z) : json :=
  JDict [("props", JDict [("pageProps", JDict [("modelVersion",
    JDict [("files", JList [JDict [("sizeKB", JInt size_kb)]])])])])].

(* ================================================================== *)
(** * Statements of the specification, as definitions *)
(* ================================================================== *)

(** The extension rule in the words of the specification: the URL
    extension first, then the content type, then the fallback. *)
Definition spec_ext_rule (ext content_type : string) : string :=
  if mem_str ext image_exts then ext
  else if PyStr.contains "image" content_type then ".jpg"
  else if PyStr.contains "video" content_type then ".mp4"
  else ".dat".

(** The extension rule of the code, case by case. *)
Inductive chosen_ext (ext ctype : string) : string -> Prop :=
| ImageKeeps :
    PyStr.contains "image" ctype = true -> mem_str ext image_exts = true ->
    chosen_ext ext ctype ext
| ImageDefault :
    PyStr.contains "image" ctype = true -> mem_str ext image_exts = false ->
    chosen_ext ext ctype ".jpg"
| VideoKeeps :
    PyStr.contains "image" ctype = false ->
    PyStr.contains "video" ctype = true -> mem_str ext video_exts = true ->
    chosen_ext ext ctype ext
| VideoDefault :
    PyStr.contains "image" ctype = false ->
    PyStr.contains "video" ctype = true -> mem_str ext video_exts = false ->
    chosen_ext ext ctype ".mp4"
| OtherKeeps :
    PyStr.contains "image" ctype = false ->
    PyStr.contains "video" ctype = false -> ext <> EmptyString ->
    chosen_ext ext ctype ext
| OtherFallback :
    PyStr.contains "image" ctype = false ->
    PyStr.contains "video" ctype = false -> ext = EmptyString ->
    chosen_ext ext ctype ".dat".

(** The answers the world gives to [n] consecutive requests for [url],
    the first of them after [k] earlier requests. *)
Fixpoint outcomes (w : world) (url : string) (k n : nat) : list net_outcome :=
  match n with
  | O => []
  | S n' => net w k url :: outcomes w url (S k) n'
  end.

(** An attempt of [get] fails unless it is answered with status 200. *)
Definition attempt_fails (o : net_outcome) : bool :=
  match o with
  | Responds r => negb (status_code r =? 200)%Z
  | Fails _ => true
  end.

(** What [last_exc] holds after the given failed attempts. *)
Fixpoint recorded (last_exc : option exn) (os : list net_outcome)
  : option exn :=
  match os with
  | [] => last_exc
  | Fails Timeout :: os' => recorded last_exc os'
  | Fails e :: os' => recorded (Some e) os'
  | Responds _ :: os' => recorded last_exc os'
  end.

(** The specification's "last observed error" of a sequence of failed
    attempts: the exception of the final attempt, or, when that attempt was
    answered with a bad status, the error [get] has for it. *)
Definition last_observed_error (url : string) (os : list net_outcome)
  : option exn :=
  match List.rev os with
  | [] => None
  | Fails e :: _ => Some e
  | Responds _ :: _ => Some (RuntimeError ("Failed to GET " ++ url))
  end.

(** A world that answers every request from a fixed script of outcomes,
    then refuses, and in which every directory and file can be written.  No
    size of 2^53 KB or more occurs in the runs evaluated in such a world:
    its [float_gb] is never asked. *)
Definition no_big_sizes : Z -> result string := fun _ => Raise OverflowError.
Definition scripted (script : list net_outcome) (file : links_file) : world :=
  {| net := fun n _ => nth n script (Fails (NetworkError "unreachable"));
     mkdir_fails := fun _ => false;
     open_fails := fun _ => false;
     write_breaks := fun _ => None;
     float_gb := no_big_sizes;
     links := file |}.

(** The record [build_record] returns, from the values it extracted. *)
Definition record_of (filename title type_lower : string)
           (base_model base_model_type : json) (size : string)
           (thumbs_remote thumbs_local : list string) (model_link : string)
           (trained_words : string) (hashes description download_link : json)
           (created_at : string) : json :=
  JDict
    [("filename", JStr filename);
     ("title", JStr title);
     ("type", JStr type_lower);
     ("base_model", base_model);
     ("base_model_type", base_model_type);
     ("size", JStr size);
     ("thumbnail", JStr (hd EmptyString thumbs_remote));
     ("thumbnail_local", JStr (hd EmptyString thumbs_local));
     ("thumbnails_all", strs thumbs_remote);
     ("thumbnails_local", strs thumbs_local);
     ("model_link", JStr model_link);
     ("metadata", JDict
        [("trained_words", JStr trained_words);
         ("hashes", hashes);
         ("description", description);
         ("download_link", download_link);
         ("published_on", JStr created_at)])].


(** "A version record's sizeKB": the [sizeKB] of the first file of the
    version record [v], as [build_record] reads it. *)
Definition size_kb_of (v : json) : result json :=
  and_then (Dyn.get v "files" JNull) (fun files =>
  and_then (Dyn.first (Py.or_else files (JList [JDict []]))) (fun f0 =>
  Dyn.get f0 "sizeKB" (JInt 0))).

(** ** Sample data for concrete runs *)

Definition json_response (j : json) : response :=
  {| status_code := 200; content_type := Some "application/json";
     json_body := Some j; body_chunks := []; body_breaks := false |}.

Definition media_response (ctype : string) : response :=
  {| status_code := 200; content_type := Some ctype;
     json_body := None; body_chunks := ["<bytes>"]; body_breaks := false |}.

Definition status_response (code : Z) : response :=
  {| status_code := code; content_type := None;
     json_body := None; body_chunks := []; body_breaks := false |}.

(** A version record that carries a file size and nothing else of note. *)
Definition version_with_size (n : Z) : json :=
  JDict [("id", JInt 7); ("files", JList [JDict [("sizeKB", JInt n)]])].

(** A world without network or link file. *)
Definition offline : world := scripted [] LinksMissing.

(** The specification's "first successfully downloaded asset". *)
Definition first_successful (assets : list (string * string))
  : option (string * string) :=
  find (fun a => PyStr.nonempty (snd a)) assets.

(** A version record with two images. *)
Definition version_with_two_images : json :=
  JDict [("id", JInt 7);
         ("images", JList [JDict [("url", JStr "https://img.example/a.png")];
                           JDict [("url", JStr "https://img.example/b.jpg")]])].

(** The first image download times out, the second is served. *)
Definition first_image_fails : world :=
  scripted [Fails Timeout; Responds (media_response "image/jpeg")] LinksMissing.

(** ** The fields of a ModelRecord *)

Inductive field : Type :=
| F_filename | F_title | F_type | F_base_model | F_base_model_type | F_size
| F_thumbnail | F_thumbnail_local | F_thumbnails_all | F_thumbnails_local
| F_model_link
| F_trained_words | F_hashes | F_description | F_download_link
| F_published_on.                  (* the last five under "metadata" *)

Definition all_fields : list field :=
  [F_filename; F_title; F_type; F_base_model; F_base_model_type; F_size;
   F_thumbnail; F_thumbnail_local; F_thumbnails_all; F_thumbnails_local;
   F_model_link; F_trained_words; F_hashes; F_description; F_download_link;
   F_published_on].

Definition in_metadata (rec : json) (k : string) : result json :=
  and_then (Dyn.item rec "metadata") (fun m => Dyn.item m k).

(** [rec[...]]: the value of a field of a record. *)
Definition field_value (rec : json) (f : field) : result json :=
  match f with
  | F_filename => Dyn.item rec "filename"
  | F_title => Dyn.item rec "title"
  | F_type => Dyn.item rec "type"
  | F_base_model => Dyn.item rec "base_model"
  | F_base_model_type => Dyn.item rec "base_model_type"
  | F_size => Dyn.item rec "size"
  | F_thumbnail => Dyn.item rec "thumbnail"
  | F_thumbnail_local => Dyn.item rec "thumbnail_local"
  | F_thumbnails_all => Dyn.item rec "thumbnails_all"
  | F_thumbnails_local => Dyn.item rec "thumbnails_local"
  | F_model_link => Dyn.item rec "model_link"
  | F_trained_words => in_metadata rec "trained_words"
  | F_hashes => in_metadata rec "hashes"
  | F_description => in_metadata rec "description"
  | F_download_link => in_metadata rec "download_link"
  | F_published_on => in_metadata rec "published_on"
  end.

(** The key [k] is not in the dict [d]. *)
Definition absent (d : json) (k : string) : bool :=
  match d with
  | JDict f => match Py.lookup k f with None => true | Some _ => false end
  | _ => false
  end.

(** [v.get("model", {})] and [(v.get("files") or [{}])[0]], or [{}]. *)
Definition model_info_of (v : json) : json :=
  match Dyn.get v "model" (JDict []) with Ok m => m | Raise _ => JDict [] end.
Definition file_info_of (v : json) : json :=
  match and_then (Dyn.get v "files" JNull)
                 (fun files => Dyn.first (Py.or_else files (JList [JDict []])))
  with Ok f => f | Raise _ => JDict [] end.

(** The upstream version record [v] omits the data a field is read from. *)
Definition upstream_omits (v : json) (f : field) : bool :=
  match f with
  | F_filename => false                      (* comes from the link list *)
  | F_title => absent (model_info_of v) "name" && absent v "name"
  | F_type => absent (model_info_of v) "type"
  | F_base_model => absent v "baseModel"
  | F_base_model_type => absent v "baseModelType"
  | F_size => absent (file_info_of v) "sizeKB"
  | F_thumbnail | F_thumbnail_local | F_thumbnails_all | F_thumbnails_local =>
      absent v "images"
  | F_model_link => absent (model_info_of v) "id"
  | F_trained_words => absent v "trainedWords"
  | F_hashes => absent (file_info_of v) "hashes"
  | F_description => absent v "description"
  | F_download_link => absent (file_info_of v) "downloadUrl"
  | F_published_on => absent v "createdAt"
  end.

(** An empty string or an empty collection. *)
Definition is_empty (x : json) : bool :=
  match x with
  | JStr EmptyString => true
  | JList [] => true
  | JDict [] => true
  | _ => false
  end.

(** The specification's invariant: every field is there, and a field whose
    upstream data is omitted is empty. *)
Definition every_field_present (rec : json) : Prop :=
  forall f, exists x, field_value rec f = Ok x.
Definition omitted_fields_empty (v rec : json) : Prop :=
  forall f, upstream_omits v f = true ->
            exists x, field_value rec f = Ok x /\ is_empty x = true.
(** The same, apart from the two links, which fall back on the input URL. *)
Definition omitted_fields_default (url mid : string) (v rec : json) : Prop :=
  forall f, upstream_omits v f = true ->
    match f with
    | F_download_link => field_value rec f = Ok (JStr url)
    | F_model_link =>
        field_value rec f = Ok (JStr ("https://civitai.com/models/" ++ mid))
    | _ => exists x, field_value rec f = Ok x /\ is_empty x = true
    end.

(** The key [k] of the dict [d] holds [null]. *)
Definition holds_null (d : json) (k : string) : bool :=
  match d with
  | JDict f => match Py.lookup k f with Some JNull => true | _ => false end
  | _ => false
  end.

(** The upstream version record [v] gives [null] for the data of a field
    that the record takes over as it is. *)
Definition upstream_null (v : json) (f : field) : bool :=
  match f with
  | F_base_model => holds_null v "baseModel"
  | F_base_model_type => holds_null v "baseModelType"
  | F_hashes => holds_null (file_info_of v) "hashes"
  | F_description => holds_null v "description"
  | _ => false
  end.

(** A field of the record is [null] exactly when it is one of the four
    fields taken over as they are and the upstream gives [null] for it. *)
Definition null_only_from_upstream (v rec : json) : Prop :=
  forall f x, field_value rec f = Ok x ->
              (x = JNull <-> upstream_null v f = true).

(** A version record with a [null] description, served for version 7. *)
Definition null_description_version : json :=
  JDict [("id", JInt 7); ("description", JNull)].
Definition serves_null_description : world :=
  scripted [Responds (json_response null_description_version)] LinksMissing.

(** A version record of a model of type LORA, served for version 7. *)
Definition lora_version : json :=
  JDict [("id", JInt 7); ("model", JDict [("type", JStr "LORA")])].
Definition serves_lora_version : world :=
  scripted [Responds (json_response lora_version)] LinksMissing.

(** ** Reading a run of the batch *)

(** The state in which entry [i] of [total] is resolved: the progress line
    has been printed. *)
Definition announced (total i : nat) (filename : string) (st : state) : state :=
  snd (say (MsgFetching i total filename) st).

(** The state in which the loop goes on after a failed entry. *)
Definition after_failure (e : exn) (st : state) : state :=
  snd (say (MsgFailed e) st).

Definition item_or_null (d : json) (k : string) : json :=
  match Dyn.item d k with Ok x => x | Raise _ => JNull end.

(** The state in which the loop goes on after a resolved entry: the
    identifier drawn, the line printed, the polite pause taken. *)
Definition after_success (meta : json) (st : state) : state :=
  {| id_counter := S (id_counter st);
     requests_made := requests_made st;
     disk := disk st;
     log := ((log st ++
              [EvConsole (MsgParsed (item_or_null meta "type")
                                    (item_or_null meta "base_model")
                                    (item_or_null meta "size"))])
             ++ [EvSleep Polite])%list |}.

(** The identifier [main] draws for an entry resolved in state [st]. *)
Definition registry_key (st : state) : string :=
  "A" ++ PyStr.pad4 (S (id_counter st)).

(** The counts of the summary at the end of the console log: successful,
    failed, entries in the output. *)
Definition reported_counts (l : list event) : option (nat * nat * nat) :=
  match List.rev l with
  | EvConsole (MsgOutput n) :: EvConsole (MsgFailedCount f)
      :: EvConsole (MsgSuccessful s) :: _ => Some (s, f, n)
  | _ => None
  end.

(** The registry file as written by [main], if any. *)
Definition saved_registry (st : state) : option json :=
  match find (fun p => String.eqb (fst p) OUTPUT_JSON) (disk st) with
  | Some (_, JsonText doc) => Some doc
  | _ => None
  end.

(** What the resolutions of a batch give, entry by entry, from the state
    [st] on: for every entry the record [fetch_from_api] returned, with the
    key drawn for it, or the exception it raised.  The entries are resolved
    one after another, each in the state the one before left: the progress
    line printed before, and after it the failure line, or the key drawn,
    the line and the pause. *)
Fixpoint batch_outcomes (w : world) (up : string -> result string)
         (total i : nat) (entries : list (string * string)) (st : state)
  : list (result (string * json)) :=
  match entries with
  | [] => []
  | (filename, url) :: rest =>
      match fetch_from_api w up filename url (announced total i filename st)
      with
      | (Ok meta, st1) =>
          Ok (registry_key st1, meta)
            :: batch_outcomes w up total (S i) rest (after_success meta st1)
      | (Raise e, st1) =>
          Raise e
            :: batch_outcomes w up total (S i) rest (after_failure e st1)
      end
  end.

(** The records of the entries that resolved, in order, under their keys. *)
Definition resolved_records (os : list (result (string * json)))
  : list (string * json) :=
  flat_map (fun o => match o with Ok kv => [kv] | Raise _ => [] end) os.

(** The number of entries whose resolution raised. *)
Definition failures (os : list (result (string * json))) : nat :=
  List.length (filter (fun o => match o with Raise _ => true | Ok _ => false end)
                      os).

(** The outcomes of the batch [run_batch] runs on [links_list]. *)
Definition run_outcomes (w : world) (up : string -> result string)
           (links_list : list (string * string)) (st : state)
  : list (result (string * json)) :=
  batch_outcomes w up (List.length links_list) 1 links_list
                 (snd (say (MsgStart (List.length links_list)) st)).

(** The specification's reading of "observable by the caller as a return
    value": some function recovers the summary counts of a run from what
    [main] returned. *)
Definition counts_returned (f : json -> option (nat * nat * nat)) : Prop :=
  forall w up st r st',
    main w up st = (Ok r, st') -> f r = reported_counts (log st').

(** A link file with one entry, and worlds in which that entry resolves
    (one version record, one image) or does not. *)
Definition one_link : links_file :=
  LinksData (JDict [("foo", JStr "https://civitai.com/models/12?modelVersionId=7")]).

Definition version_with_one_image : json :=
  JDict [("id", JInt 7);
         ("images", JList [JDict [("url", JStr "https://img.example/a.jpg")]])].

Definition one_model_one_image : world :=
  scripted [Responds (json_response version_with_one_image);
            Responds (media_response "image/jpeg")] one_link.

Definition one_model_unreachable : world := scripted [] one_link.

(** A batch of two: a link without model id, then a link that resolves. *)
Definition bad_then_good : list (string * string) :=
  [("bad", "https://example.com/nothing");
   ("foo", "https://civitai.com/models/12?modelVersionId=7")].

Definition serves_one_version : world :=
  scripted [Responds (json_response (version_with_size 2048))] LinksMissing.

(** A version record that carries nothing but its id, served for version 7. *)
Definition bare_version : json := JDict [("id", JInt 7)].
Definition serves_bare_version : world :=
  scripted [Responds (json_response bare_version)] LinksMissing.
Definition versioned_url : string :=
  "https://civitai.com/models/12?modelVersionId=7".

(** ** The link loader's output, described *)




(** ** The link loader's output, described without the loader *)








(* ================================================================== *)
(** * Helpers of the script outside the resolver *)
(* ================================================================== *)

(** ** [safe_filename] *)

(** The characters of the pattern's class: backslash, slash, star, question
    mark, colon, double quote, angle brackets and bar. *)
Definition forbidden (c : ascii) : bool :=
  PyStr.mem_char c "\/*?:<>|" || Ascii.eqb c Py.dquote.

(** [re.sub] of the pattern by an underscore, over the characters: every
    maximal run of forbidden characters becomes one underscore; [in_run]
    tells that the character before was forbidden. *)
Fixpoint sub_runs (in_run : bool) (l : list ascii) : list ascii :=
  match l with
  | [] => []
  | c :: l' =>
      if forbidden c
      then if in_run then sub_runs true l' else "_"%char :: sub_runs true l'
      else c :: sub_runs false l'
  end.

Definition safe_filename (name : string) : string :=
  PyStr.text (sub_runs false (PyStr.chars name)).

(** A name without forbidden characters. *)
Definition clean (name : string) : bool :=
  forallb (fun c => negb (forbidden c)) (PyStr.chars name).

(** ** Trigger words: the de-duplication loop *)

(** The loop of [find_table_trigger_words] (lines 316-321) and of
    [find_table_trigger_words_by_position] (lines 359-364) over the
    collected [words]; [seen] is the set, [uniq] the list. *)
Fixpoint dedupe_loop (words seen uniq : list string) : list string :=
  match words with
  | [] => uniq
  | w :: rest =>
      if mem_str w seen then dedupe_loop rest seen uniq
      else dedupe_loop rest (w :: seen) (uniq ++ [w])%list
  end.

Definition unique_words (words : list string) : list string :=
  dedupe_loop words [] [].

(* ================================================================== *)
(** * Further properties of the pipeline, as definitions *)
(* ================================================================== *)

(** ** Accounting for what a computation does *)

(** A computation draws at most [ids] identifiers and issues at most
    [reqs] requests, and takes none back. *)
Definition uses {A} (m : M A) (ids reqs : nat) : Prop :=
  forall st r st', m st = (r, st') ->
    (id_counter st <= id_counter st' <= id_counter st + ids)%nat /\
    (requests_made st <= requests_made st' <= requests_made st + reqs)%nat.

(** A computation only adds files to the disk. *)
Definition adds_files {A} (m : M A) : Prop :=
  forall st r st', m st = (r, st') ->
    exists added, disk st' = (added ++ disk st)%list.

(** The pauses of one kind in a log. *)
Fixpoint count_pause (p : pause) (l : list event) : nat :=
  match l with
  | [] => 0
  | EvSleep q :: l' =>
      (match p, q with
       | Cooldown30, Cooldown30 | Backoff, Backoff
       | OneSecond, OneSecond | Polite, Polite => 1
       | _, _ => 0
       end + count_pause p l')%nat
  | _ :: l' => count_pause p l'
  end.

(** An attempt answered with status 429. *)
Definition rate_limited (o : net_outcome) : bool :=
  match o with
  | Responds r => (status_code r =? 429)%Z
  | Fails _ => false
  end.

(** The state once a request for [url] has gone out. *)
Definition request_sent (url : string) (timeout : Z) (st : state) : state :=
  {| id_counter := id_counter st;
     requests_made := S (requests_made st);
     disk := disk st;
     log := (log st ++ [EvGet url timeout])%list |}.

(** An answer whose body breaks after its first chunk. *)
Definition broken_png_response : response :=
  {| status_code := 200; content_type := Some "image/png";
     json_body := None; body_chunks := ["<part>"]; body_breaks := true |}.

(** An answer of the version endpoint that yields no record: an exception,
    a status other than 200, or a body that is not JSON. *)
Definition no_record (o : net_outcome) : bool :=
  match o with
  | Fails _ => true
  | Responds r =>
      negb (status_code r =? 200)%Z
      || match json_body r with None => true | Some _ => false end
  end.

(** The number an identifier's digits stand for. *)
Definition digits_value (s : string) : option Z :=
  option_map Z.of_uint (NilEmpty.uint_of_string s).

(** The identifier for the counter value [n]. *)
Definition id_of (n : nat) : string := "A" ++ PyStr.pad4 n.

(** ** What the link loader promises about an entry *)

(** The entry [p] has a name, and comes from a key of [items]: its url is a
    piece of the key's value, its name the stripped key or, under a blank
    key, the name derived from the url's path. *)
Definition named_entry (up : string -> result string)
           (items : list (string * json)) (p : string * string) : Prop :=
  PyStr.nonempty (fst p) = true /\
  exists key value,
    In (key, value) items /\ In (snd p) (urls_of value) /\
    (fst p = PyStr.strip key \/
     (PyStr.nonempty (PyStr.strip key) = false /\
      exists path, up (snd p) = Ok path /\ fst p = name_from_path path)).

(** The exception [e] is the URL parser's, raised on a piece of a value
    under a blank key of [items]. *)
Definition parser_raised (up : string -> result string)
           (items : list (string * json)) (e : exn) : Prop :=
  exists key value url,
    In (key, value) items /\ PyStr.nonempty (PyStr.strip key) = false /\
    In url (urls_of value) /\ up url = Raise e.

(** A link file with a blank key. *)
Definition blank_key_links : list (string * json) :=
  [(" ", JStr "https://civitai.com/models/12/foo")].

(** A link file with a blank key over a url the parser refuses. *)
Definition blank_key_bad_url : list (string * json) :=
  [(EmptyString, JStr "http://[civitai.com/models/12")].

(** An answer of the model endpoint that lists no version: an exception, a
    status other than 200, a body that is not JSON, or a JSON object whose
    [modelVersions] is missing or empty. *)
Definition no_version (o : net_outcome) : bool :=
  match o with
  | Fails _ => true
  | Responds r =>
      negb (status_code r =? 200)%Z
      || match json_body r with
         | None => true
         | Some (JDict d) =>
             match Py.lookup "modelVersions" d with
             | None | Some (JList []) => true
             | Some _ => false
             end
         | Some _ => false
         end
  end.

(** The local thumbnails of the record [rec] are named after the identifier
    of the counter value [k]. *)
Definition thumbs_named (k : nat) (rec : json) : Prop :=
  exists local,
    Dyn.item rec "thumbnails_local" = Ok (strs local) /\
    Forall (fun p =>
              exists i ext,
                (1 <= i <= 5)%nat /\
                p = OsPath.join THUMB_DIR
                      ((id_of k ++ "_T" ++ PyStr.of_nat i) ++ ext)) local.

(** The registry entry [kv] is keyed by the identifier that follows the one
    its thumbnails are named after. *)
Definition keyed_after_thumbnails (kv : string * json) : Prop :=
  exists k,
    fst kv = id_of (S k) /\ thumbs_named k (snd kv) /\ id_of k <> fst kv.

(** The registry holds one record per success, under identifiers that were
    drawn, each once. *)
Definition registry_ok (out : list (string * json)) (s : nat) (st : state)
  : Prop :=
  List.length out = s /\ NoDup (map fst out) /\
  Forall (fun kv => exists k, (k <= id_counter st)%nat /\ fst kv = id_of k) out.

(* ================================================================== *)
(** * Verification *)
(* ================================================================== *)

(** ** File size (C2) *)

(** The strings the size rule really produces for the three sizes. *)
Lemma format_size_examples big :
  format_size big (JInt 2048) = Ok "2.0 MB" /\
  format_size big (JInt 3145728) = Ok "3.0 GB" /\
  format_size big (JInt 500) = Ok "500 KB".
Proof. repeat split; reflexivity. Qed.

(** C2, as stated, fails: the three sizes do not give "2 MB", "3 GB" and
    "500 KB"; the megabyte and gigabyte strings are prints of floats and
    carry a decimal. *)
Lemma size_strings_not_integral :
  ~ (format_size no_big_sizes (JInt 2048) = Ok "2 MB" /\
     format_size no_big_sizes (JInt 3145728) = Ok "3 GB" /\
     format_size no_big_sizes (JInt 500) = Ok "500 KB").
Proof.
  intros [H _]. vm_compute in H. discriminate H.
Qed.

(** [round_half_even] gives the nearest integer, the even one at a tie. *)
Lemma round_half_even_nearest num den :
  (0 < den)%Z -> nearest_even num den (round_half_even num den).
Proof.
  intros Hd. unfold nearest_even, round_half_even.
  pose proof (Z.div_mod num den ltac:(lia)) as Hdm.
  pose proof (Z.mod_pos_bound num den Hd) as Hr.
  set (q := (num / den)%Z) in *. set (r := (num mod den)%Z) in *.
  destruct (2 * r <? den)%Z eqn:E1.
  - apply Z.ltb_lt in E1. split; [lia|]. intros H. lia.
  - apply Z.ltb_ge in E1. destruct (den <? 2 * r)%Z eqn:E2.
    + apply Z.ltb_lt in E2. split; [nia|]. intros H. nia.
    + apply Z.ltb_ge in E2. destruct (Z.even q) eqn:E3.
      * split; [lia|]. intros _. exact E3.
      * split; [nia|]. intros _. rewrite Z.even_add, E3. reflexivity.
Qed.

(** There is one such integer: [nearest_even] determines the hundredths. *)
Lemma nearest_even_unique num den h1 h2 :
  (0 < den)%Z -> nearest_even num den h1 -> nearest_even num den h2 -> h1 = h2.
Proof.
  intros Hd [A1 B1] [A2 B2].
  assert (Hclose : (Z.abs (h1 - h2) <= 1)%Z) by nia.
  destruct (Z.eq_dec h1 h2) as [|Hne]; [assumption|exfalso].
  assert (Hone : (h1 = h2 + 1 \/ h2 = h1 + 1)%Z) by lia.
  assert (T1 : (2 * Z.abs (num - den * h1) = den)%Z) by nia.
  assert (T2 : (2 * Z.abs (num - den * h2) = den)%Z) by nia.
  specialize (B1 T1). specialize (B2 T2).
  destruct Hone as [-> | ->].
  - rewrite Z.even_add in B1. rewrite B2 in B1. discriminate.
  - rewrite Z.even_add in B2. rewrite B1 in B2. discriminate.
Qed.

(** Below 2^53 the size rule needs no float that is not exact, and gives
    the size string described by [sized]. *)
Lemma format_size_sized big n s :
  (0 <= n < FLOAT_EXACT)%Z -> format_size big (JInt n) = Ok s -> sized n s.
Proof.
  intros Hn. unfold format_size, as_number.
  assert (E0 : (FLOAT_EXACT <=? n)%Z = false) by (apply Z.leb_gt; lia).
  rewrite E0. change (1024 * 1024)%Z with 1048576%Z.
  intros H. injection H as <-.
  unfold sized. change (1024 * 1024)%Z with 1048576%Z.
  split; [|split; [|split]].
  - intros ->. reflexivity.
  - intros Hk.
    assert (E1 : (1048576 <=? n)%Z = false) by (apply Z.leb_gt; lia).
    assert (E2 : (1024 <=? n)%Z = false) by (apply Z.leb_gt; lia).
    rewrite E1, E2. simpl Py.truthy.
    assert (E3 : (n =? 0)%Z = false) by (apply Z.eqb_neq; lia).
    rewrite E3. reflexivity.
  - intros Hm.
    assert (E1 : (1048576 <=? n)%Z = false) by (apply Z.leb_gt; lia).
    assert (E2 : (1024 <=? n)%Z = true) by (apply Z.leb_le; lia).
    rewrite E1, E2. exists (round_half_even (100 * n) 1024).
    split; [apply round_half_even_nearest; lia | reflexivity].
  - intros Hg.
    assert (E1 : (1048576 <=? n)%Z = true) by (apply Z.leb_le; lia).
    rewrite E1. exists (round_half_even (100 * n) 1048576).
    split; [apply round_half_even_nearest; lia | reflexivity].
Qed.

(* ================================================================== *)
(** ** Reasoning about computations *)
(* ================================================================== *)

Lemma bind_ok {A B} (m : M A) (k : A -> M B) st b st' :
  bind m k st = (Ok b, st') ->
  exists a st1, m st = (Ok a, st1) /\ k a st1 = (Ok b, st').
Proof.
  unfold bind. destruct (m st) as [[a | e] st1]; intros H.
  - exists a, st1. split; [reflexivity | exact H].
  - discriminate H.
Qed.

Lemma lift_ok {A} (r : result A) st a st' :
  lift r st = (Ok a, st') -> r = Ok a /\ st' = st.
Proof. unfold lift. intros H. inversion H. split; reflexivity. Qed.

Lemma ret_ok {A} (x : A) st a st' :
  ret x st = (Ok a, st') -> a = x /\ st' = st.
Proof. unfold ret. intros H. inversion H. split; reflexivity. Qed.

Lemma bind_lift_ok {A B} (r : result A) (k : A -> M B) st b st' :
  bind (lift r) k st = (Ok b, st') ->
  exists a, r = Ok a /\ k a st = (Ok b, st').
Proof.
  intros H. apply bind_ok in H. destruct H as (a & st1 & E & H).
  apply lift_ok in E. destruct E as [E ->]. exists a. split; assumption.
Qed.

(** One pure step of a computation that succeeded. *)
Ltac pure_step H x E :=
  apply bind_lift_ok in H; destruct H as (x & E & H).

(** One effectful step. *)
Ltac eff_step H x s E :=
  apply bind_ok in H; destruct H as (x & s & E & H).

Section Resolver.

Variable w : world.
Variable up : string -> result string.

(** Every successful run of [build_record] went through these steps. *)
Lemma build_record_inv filename url mid v st rec st' :
  build_record w up filename url mid v st = (Ok rec, st') ->
  exists model_info files file_info name_m name_v model_type base_model
         base_model_type words trained_words size_kb size hashes download_url
         description created created_at id_m images0 images
         thumbs_remote thumbs_local type_lower out_id st1,
    Dyn.get v "model" (JDict []) = Ok model_info /\
    Dyn.get v "files" JNull = Ok files /\
    Dyn.first (Py.or_else files (JList [JDict []])) = Ok file_info /\
    Dyn.get model_info "name" (JStr EmptyString) = Ok name_m /\
    Dyn.get v "name" (JStr EmptyString) = Ok name_v /\
    Dyn.get model_info "type" (JStr EmptyString) = Ok model_type /\
    Dyn.get v "baseModel" (JStr EmptyString) = Ok base_model /\
    Dyn.get v "baseModelType" (JStr EmptyString) = Ok base_model_type /\
    Dyn.get v "trainedWords" (JList []) = Ok words /\
    Dyn.join ", " words = Ok trained_words /\
    Dyn.get file_info "sizeKB" (JInt 0) = Ok size_kb /\
    format_size (float_gb w) size_kb = Ok size /\
    Dyn.get file_info "hashes" (JDict []) = Ok hashes /\
    Dyn.get file_info "downloadUrl" JNull = Ok download_url /\
    Dyn.get v "description" (JStr EmptyString) = Ok description /\
    Dyn.get v "createdAt" (JStr EmptyString) = Ok created /\
    Dyn.before_T created = Ok created_at /\
    Dyn.get model_info "id" JNull = Ok id_m /\
    Dyn.get v "images" JNull = Ok images0 /\
    Dyn.first_five (Py.or_else images0 (JList [])) = Ok images /\
    gen_id_from filename url st = (Ok out_id, st1) /\
    thumbs_loop w up out_id 1 images [] [] st1
      = (Ok (thumbs_remote, thumbs_local), st') /\
    Dyn.lower model_type = Ok type_lower /\
    rec = record_of filename
            (PyStr.strip_chars " -" (Py.str name_m ++ " - " ++ Py.str name_v))
            type_lower base_model base_model_type size
            thumbs_remote thumbs_local
            ("https://civitai.com/models/"
               ++ Py.str (Py.or_else id_m (JStr mid)))
            trained_words hashes description
            (Py.or_else download_url (JStr url)) created_at.
Proof.
  intros H. unfold build_record in H.
  pure_step H model_info E1. pure_step H files E2.
  pure_step H file_info E3. pure_step H images0 E4.
  pure_step H img_info E5.
  pure_step H name_m E6. pure_step H name_v E7.
  pure_step H model_type E8. pure_step H base_model E9.
  pure_step H base_model_type E10. pure_step H words E11.
  pure_step H trained_words E12. pure_step H size_kb E13.
  pure_step H size E14. pure_step H hashes E15.
  pure_step H download_url E16. pure_step H description E17.
  pure_step H created E18. pure_step H created_at E19.
  pure_step H id_m E20.
  eff_step H out_id st1 E21.
  pure_step H images1 E22.
  pure_step H images E23.
  eff_step H lists st2 E24.
  destruct lists as [thumbs_remote thumbs_local].
  pure_step H type_lower E25.
  apply ret_ok in H. destruct H as [-> ->].
  assert (images1 = images0) by congruence. subst images1.
  exists model_info, files, file_info, name_m, name_v, model_type, base_model,
    base_model_type, words, trained_words, size_kb, size, hashes, download_url,
    description, created, created_at, id_m, images0, images,
    thumbs_remote, thumbs_local, type_lower, out_id, st1.
  repeat (split; [assumption|]). reflexivity.
Qed.

End Resolver.

(** ** The resolved size (C2) *)

Section ResolvedSize.

Variable w : world.
Variable up : string -> result string.

(** The [size] of a record is the size rule applied to the version
    record's [sizeKB]. *)
Lemma record_size filename url mid v st rec st' :
  build_record w up filename url mid v st = (Ok rec, st') ->
  exists size_kb s,
    size_kb_of v = Ok size_kb /\ format_size (float_gb w) size_kb = Ok s /\
    Dyn.item rec "size" = Ok (JStr s).
Proof.
  intros H. apply build_record_inv in H.
  destruct H as (model_info & files & file_info & name_m & name_v & model_type
    & base_model & base_model_type & words & trained_words & size_kb & size
    & hashes & download_url & description & created & created_at & id_m
    & images0 & images & thumbs_remote & thumbs_local & type_lower & out_id
    & st1 & H).
  destruct H as (_ & Hfiles & Hfirst & _ & _ & _ & _ & _ & _ & _ & Hkb & Hsize
    & _ & _ & _ & _ & _ & _ & _ & _ & _ & _ & _ & ->).
  exists size_kb, size. split; [|split].
  - unfold size_kb_of. rewrite Hfiles. simpl. rewrite Hfirst. simpl. exact Hkb.
  - exact Hsize.
  - reflexivity.
Qed.

(** C2 (amended): for a version record whose [sizeKB] is an integer [n],
    [0 <= n < 2^53], the resolved [size] is the string described by
    [sized]: empty for 0, [n KB] below 1024, from 1024 on the megabytes and
    from 1024*1024 on the gigabytes, rounded to the nearest hundredth (a tie
    to the even one) and printed as a float, so with a decimal part:
    2048 gives "2.0 MB", 3145728 "3.0 GB", 500 "500 KB", and, with decimals,
    1536 "1.5 MB", 1300 "1.27 MB", 1234567 "1.18 GB", the ties 1152
    "1.12 MB" and 1408 "1.38 MB", and 1048575 "1024.0 MB".  The size rule of
    the page parser gives the same strings. *)
Theorem resolved_size_strings filename url mid v st rec st' n :
  build_record w up filename url mid v st = (Ok rec, st') ->
  size_kb_of v = Ok (JInt n) ->
  (0 <= n < FLOAT_EXACT)%Z ->
  exists s,
    Dyn.item rec "size" = Ok (JStr s) /\
    sized n s /\
    (n = 2048%Z -> s = "2.0 MB") /\
    (n = 3145728%Z -> s = "3.0 GB") /\
    (n = 500%Z -> s = "500 KB") /\
    (n = 1536%Z -> s = "1.5 MB") /\
    (n = 1300%Z -> s = "1.27 MB") /\
    (n = 1234567%Z -> s = "1.18 GB") /\
    (n = 1152%Z -> s = "1.12 MB") /\
    (n = 1408%Z -> s = "1.38 MB") /\
    (n = 1048575%Z -> s = "1024.0 MB") /\
    ((0 < n)%Z -> page_size (float_gb w) (page_with_size n) EmptyString
                  = PyStr.strip (replace_double_space s)) /\
    page_size (float_gb w) (page_with_size 2048) EmptyString = "2.0 MB" /\
    page_size (float_gb w) (page_with_size 3145728) EmptyString = "3.0 GB" /\
    page_size (float_gb w) (page_with_size 500) EmptyString = "500 KB" /\
    page_size (float_gb w) (page_with_size 1152) EmptyString = "1.12 MB".
Proof.
  intros H Hv Hn.
  destruct (record_size _ _ _ _ _ _ _ H) as (kb & s & Hkb & Hs & Hrec).
  rewrite Hv in Hkb. injection Hkb as <-.
  exists s. split; [exact Hrec|].
  split; [eapply format_size_sized; eassumption|].
  assert (Hex : forall k t, format_size (float_gb w) (JInt k) = Ok t ->
                            n = k -> s = t).
  { intros k t Hk ->. rewrite Hk in Hs. injection Hs as <-. reflexivity. }
  do 9 (split; [eapply Hex; reflexivity|]).
  split.
  - intros Hpos. unfold page_size, page_with_size.
    cbv [and_then Dyn.item Dyn.first Py.lookup String.eqb Ascii.eqb Bool.eqb].
    assert (Ht : Py.truthy (JInt n) = true).
    { simpl. apply negb_true_iff. apply Z.eqb_neq. lia. }
    rewrite Ht, Hs.
    assert (Hne : PyStr.nonempty s = true).
    { apply (format_size_sized _ _ _ Hn) in Hs.
      destruct Hs as (_ & Hk & Hm & Hg).
      destruct (Z_lt_ge_dec n 1024) as [L|G].
      - rewrite Hk by lia.
        destruct (PyStr.of_Z n); reflexivity.
      - destruct (Z_lt_ge_dec n (1024 * 1024)) as [L2|G2].
        + destruct Hm as (h & _ & ->); [lia|].
          unfold repr_hundredths. destruct (PyStr.of_Z (h / 100)); reflexivity.
        + destruct Hg as (h & _ & ->); [lia|].
          unfold repr_hundredths. destruct (PyStr.of_Z (h / 100)); reflexivity. }
    rewrite !Hne. reflexivity.
  - repeat split; reflexivity.
Qed.

End ResolvedSize.

(** A run of [build_record] on a version record with [sizeKB = 1152], a
    tie between 1.12 and 1.13. *)
Lemma resolved_size_strings_witness :
  exists rec st',
    build_record offline Urllib.path_of "foo" "https://civitai.com/models/12"
                 "12" (version_with_size 1152) initial_state = (Ok rec, st')
    /\ Dyn.item rec "size" = Ok (JStr "1.12 MB").
Proof.
  eexists. eexists. split.
  - vm_compute. reflexivity.
  - edestruct (resolved_size_strings offline Urllib.path_of "foo"
                 "https://civitai.com/models/12" "12"
                 (version_with_size 1152) initial_state)
      as (s & Hrec & _ & _ & _ & _ & _ & _ & _ & Htie & _).
    + vm_compute. reflexivity.
    + reflexivity.
    + vm_compute. split; [discriminate | reflexivity].
    + rewrite Hrec. rewrite (Htie eq_refl). reflexivity.
Defined.

(** ** Thumbnail acquirer: extension (C8) and empty URL (C10) *)

Lemma choose_ext_chosen ext ctype : chosen_ext ext ctype (choose_ext ext ctype).
Proof.
  unfold choose_ext.
  destruct (PyStr.contains "image" ctype) eqn:Hi.
  - destruct (mem_str ext image_exts) eqn:Hm.
    + destruct ext; [discriminate Hm|]. simpl. now apply ImageKeeps.
    + rewrite orb_true_r. now apply ImageDefault.
  - destruct (PyStr.contains "video" ctype) eqn:Hv.
    + destruct (mem_str ext video_exts) eqn:Hm.
      * destruct ext; [discriminate Hm|]. simpl. now apply VideoKeeps.
      * rewrite orb_true_r. now apply VideoDefault.
    + destruct ext; simpl.
      * now apply OtherFallback.
      * apply OtherKeeps; [assumption | assumption | discriminate].
Qed.

(** The cases of [chosen_ext] exclude one another: the rule is a function. *)
Lemma chosen_ext_unique ext ctype e1 e2 :
  chosen_ext ext ctype e1 -> chosen_ext ext ctype e2 -> e1 = e2.
Proof.
  intros H1 H2; destruct H1; destruct H2; try reflexivity; congruence.
Qed.

(** C8, as stated, fails: a download of a URL that ends in [.png], answered
    with content type [video/mp4], is saved with extension [.mp4], where the
    stated rule keeps [.png]. *)
Lemma png_url_with_video_type_saved_as_mp4 :
  fst (download_thumbnail
         (scripted [Responds (media_response "video/mp4")] LinksMissing)
         Urllib.path_of (JStr "https://img.example/a.png") "A0001_T1"
         THUMB_TIMEOUT initial_state)
    = Ok ("https://img.example/a.png", OsPath.join THUMB_DIR "A0001_T1.mp4")
  /\ spec_ext_rule ".png" "video/mp4" = ".png"
  /\ choose_ext ".png" "video/mp4" <> spec_ext_rule ".png" "video/mp4".
Proof.
  split; [|split].
  - vm_compute. reflexivity.
  - reflexivity.
  - vm_compute. discriminate.
Qed.

Section Thumbnail.

Variable w : world.
Variable up : string -> result string.

(** C8 (amended): a download that saves a file names it
    [THUMB_DIR\<out_id><ext>], where [ext] is chosen by the content type
    first: under an image content type the URL extension is kept when it is
    one of .jpg .jpeg .png .webp and replaced by .jpg otherwise; under a
    video content type it is kept when it is .mp4 or .webm and replaced by
    .mp4 otherwise; under any other content type a non-empty URL extension
    is kept as it is and only a missing one becomes .dat.  In particular a
    .png URL served as image/jpeg keeps .png. *)
Theorem saved_extension url out_id timeout st remote local st' :
  download_thumbnail w up (JStr url) out_id timeout st
    = (Ok (remote, local), st') ->
  local <> EmptyString ->
  (exists path r ext,
    up url = Ok path /\
    net w (requests_made st) url = Responds r /\
    status_code r = 200%Z /\
    chosen_ext (PyStr.lower (OsPath.splitext_ext path))
               (PyStr.lower (match content_type r with
                             | Some c => c
                             | None => EmptyString
                             end)) ext /\
    local = OsPath.join THUMB_DIR (out_id ++ ext) /\
    exists data, hd_error (disk st') = Some (local, Bytes data))
  /\ choose_ext ".png" "image/jpeg" = ".png".
Proof.
  unfold download_thumbnail. intros H Hlocal.
  split; [|reflexivity].
  destruct (Py.truthy (JStr url)) eqn:Ht; simpl in H.
  2: { inversion H; subst. contradiction Hlocal; reflexivity. }
  unfold bind, ensure_dir, lift, try_except, requests_get, write_stream,
    failed_write, bind, put_file, say, emit, ret, raise in H.
  destruct (mkdir_fails w THUMB_DIR); [discriminate H|].
  destruct (up url) as [path|e] eqn:Hup; [|discriminate H].
  simpl in H.
  destruct (net w (requests_made st) url) as [r|e] eqn:Hnet.
  2: { inversion H; subst. contradiction Hlocal; reflexivity. }
  destruct (status_code r =? 200)%Z eqn:Hs; simpl in H.
  2: { inversion H; subst. contradiction Hlocal; reflexivity. }
  destruct (open_fails w _) eqn:Ho.
  { destruct (write_breaks w _); inversion H; subst;
      contradiction Hlocal; reflexivity. }
  destruct (body_breaks r) eqn:Hb.
  { inversion H; subst. contradiction Hlocal; reflexivity. }
  inversion H; subst; clear H.
  exists path, r, (choose_ext (PyStr.lower (OsPath.splitext_ext path))
                     (PyStr.lower match content_type r with
                                  | Some c => c
                                  | None => EmptyString
                                  end)).
  repeat split; try assumption.
  - apply Z.eqb_eq. exact Hs.
  - apply choose_ext_chosen.
  - simpl. eexists. reflexivity.
Qed.

(** C10: with an empty or missing asset URL (any value Python takes as
    false) the acquirer returns [("", "")] and leaves the state as it was:
    no request, no directory, no file, no console line. *)
Theorem download_nothing_for_empty_url (thumbnail_url : json) out_id timeout st :
  Py.truthy thumbnail_url = false ->
  download_thumbnail w up thumbnail_url out_id timeout st
    = (Ok (EmptyString, EmptyString), st).
Proof.
  intros H. unfold download_thumbnail. rewrite H. reflexivity.
Qed.

End Thumbnail.

(** A .png URL served as image/jpeg: the file is saved as .png. *)
Lemma saved_extension_witness :
  exists st',
    download_thumbnail
      (scripted [Responds (media_response "image/jpeg")] LinksMissing)
      Urllib.path_of (JStr "https://img.example/a.png") "A0001_T1"
      THUMB_TIMEOUT initial_state
    = (Ok ("https://img.example/a.png", OsPath.join THUMB_DIR "A0001_T1.png"),
       st')
    /\ choose_ext ".png" "image/jpeg" = ".png".
Proof.
  eexists. split.
  - vm_compute. reflexivity.
  - refine (proj2 (saved_extension
             (scripted [Responds (media_response "image/jpeg")] LinksMissing)
             Urllib.path_of "https://img.example/a.png" "A0001_T1"
             THUMB_TIMEOUT initial_state "https://img.example/a.png"
             (OsPath.join THUMB_DIR "A0001_T1.png") _ _ _)).
    + vm_compute. reflexivity.
    + vm_compute. discriminate.
Defined.

(** The empty string and [None] as asset URL. *)
Lemma download_nothing_for_empty_url_witness :
  download_thumbnail offline Urllib.path_of (JStr EmptyString) "A0001_T1"
                     THUMB_TIMEOUT initial_state
    = (Ok (EmptyString, EmptyString), initial_state)
  /\ download_thumbnail offline Urllib.path_of JNull "A0001_T1"
                     THUMB_TIMEOUT initial_state
    = (Ok (EmptyString, EmptyString), initial_state).
Proof.
  split.
  - apply (download_nothing_for_empty_url offline Urllib.path_of
             (JStr EmptyString) "A0001_T1" THUMB_TIMEOUT initial_state).
    reflexivity.
  - apply (download_nothing_for_empty_url offline Urllib.path_of
             JNull "A0001_T1" THUMB_TIMEOUT initial_state).
    reflexivity.
Defined.

(** ** HTTP fetch layer (C5) *)

(** When every attempt fails, [get_attempts] raises what [last_exc] holds
    at the end, or the [RuntimeError] when it holds nothing; it never
    returns a response. *)
Lemma get_attempts_all_fail w n url timeout : forall last st,
  forallb attempt_fails (outcomes w url (requests_made st) n) = true ->
  exists st',
    get_attempts w n url timeout last st
    = (Raise (match recorded last (outcomes w url (requests_made st) n) with
              | Some e => e
              | None => RuntimeError ("Failed to GET " ++ url)
              end), st').
Proof.
  induction n as [|n IH]; intros last st Hall.
  - simpl. destruct last; eexists; reflexivity.
  - simpl in Hall. apply andb_true_iff in Hall. destruct Hall as [Hf Hrest].
    simpl get_attempts. unfold requests_get. simpl outcomes.
    destruct (net w (requests_made st) url) as [r|e] eqn:Hnet.
    + simpl in Hf. apply negb_true_iff in Hf. rewrite Hf.
      simpl recorded.
      destruct (status_code r =? 429)%Z;
        unfold bind, say, sleep, rand_sleep, emit; simpl;
        apply IH; simpl; exact Hrest.
    + simpl recorded.
      destruct e; unfold bind, say, sleep, rand_sleep, emit; simpl;
        apply IH; simpl; exact Hrest.
Qed.

(** C5 fails on the code at these inputs: after a connection error followed
    by two timeouts, [get] raises the connection error although the last
    observed error is the timeout; after three timeouts it raises the
    generic [RuntimeError], not the timeout. *)
Theorem get_forgets_timeouts :
  let url := "https://civitai.com/api/v1/models/12" in
  let reset_then_timeouts :=
    [Fails (NetworkError "reset"); Fails Timeout; Fails Timeout] in
  let timeouts := [Fails Timeout; Fails Timeout; Fails Timeout] in
  forallb attempt_fails reset_then_timeouts = true /\
  fst (get (scripted reset_then_timeouts LinksMissing) url None initial_state)
    = Raise (NetworkError "reset") /\
  last_observed_error url reset_then_timeouts = Some Timeout /\
  forallb attempt_fails timeouts = true /\
  fst (get (scripted timeouts LinksMissing) url None initial_state)
    = Raise (RuntimeError ("Failed to GET " ++ url)) /\
  last_observed_error url timeouts = Some Timeout.
Proof.
  cbv zeta. repeat split; vm_compute; reflexivity.
Qed.

(** ** Thumbnails of a record (C4) *)

Section Thumbnails.

Variable w : world.
Variable up : string -> result string.

(** What [download_thumbnail] returns as remote URL for a non-empty URL
    value is that URL. *)
Lemma download_remote v out_id timeout st remote local st' :
  download_thumbnail w up v out_id timeout st = (Ok (remote, local), st') ->
  Py.truthy v = true ->
  v = JStr remote /\ PyStr.nonempty remote = true.
Proof.
  unfold download_thumbnail. intros H Ht. rewrite Ht in H. simpl in H.
  unfold bind, ensure_dir, lift, try_except, requests_get, write_stream,
    failed_write, bind, put_file, say, emit, ret, raise in H.
  destruct (mkdir_fails w THUMB_DIR); [discriminate H|].
  destruct v as [| | |url| |]; try discriminate H.
  destruct (up url) as [path|e]; [|discriminate H].
  simpl in H.
  assert (Hgoal : forall r : string, r = url ->
            JStr url = JStr r /\ PyStr.nonempty r = true).
  { intros r ->. split; [reflexivity | exact Ht]. }
  destruct (net w (requests_made st) url) as [r|e].
  2: { inversion H; subst. apply Hgoal. reflexivity. }
  destruct (status_code r =? 200)%Z; simpl in H.
  2: { inversion H; subst. apply Hgoal. reflexivity. }
  destruct (open_fails w _).
  { destruct (write_breaks w _); inversion H; subst; apply Hgoal;
      reflexivity. }
  destruct (body_breaks r); inversion H; subst; apply Hgoal; reflexivity.
Qed.

(** One round of [thumbs_loop], spelled out. *)
Lemma thumbs_loop_cons out_id j img rest remote0 local0 st :
  thumbs_loop w up out_id j (img :: rest) remote0 local0 st
  = match Dyn.get img "url" JNull with
    | Raise e => (Raise e, st)
    | Ok thumb_url =>
        if Py.truthy thumb_url then
          match download_thumbnail w up thumb_url
                  (out_id ++ "_T" ++ PyStr.of_nat j) THUMB_TIMEOUT st with
          | (Ok (remote, local), st1) =>
              thumbs_loop w up out_id (S j) rest
                (if PyStr.nonempty remote
                 then (remote0 ++ [remote])%list else remote0)
                (if PyStr.nonempty local
                 then (local0 ++ [local])%list else local0) st1
          | (Raise e, st1) =>
              thumbs_loop w up out_id (S j) rest remote0 local0
                (snd (say (MsgThumbLoopFailed j e) st1))
          end
        else thumbs_loop w up out_id (S j) rest remote0 local0 st
    end.
Proof.
  simpl. unfold bind, lift, try_except, ret.
  destruct (Dyn.get img "url" JNull) as [thumb_url|e]; [|reflexivity].
  destruct (Py.truthy thumb_url); simpl; [|reflexivity].
  destruct (download_thumbnail w up thumb_url _ THUMB_TIMEOUT st)
    as [[[remote local]|e] st1]; reflexivity.
Qed.

(** One round of [attempt_assets], spelled out. *)
Lemma attempt_assets_cons out_id j img rest st :
  attempt_assets w up out_id j (img :: rest) st
  = match Dyn.get img "url" JNull with
    | Raise e => (Raise e, st)
    | Ok thumb_url =>
        if Py.truthy thumb_url then
          match download_thumbnail w up thumb_url
                  (out_id ++ "_T" ++ PyStr.of_nat j) THUMB_TIMEOUT st with
          | (Ok p, st1) =>
              match attempt_assets w up out_id (S j) rest st1 with
              | (Ok more, st2) => (Ok (p :: more), st2)
              | (Raise e, st2) => (Raise e, st2)
              end
          | (Raise e, st1) =>
              attempt_assets w up out_id (S j) rest
                (snd (say (MsgThumbLoopFailed j e) st1))
          end
        else attempt_assets w up out_id (S j) rest st
    end.
Proof.
  simpl. unfold bind, lift, try_except, ret.
  destruct (Dyn.get img "url" JNull) as [thumb_url|e]; [|reflexivity].
  destruct (Py.truthy thumb_url); simpl; [|reflexivity].
  destruct (download_thumbnail w up thumb_url _ THUMB_TIMEOUT st)
    as [[p|e] st1]; simpl.
  - destruct (attempt_assets w up out_id (S j) rest st1) as [[more|e] st2];
      reflexivity.
  - destruct (attempt_assets w up out_id (S j) rest _) as [[more|e'] st2];
      reflexivity.
Qed.

(** The two lists of [thumbs_loop] are the remote URLs and the local paths
    of the assets, the empty ones left out. *)
Lemma thumbs_loop_assets out_id images : forall j remote0 local0 st,
  thumbs_loop w up out_id j images remote0 local0 st
  = match attempt_assets w up out_id j images st with
    | (Ok assets, st1) =>
        (Ok ((remote0 ++ filter PyStr.nonempty (map fst assets))%list,
             (local0 ++ filter PyStr.nonempty (map snd assets))%list), st1)
    | (Raise e, st1) => (Raise e, st1)
    end.
Proof.
  induction images as [|img rest IH]; intros j remote0 local0 st.
  - simpl. unfold ret. now rewrite !app_nil_r.
  - rewrite thumbs_loop_cons, attempt_assets_cons.
    destruct (Dyn.get img "url" JNull) as [thumb_url|e]; [|reflexivity].
    destruct (Py.truthy thumb_url); [|apply IH].
    destruct (download_thumbnail w up thumb_url _ THUMB_TIMEOUT st)
      as [[[remote local]|e] st1]; [|apply IH].
    rewrite IH.
    destruct (attempt_assets w up out_id (S j) rest st1) as [[more|e] st2];
      [|reflexivity].
    simpl.
    destruct (PyStr.nonempty remote), (PyStr.nonempty local);
      now rewrite <- ?app_assoc.
Qed.

(** Every asset carries its remote URL, successful or not. *)
Lemma attempt_assets_remote out_id images : forall j st assets st',
  attempt_assets w up out_id j images st = (Ok assets, st') ->
  Forall (fun a => PyStr.nonempty (fst a) = true) assets.
Proof.
  induction images as [|img rest IH]; intros j st assets st' H.
  - apply ret_ok in H. destruct H as [-> _]. constructor.
  - rewrite attempt_assets_cons in H.
    destruct (Dyn.get img "url" JNull) as [thumb_url|e]; [|discriminate H].
    destruct (Py.truthy thumb_url) eqn:Ht; [|eapply IH; exact H].
    destruct (download_thumbnail w up thumb_url _ THUMB_TIMEOUT st)
      as [[[remote local]|e] st1] eqn:Hd; [|eapply IH; exact H].
    destruct (attempt_assets w up out_id (S j) rest st1)
      as [[more|e] st2] eqn:Hm; [|discriminate H].
    inversion H; subst. constructor; [|eapply IH; exact Hm].
    apply download_remote in Hd; [|exact Ht]. apply Hd.
Qed.

Lemma filter_all_true {A} (p : A -> bool) (l : list A) :
  Forall (fun a => p a = true) l -> filter p l = l.
Proof.
  induction 1 as [|a l Ha _ IH]; simpl; [reflexivity|].
  rewrite Ha, IH. reflexivity.
Qed.

Lemma first_local_is_first_successful (assets : list (string * string)) :
  hd EmptyString (filter PyStr.nonempty (map snd assets))
  = match first_successful assets with
    | Some a => snd a
    | None => EmptyString
    end.
Proof.
  unfold first_successful.
  induction assets as [|a rest IH]; simpl; [reflexivity|].
  destruct (PyStr.nonempty (snd a)); simpl; [reflexivity | exact IH].
Qed.

(** C4 (amended): the assets of a record are the images, among the first
    five, that have a URL and for which the acquirer returned; an image on
    which the acquirer itself raises is skipped.  [thumbnails_all] retains
    the remote URL of every asset, saved or not, and [thumbnails_local] the
    local path of every saved one; the record's [thumbnail] is the remote
    URL of the first asset, saved or not, and its [thumbnail_local] the
    local path of the first asset saved, so the two refer to the same asset
    when the first asset was saved. *)
Theorem record_thumbnails filename url mid v st rec st' :
  build_record w up filename url mid v st = (Ok rec, st') ->
  exists images0 images out_id st1 assets,
    Dyn.get v "images" JNull = Ok images0 /\
    Dyn.first_five (Py.or_else images0 (JList [])) = Ok images /\
    gen_id_from filename url st = (Ok out_id, st1) /\
    attempt_assets w up out_id 1 images st1 = (Ok assets, st') /\
    Dyn.item rec "thumbnails_all" = Ok (strs (map fst assets)) /\
    Dyn.item rec "thumbnails_local"
      = Ok (strs (filter PyStr.nonempty (map snd assets))) /\
    Dyn.item rec "thumbnail" = Ok (JStr (hd EmptyString (map fst assets))) /\
    Dyn.item rec "thumbnail_local"
      = Ok (JStr (match first_successful assets with
                  | Some a => snd a
                  | None => EmptyString
                  end)) /\
    (forall a rest, assets = a :: rest -> PyStr.nonempty (snd a) = true ->
       first_successful assets = Some a).
Proof.
  intros H. apply build_record_inv in H.
  destruct H as (model_info & files & file_info & name_m & name_v & model_type
    & base_model & base_model_type & words & trained_words & size_kb & size
    & hashes & download_url & description & created & created_at & id_m
    & images0 & images & thumbs_remote & thumbs_local & type_lower & out_id
    & st1 & H).
  destruct H as (_ & _ & _ & _ & _ & _ & _ & _ & _ & _ & _ & _
    & _ & _ & _ & _ & _ & _ & Himg & Hfive & Hid & Hloop & _ & ->).
  rewrite thumbs_loop_assets in Hloop.
  destruct (attempt_assets w up out_id 1 images st1) as [[assets|e] st2] eqn:Ha;
    [|discriminate Hloop].
  injection Hloop as <- <- ->.
  pose proof (attempt_assets_remote _ _ _ _ _ _ Ha) as Hrem.
  assert (Hf : filter PyStr.nonempty (map fst assets) = map fst assets).
  { apply filter_all_true. apply Forall_map. exact Hrem. }
  exists images0, images, out_id, st1, assets.
  simpl app. rewrite Hf.
  repeat (split; [first [assumption | reflexivity]|]).
  split.
  - unfold Dyn.item, record_of. simpl Py.lookup.
    rewrite first_local_is_first_successful. reflexivity.
  - intros a rest -> Hs. unfold first_successful. simpl. rewrite Hs.
    reflexivity.
Qed.

End Thumbnails.

(** C4, as stated, fails: when the first image's download times out and the
    second succeeds, the record's [thumbnail] is the URL of the failed first
    image, not the remote URL of the first successfully downloaded asset,
    while [thumbnail_local] is that asset's local path. *)
Lemma primary_thumbnail_is_not_first_saved :
  exists rec st' a,
    build_record first_image_fails Urllib.path_of "foo"
                 "https://civitai.com/models/12" "12"
                 version_with_two_images initial_state = (Ok rec, st') /\
    first_successful
      [("https://img.example/a.png", EmptyString);
       ("https://img.example/b.jpg", OsPath.join THUMB_DIR "A0001_T2.jpg")]
      = Some a /\
    fst (attempt_assets first_image_fails Urllib.path_of "A0001" 1
           [JDict [("url", JStr "https://img.example/a.png")];
            JDict [("url", JStr "https://img.example/b.jpg")]]
           (snd (gen_id_from "foo" "https://civitai.com/models/12"
                             initial_state)))
      = Ok [("https://img.example/a.png", EmptyString);
            ("https://img.example/b.jpg", OsPath.join THUMB_DIR "A0001_T2.jpg")]
    /\
    Dyn.item rec "thumbnail" = Ok (JStr "https://img.example/a.png") /\
    Dyn.item rec "thumbnail" <> Ok (JStr (fst a)) /\
    Dyn.item rec "thumbnail_local" = Ok (JStr (snd a)).
Proof.
  eexists. eexists. eexists. split; [vm_compute; reflexivity|].
  split; [vm_compute; reflexivity|].
  split; [vm_compute; reflexivity|].
  split; [vm_compute; reflexivity|].
  split; [vm_compute; discriminate|].
  vm_compute; reflexivity.
Qed.

(** A run in which the first attempted asset is saved. *)
Lemma record_thumbnails_witness :
  exists rec st',
    build_record
      (scripted [Responds (media_response "image/png");
                 Responds (media_response "image/jpeg")] LinksMissing)
      Urllib.path_of "foo" "https://civitai.com/models/12" "12"
      version_with_two_images initial_state = (Ok rec, st') /\
    Dyn.item rec "thumbnail" = Ok (JStr "https://img.example/a.png") /\
    Dyn.item rec "thumbnail_local"
      = Ok (JStr (OsPath.join THUMB_DIR "A0001_T1.png")).
Proof.
  eexists. eexists. split; [vm_compute; reflexivity|].
  edestruct (record_thumbnails
    (scripted [Responds (media_response "image/png");
               Responds (media_response "image/jpeg")] LinksMissing)
    Urllib.path_of "foo" "https://civitai.com/models/12" "12"
    version_with_two_images initial_state)
    as (images0 & images & out_id & st1 & assets & H0 & H1 & H2 & H3 & H4
        & H5 & H6 & H7 & H8).
  - vm_compute. reflexivity.
  - vm_compute in H0. injection H0 as <-.
    vm_compute in H1. injection H1 as <-.
    vm_compute in H2. injection H2 as <- <-.
    vm_compute in H3. injection H3 as <-.
    split; [exact H6 | exact H7].
Defined.

(** ** The shape of a record (C9) *)

Lemma get_absent d k default x :
  absent d k = true -> Dyn.get d k default = Ok x -> x = default.
Proof.
  unfold absent, Dyn.get. destruct d; try discriminate.
  destruct (Py.lookup k fields); [discriminate|].
  intros _ H. injection H as <-. reflexivity.
Qed.

Section Record.

Variable w : world.
Variable up : string -> result string.

(** What [build_record] returns has all sixteen fields; where the version
    record omits the upstream data of a field, the field is empty, except
    that [download_link] is then the input URL and [model_link] the link
    built from the model id of the URL. *)
Lemma build_record_fields filename url mid v st rec st' :
  build_record w up filename url mid v st = (Ok rec, st') ->
  every_field_present rec /\ omitted_fields_default url mid v rec.
Proof.
  intros H. apply build_record_inv in H.
  destruct H as (model_info & files & file_info & name_m & name_v & model_type
    & base_model & base_model_type & words & trained_words & size_kb & size
    & hashes & download_url & description & created & created_at & id_m
    & images0 & images & thumbs_remote & thumbs_local & type_lower & out_id
    & st1 & H).
  destruct H as (Hmodel & Hfiles & Hfirst & Hname_m & Hname_v & Htype & Hbase
    & Hbt & Hwords & Hjoin & Hkb & Hsize & Hhashes & Hdl & Hdesc & Hcreated
    & HT & Hid & Himg & Hfive & _ & Hloop & Hlower & ->).
  split.
  - intros f. destruct f; eexists; reflexivity.
  - assert (Hmi : model_info_of v = model_info).
    { unfold model_info_of. now rewrite Hmodel. }
    assert (Hfi : file_info_of v = file_info).
    { unfold file_info_of. rewrite Hfiles. simpl. now rewrite Hfirst. }
    intros f Hom. destruct f; simpl in Hom; try discriminate Hom;
      rewrite ?Hmi, ?Hfi in Hom.
    + (* title *)
      apply andb_true_iff in Hom. destruct Hom as [H1 H2].
      rewrite (get_absent _ _ _ _ H1 Hname_m), (get_absent _ _ _ _ H2 Hname_v).
      eexists. split; reflexivity.
    + (* type *)
      rewrite (get_absent _ _ _ _ Hom Htype) in Hlower.
      injection Hlower as <-. eexists. split; reflexivity.
    + rewrite (get_absent _ _ _ _ Hom Hbase). eexists. split; reflexivity.
    + rewrite (get_absent _ _ _ _ Hom Hbt). eexists. split; reflexivity.
    + (* size *)
      rewrite (get_absent _ _ _ _ Hom Hkb) in Hsize.
      injection Hsize as <-. eexists. split; reflexivity.
    + (* thumbnail *)
      rewrite (get_absent _ _ _ _ Hom Himg) in Hfive.
      injection Hfive as <-. injection Hloop as <- <- _.
      eexists. split; reflexivity.
    + rewrite (get_absent _ _ _ _ Hom Himg) in Hfive.
      injection Hfive as <-. injection Hloop as <- <- _.
      eexists. split; reflexivity.
    + rewrite (get_absent _ _ _ _ Hom Himg) in Hfive.
      injection Hfive as <-. injection Hloop as <- <- _.
      eexists. split; reflexivity.
    + rewrite (get_absent _ _ _ _ Hom Himg) in Hfive.
      injection Hfive as <-. injection Hloop as <- <- _.
      eexists. split; reflexivity.
    + (* model_link *)
      rewrite (get_absent _ _ _ _ Hom Hid). reflexivity.
    + (* trained_words *)
      rewrite (get_absent _ _ _ _ Hom Hwords) in Hjoin.
      injection Hjoin as <-. eexists. split; reflexivity.
    + rewrite (get_absent _ _ _ _ Hom Hhashes). eexists. split; reflexivity.
    + rewrite (get_absent _ _ _ _ Hom Hdesc). eexists. split; reflexivity.
    + (* download_link *)
      rewrite (get_absent _ _ _ _ Hom Hdl). reflexivity.
    + (* published_on *)
      rewrite (get_absent _ _ _ _ Hom Hcreated) in HT.
      injection HT as <-. eexists. split; reflexivity.
Qed.

Lemma get_null d k default x :
  Dyn.get d k default = Ok x -> default <> JNull ->
  (x = JNull <-> holds_null d k = true).
Proof.
  unfold Dyn.get, holds_null. destruct d; try discriminate.
  intros H Hd. injection H as <-.
  destruct (Py.lookup k fields) as [y|].
  - destruct y; split; intros E; try reflexivity; discriminate E.
  - split; intros E; [contradiction | discriminate E].
Qed.

(** No field of the record is [null], unless the upstream gives [null] for
    [baseModel], [baseModelType], [hashes] or [description], which the
    record takes over as they are. *)
Lemma build_record_nulls filename url mid v st rec st' :
  build_record w up filename url mid v st = (Ok rec, st') ->
  null_only_from_upstream v rec.
Proof.
  intros H. apply build_record_inv in H.
  destruct H as (model_info & files & file_info & name_m & name_v & model_type
    & base_model & base_model_type & words & trained_words & size_kb & size
    & hashes & download_url & description & created & created_at & id_m
    & images0 & images & thumbs_remote & thumbs_local & type_lower & out_id
    & st1 & H).
  destruct H as (Hmodel & Hfiles & Hfirst & Hname_m & Hname_v & Htype & Hbase
    & Hbt & Hwords & Hjoin & Hkb & Hsize & Hhashes & Hdl & Hdesc & Hcreated
    & HT & Hid & Himg & Hfive & _ & Hloop & Hlower & ->).
  assert (Hfi : file_info_of v = file_info).
  { unfold file_info_of. rewrite Hfiles. simpl. now rewrite Hfirst. }
  assert (Hstr : forall t, JStr t = JNull <-> false = true).
  { intros t. split; discriminate. }
  intros f x Hx.
  destruct f;
    cbv [field_value in_metadata and_then Dyn.item record_of Py.lookup
         String.eqb Ascii.eqb Bool.eqb] in Hx;
    injection Hx as <-; simpl upstream_null; try apply Hstr.
  - eapply get_null; [exact Hbase | discriminate].
  - eapply get_null; [exact Hbt | discriminate].
  - split; discriminate.
  - split; discriminate.
  - rewrite Hfi. eapply get_null; [exact Hhashes | discriminate].
  - eapply get_null; [exact Hdesc | discriminate].
  - unfold Py.or_else. destruct (Py.truthy download_url) eqn:Et.
    + split; [intros ->; discriminate Et | discriminate].
    + split; discriminate.
Qed.

(** A successful resolution fetched a version record and built the record
    from it. *)
Lemma fetch_from_api_inv filename url st rec st' :
  fetch_from_api w up filename url st = (Ok rec, st') ->
  exists mid version_id v st1 st2,
    PyStr.search_digits_after "/models/" url = Some mid /\
    fetch_version w 3
      ("https://civitai.com/api/v1/model-versions/" ++ version_id) st1
      = (Ok v, st2) /\
    Py.truthy v = true /\
    build_record w up filename url mid v st2 = (Ok rec, st').
Proof.
  unfold fetch_from_api. intros H.
  destruct (PyStr.search_digits_after "/models/" url) as [mid|];
    [|discriminate H].
  eff_step H version_id st1 E1. eff_step H v st2 E2.
  destruct (Py.truthy v) eqn:Ht; simpl in H; [|discriminate H].
  exists mid, version_id, v, st1, st2. repeat split; assumption.
Qed.

(** C9 (amended): every record returned by a successful resolution has every
    field of the schema, and each field whose upstream data the fetched
    version record omits is present as an empty string or empty collection,
    with two exceptions: [download_link] is then the input URL and
    [model_link] is the link built from the model id in the URL.  A field is
    never absent, and it is [null] in one case only: it is [base_model],
    [base_model_type], [hashes] or [description], which are taken over as
    they are, and the upstream gives [null] for it. *)
Theorem record_has_every_field filename url st rec st' :
  fetch_from_api w up filename url st = (Ok rec, st') ->
  exists mid version_id v st1 st2,
    PyStr.search_digits_after "/models/" url = Some mid /\
    fetch_version w 3
      ("https://civitai.com/api/v1/model-versions/" ++ version_id) st1
      = (Ok v, st2) /\
    every_field_present rec /\
    omitted_fields_default url mid v rec /\
    null_only_from_upstream v rec.
Proof.
  intros H. apply fetch_from_api_inv in H.
  destruct H as (mid & version_id & v & st1 & st2 & Hmid & Hv & _ & Hb).
  exists mid, version_id, v, st1, st2.
  pose proof (build_record_nulls _ _ _ _ _ _ _ Hb) as Hn.
  apply build_record_fields in Hb. destruct Hb as [Hp Ho].
  split; [exact Hmid|]. split; [exact Hv|]. split; [exact Hp|].
  split; [exact Ho | exact Hn].
Qed.

End Record.

(** ** The batch loop (C1, C7) *)

Section Batch.

Variable w : world.
Variable up : string -> result string.

(** The record of a successful resolution has the three fields the
    progress line prints. *)
Lemma fetch_from_api_items filename url st meta st' :
  fetch_from_api w up filename url st = (Ok meta, st') ->
  exists t b z,
    Dyn.item meta "type" = Ok t /\ Dyn.item meta "base_model" = Ok b /\
    Dyn.item meta "size" = Ok z.
Proof.
  intros H. apply fetch_from_api_inv in H.
  destruct H as (mid & version_id & v & st1 & st2 & _ & _ & _ & H).
  apply build_record_inv in H.
  destruct H as (model_info & files & file_info & name_m & name_v & model_type
    & base_model & base_model_type & words & trained_words & size_kb & size
    & hashes & download_url & description & created & created_at & id_m
    & images0 & images & thumbs_remote & thumbs_local & type_lower & out_id
    & st3 & H).
  destruct H as (_ & _ & _ & _ & _ & _ & _ & _ & _ & _ & _ & _
    & _ & _ & _ & _ & _ & _ & _ & _ & _ & _ & _ & ->).
  do 3 eexists. repeat split; reflexivity.
Qed.

(** A failing entry: the failure is counted and the loop goes on. *)
Lemma process_links_failure total i filename url rest out s f st e st1 :
  fetch_from_api w up filename url (announced total i filename st)
    = (Raise e, st1) ->
  process_links w up total i ((filename, url) :: rest) out s f st
  = process_links w up total (S i) rest out s (S f) (after_failure e st1).
Proof.
  intros H. simpl process_links.
  unfold bind at 1. unfold say at 1. unfold emit at 1.
  unfold bind at 1. unfold try_except. unfold bind at 1.
  unfold announced, say, emit in H. simpl in H. rewrite H.
  unfold bind at 1. reflexivity.
Qed.

(** A resolved entry: the record is stored under a fresh identifier, the
    success is counted and the loop goes on. *)
Lemma process_links_success total i filename url rest out s f st meta st1 :
  fetch_from_api w up filename url (announced total i filename st)
    = (Ok meta, st1) ->
  process_links w up total i ((filename, url) :: rest) out s f st
  = process_links w up total (S i) rest
      (Py.store (registry_key st1) meta out) (S s) f (after_success meta st1).
Proof.
  intros H. destruct (fetch_from_api_items _ _ _ _ _ H) as (t & b & z & Ht & Hb & Hz).
  simpl process_links.
  unfold bind at 1. unfold say at 1. unfold emit at 1.
  unfold bind at 1. unfold try_except. unfold bind at 1.
  unfold announced, say, emit in H. simpl in H. rewrite H.
  unfold ret at 1.
  unfold bind, gen_id_from, lift, say, sleep, emit; simpl.
  rewrite Ht, Hb, Hz. unfold after_success, item_or_null.
  rewrite Ht, Hb, Hz. reflexivity.
Qed.

(** The loop never raises, and it counts every entry once. *)
Lemma process_links_total entries : forall total i out s f st,
  exists out' s' f' st',
    process_links w up total i entries out s f st = (Ok (out', s', f'), st') /\
    s' + f' = s + f + length entries.
Proof.
  induction entries as [|[filename url] rest IH]; intros total i out s f st.
  - exists out, s, f, st. split; [reflexivity | simpl; lia].
  - destruct (fetch_from_api w up filename url (announced total i filename st))
      as [[meta|e] st1] eqn:Hf.
    + rewrite (process_links_success _ _ _ _ _ _ _ _ _ _ _ Hf).
      destruct (IH total (S i) (Py.store (registry_key st1) meta out) (S s) f
                   (after_success meta st1)) as (out' & s' & f' & st' & Hr & Hc).
      exists out', s', f', st'. split; [exact Hr | simpl; lia].
    + rewrite (process_links_failure _ _ _ _ _ _ _ _ _ _ _ Hf).
      destruct (IH total (S i) out s (S f) (after_failure e st1))
        as (out' & s' & f' & st' & Hr & Hc).
      exists out', s', f', st'. split; [exact Hr | simpl; lia].
Qed.

(** Saving never raises and leaves the console log extended. *)
Lemma save_registry_ok out st :
  exists st', save_registry w out st = (Ok tt, st').
Proof.
  unfold save_registry, try_except, bind, ensure_dir, failed_write, bind,
    put_file, say, emit, raise.
  destruct (mkdir_fails w OUTPUT_DIR); [eexists; reflexivity|].
  destruct (open_fails w OUTPUT_JSON);
    [destruct (write_breaks w OUTPUT_JSON)|]; eexists; reflexivity.
Qed.

(** What [run_batch] does with the result of the loop. *)
Lemma run_batch_after_loop links_list st out s f st1 :
  process_links w up (length links_list) 1 links_list [] 0 0
                (snd (say (MsgStart (length links_list)) st))
    = (Ok (out, s, f), st1) ->
  exists st',
    run_batch w up links_list st = (Ok JNull, st') /\
    reported_counts (log st') = Some (s, f, length out) /\
    (open_fails w OUTPUT_JSON = false -> mkdir_fails w OUTPUT_DIR = false ->
     saved_registry st' = Some (JDict out)).
Proof.
  intros Hloop. unfold run_batch.
  change (negb (Nat.eqb TEST_LIMIT 0) && Nat.ltb TEST_LIMIT (length links_list))
    with false. cbv iota.
  unfold bind at 1. unfold ret at 1.
  unfold bind at 1. unfold say at 1, emit at 1.
  unfold say, emit in Hloop. simpl in Hloop.
  unfold bind at 1. rewrite Hloop.
  unfold save_registry, try_except, bind, ensure_dir, failed_write, bind,
    put_file, say, emit, raise, ret.
  destruct (mkdir_fails w OUTPUT_DIR) eqn:Hm;
    [|destruct (open_fails w OUTPUT_JSON) eqn:Ho;
      [destruct (write_breaks w OUTPUT_JSON)|]];
    eexists; (split; [reflexivity|]); (split; [|try discriminate]);
    simpl log; unfold reported_counts; rewrite ?rev_app_distr;
    try reflexivity.
Qed.

(** [run_batch] always completes and prints the counts of the loop. *)
Lemma run_batch_total links_list st :
  exists (out : list (string * json)) s f st',
    run_batch w up links_list st = (Ok JNull, st') /\
    reported_counts (log st') = Some (s, f, length out) /\
    s + f = length links_list.
Proof.
  destruct (process_links_total links_list (length links_list) 1 [] 0 0
              (snd (say (MsgStart (length links_list)) st)))
    as (out & s & f & st1 & Hloop & Hc).
  destruct (run_batch_after_loop _ _ _ _ _ _ Hloop) as (st' & Hr & Hrep & _).
  exists out, s, f, st'. repeat split; [exact Hr | exact Hrep | exact Hc].
Qed.

(** C1: in a batch of two entries of which one raises during resolution
    and the other resolves, in either order, the run completes: the loop
    ends with a registry of exactly one record, that of the resolved entry,
    one success and one failure counted; the summary reports these counts
    and the registry written to disk is that one record. *)
Theorem batch_survives_failing_entry f1 u1 f2 u2 st meta :
  let st0 := snd (say (MsgStart 2) st) in
  (exists e st1 st2,
      fetch_from_api w up f1 u1 (announced 2 1 f1 st0) = (Raise e, st1) /\
      fetch_from_api w up f2 u2 (announced 2 2 f2 (after_failure e st1))
        = (Ok meta, st2))
  \/
  (exists e st1 st2,
      fetch_from_api w up f1 u1 (announced 2 1 f1 st0) = (Ok meta, st1) /\
      fetch_from_api w up f2 u2 (announced 2 2 f2 (after_success meta st1))
        = (Raise e, st2)) ->
  exists key st1' st',
    process_links w up 2 1 [(f1, u1); (f2, u2)] [] 0 0 st0
      = (Ok ([(key, meta)], 1, 1), st1') /\
    run_batch w up [(f1, u1); (f2, u2)] st = (Ok JNull, st') /\
    reported_counts (log st') = Some (1, 1, 1) /\
    (open_fails w OUTPUT_JSON = false -> mkdir_fails w OUTPUT_DIR = false ->
     saved_registry st' = Some (JDict [(key, meta)])).
Proof.
  intros st0 Hcase.
  assert (Hloop : exists key st1',
    process_links w up 2 1 [(f1, u1); (f2, u2)] [] 0 0 st0
      = (Ok ([(key, meta)], 1, 1), st1')).
  { destruct Hcase as [(e & st1 & st2 & H1 & H2) | (e & st1 & st2 & H1 & H2)].
    - rewrite (process_links_failure _ _ _ _ _ _ _ _ _ _ _ H1).
      rewrite (process_links_success _ _ _ _ _ _ _ _ _ _ _ H2).
      simpl. eexists. eexists. reflexivity.
    - rewrite (process_links_success _ _ _ _ _ _ _ _ _ _ _ H1).
      rewrite (process_links_failure _ _ _ _ _ _ _ _ _ _ _ H2).
      simpl. eexists. eexists. reflexivity. }
  destruct Hloop as (key & st1' & Hloop).
  destruct (run_batch_after_loop [(f1, u1); (f2, u2)] st _ _ _ _ Hloop)
    as (st' & Hr & Hrep & Hsaved).
  exists key, st1', st'. repeat split; assumption.
Qed.

End Batch.

(** A batch in which the first link has no model id and the second
    resolves. *)
Lemma batch_survives_failing_entry_witness :
  exists st',
    run_batch serves_one_version Urllib.path_of bad_then_good initial_state
      = (Ok JNull, st') /\
    reported_counts (log st') = Some (1, 1, 1).
Proof.
  edestruct (batch_survives_failing_entry serves_one_version Urllib.path_of
               "bad" "https://example.com/nothing"
               "foo" "https://civitai.com/models/12?modelVersionId=7"
               initial_state)
    as (key & st1' & st' & _ & Hr & Hrep & _).
  - left. do 3 eexists. split; [vm_compute; reflexivity|].
    vm_compute. reflexivity.
  - exists st'. split; [exact Hr | exact Hrep].
Defined.

(** C7, as stated, fails: no function recovers the counts from what [main]
    returns, since a run with one success and a run with one failure both
    return [None]. *)
Lemma summary_counts_not_returned : ~ exists f, counts_returned f.
Proof.
  intros [f Hf].
  assert (Ha : exists st',
             main one_model_one_image Urllib.path_of initial_state
               = (Ok JNull, st') /\
             reported_counts (log st') = Some (1, 0, 1)).
  { eexists. split; [vm_compute; reflexivity|]. vm_compute. reflexivity. }
  assert (Hb : exists st',
             main one_model_unreachable Urllib.path_of initial_state
               = (Ok JNull, st') /\
             reported_counts (log st') = Some (0, 1, 0)).
  { eexists. split; [vm_compute; reflexivity|]. vm_compute. reflexivity. }
  destruct Ha as (sa & Ea & Ra). destruct Hb as (sb & Eb & Rb).
  apply Hf in Ea. apply Hf in Eb.
  rewrite Ra in Ea. rewrite Rb in Eb. rewrite Ea in Eb. discriminate Eb.
Qed.

(** ** Identifiers of thumbnails and of records (C3) *)

(** C3 fails on the code at this input: for a batch of one entry with one
    image, the thumbnail is saved as [A0001_T1.jpg] and recorded as the
    entry's [thumbnail_local], while the entry's record is keyed [A0002] in
    the registry written to disk. *)
Theorem thumbnail_id_is_not_registry_key :
  let run := main one_model_one_image Urllib.path_of initial_state in
  fst run = Ok JNull /\
  map fst (disk (snd run))
    = [OUTPUT_JSON; OsPath.join THUMB_DIR "A0001_T1.jpg"] /\
  exists meta,
    saved_registry (snd run) = Some (JDict [("A0002", meta)]) /\
    Dyn.item meta "thumbnail_local"
      = Ok (JStr (OsPath.join THUMB_DIR "A0001_T1.jpg")).
Proof.
  cbv zeta. split; [vm_compute; reflexivity|].
  split; [vm_compute; reflexivity|].
  eexists. split; vm_compute; reflexivity.
Qed.

(** ** Concrete records (C9) *)

(** C9, as stated, fails: the record resolved from a version record that
    omits the download URL has the input URL as [download_link], not an
    empty string (and its [model_link] is not empty either). *)
Lemma omitted_download_link_is_not_empty :
  exists rec st',
    fetch_from_api serves_bare_version Urllib.path_of "foo" versioned_url
                   initial_state = (Ok rec, st') /\
    upstream_omits bare_version F_download_link = true /\
    field_value rec F_download_link = Ok (JStr versioned_url) /\
    upstream_omits bare_version F_model_link = true /\
    field_value rec F_model_link = Ok (JStr "https://civitai.com/models/12") /\
    ~ omitted_fields_empty bare_version rec.
Proof.
  eexists. eexists. split; [vm_compute; reflexivity|].
  split; [reflexivity|]. split; [vm_compute; reflexivity|].
  split; [reflexivity|]. split; [vm_compute; reflexivity|].
  intros H. destruct (H F_download_link eq_refl) as (x & Hx & He).
  vm_compute in Hx. injection Hx as <-. discriminate He.
Qed.

(** A [null] of the upstream is passed on: the record resolved from a
    version record whose description is [null] has a [null] description. *)
Lemma upstream_null_is_passed_on :
  exists rec st',
    fetch_from_api serves_null_description Urllib.path_of "foo" versioned_url
                   initial_state = (Ok rec, st') /\
    field_value rec F_description = Ok JNull.
Proof.
  eexists. eexists. split; vm_compute; reflexivity.
Qed.

(** The record resolved from the bare version record has every field. *)
Lemma record_has_every_field_witness :
  exists rec st',
    fetch_from_api serves_bare_version Urllib.path_of "foo" versioned_url
                   initial_state = (Ok rec, st') /\
    every_field_present rec.
Proof.
  eexists. eexists. split; [vm_compute; reflexivity|].
  edestruct (record_has_every_field serves_bare_version Urllib.path_of
               "foo" versioned_url initial_state)
    as (mid & version_id & v & st1 & st2 & _ & _ & Hp & _).
  - vm_compute. reflexivity.
  - exact Hp.
Defined.

(** ** The link loader (C6) *)

Lemma urls_of_nonempty value u :
  In u (urls_of value) -> PyStr.nonempty u = true.
Proof.
  unfold urls_of. intros H.
  destruct value; simpl in H; try contradiction;
    apply filter_In in H; apply H.
Qed.

Lemma nonempty_not_empty u : PyStr.nonempty u = true -> u <> EmptyString.
Proof. destruct u; [discriminate | discriminate]. Qed.

Section Loader.

Variable up : string -> result string.

(** Without a blank key the loader never raises; with one, only when the
    URL parser does. *)
Lemma load_items_total items :
  (forall u, exists path, up u = Ok path) ->
  forall acc, exists pairs, load_items up items acc = Ok pairs.
Proof.
  intros Hup. induction items as [|[model_name value] rest IH]; intros acc.
  - eexists. reflexivity.
  - simpl. destruct (Py.truthy value); simpl; [|apply IH].
    destruct (_ || _); [apply IH|].
    destruct (PyStr.nonempty (PyStr.strip model_name)); simpl; [apply IH|].
    assert (Hn : forall urls acc0, exists acc', name_each up urls acc0 = Ok acc').
    { induction urls as [|u us IHu]; intros acc0; simpl.
      - eexists. reflexivity.
      - destruct (Hup u) as [path ->]. apply IHu. }
    destruct (Hn (urls_of value) acc) as [acc' ->]. apply IH.
Qed.

End Loader.



(* ================================================================== *)
(** * Further properties of the pipeline *)
(* ================================================================== *)

(** ** Accounting lemmas *)

Lemma uses_ret {A} (x : A) ids reqs : uses (ret x) ids reqs.
Proof. intros st r st' H. inversion H; subst. lia. Qed.

Lemma uses_raise {A} (e : exn) ids reqs : uses (@raise A e) ids reqs.
Proof. intros st r st' H. inversion H; subst. lia. Qed.

Lemma uses_lift {A} (x : result A) ids reqs : uses (lift x) ids reqs.
Proof. intros st r st' H. inversion H; subst. lia. Qed.

Lemma uses_emit e ids reqs : uses (emit e) ids reqs.
Proof. intros st r st' H. inversion H; subst. simpl. lia. Qed.

Lemma uses_le {A} (m : M A) a b a' b' :
  uses m a b -> (a <= a')%nat -> (b <= b')%nat -> uses m a' b'.
Proof. intros Hm Ha Hb st r st' H. specialize (Hm st r st' H). lia. Qed.

Lemma uses_bind {A B} (m : M A) (k : A -> M B) a b c d :
  uses m a b -> (forall x, uses (k x) c d) ->
  uses (bind m k) (a + c) (b + d).
Proof.
  intros Hm Hk st r st' H. unfold bind in H.
  destruct (m st) as [[x|e] st1] eqn:E.
  - specialize (Hm _ _ _ E). specialize (Hk x _ _ _ H). lia.
  - inversion H; subst. specialize (Hm _ _ _ E). lia.
Qed.

Lemma uses_try {A} (m : M A) (h : exn -> M A) a b c d :
  uses m a b -> (forall e, uses (h e) c d) ->
  uses (try_except m h) (a + c) (b + d).
Proof.
  intros Hm Hh st r st' H. unfold try_except in H.
  destruct (m st) as [[x|e] st1] eqn:E.
  - inversion H; subst. specialize (Hm _ _ _ E). lia.
  - specialize (Hm _ _ _ E). specialize (Hh e _ _ _ H). lia.
Qed.

(** A step that costs nothing, then the rest. *)
Lemma uses_then {A B} (m : M A) (k : A -> M B) c d :
  uses m 0 0 -> (forall x, uses (k x) c d) -> uses (bind m k) c d.
Proof. intros Hm Hk. apply (uses_bind m k 0 0 c d); assumption. Qed.

Lemma uses_requests_get w url timeout : uses (requests_get w url timeout) 0 1.
Proof.
  intros st r st' H. unfold requests_get in H.
  destruct (net w (requests_made st) url); inversion H; subst; simpl; lia.
Qed.

Lemma uses_gen_id_from filename url : uses (gen_id_from filename url) 1 0.
Proof. intros st r st' H. inversion H; subst. simpl. lia. Qed.

Lemma uses_ensure_dir w path : uses (ensure_dir w path) 0 0.
Proof.
  unfold ensure_dir. destruct (mkdir_fails w path);
    [apply uses_raise | apply uses_emit].
Qed.

Lemma uses_put_file path c : uses (put_file path c) 0 0.
Proof. intros st r st' H. inversion H; subst. simpl. lia. Qed.

Lemma adds_files_same {A} (m : M A) :
  (forall st r st', m st = (r, st') -> disk st' = disk st) -> adds_files m.
Proof. intros Hm st r st' H. exists []. simpl. exact (Hm _ _ _ H). Qed.

Lemma adds_files_ret {A} (x : A) : adds_files (ret x).
Proof. apply adds_files_same. intros st r st' H. now inversion H. Qed.

Lemma adds_files_raise {A} (e : exn) : adds_files (@raise A e).
Proof. apply adds_files_same. intros st r st' H. now inversion H. Qed.

Lemma adds_files_lift {A} (x : result A) : adds_files (lift x).
Proof. apply adds_files_same. intros st r st' H. now inversion H. Qed.

Lemma adds_files_emit e : adds_files (emit e).
Proof. apply adds_files_same. intros st r st' H. now inversion H. Qed.

Lemma adds_files_bind {A B} (m : M A) (k : A -> M B) :
  adds_files m -> (forall x, adds_files (k x)) -> adds_files (bind m k).
Proof.
  intros Hm Hk st r st' H. unfold bind in H.
  destruct (m st) as [[x|e] st1] eqn:E.
  - destruct (Hm _ _ _ E) as [a1 E1]. destruct (Hk x _ _ _ H) as [a2 E2].
    exists (a2 ++ a1)%list. rewrite E2, E1. apply app_assoc.
  - inversion H; subst. exact (Hm _ _ _ E).
Qed.

Lemma adds_files_try {A} (m : M A) (h : exn -> M A) :
  adds_files m -> (forall e, adds_files (h e)) -> adds_files (try_except m h).
Proof.
  intros Hm Hh st r st' H. unfold try_except in H.
  destruct (m st) as [[x|e] st1] eqn:E.
  - inversion H; subst. exact (Hm _ _ _ E).
  - destruct (Hm _ _ _ E) as [a1 E1]. destruct (Hh e _ _ _ H) as [a2 E2].
    exists (a2 ++ a1)%list. rewrite E2, E1. apply app_assoc.
Qed.

Lemma adds_files_requests_get w url timeout :
  adds_files (requests_get w url timeout).
Proof.
  apply adds_files_same. intros st r st' H. unfold requests_get in H.
  destruct (net w (requests_made st) url); now inversion H.
Qed.

Lemma adds_files_ensure_dir w path : adds_files (ensure_dir w path).
Proof.
  unfold ensure_dir. destruct (mkdir_fails w path);
    [apply adds_files_raise | apply adds_files_emit].
Qed.

Lemma adds_files_put_file path c : adds_files (put_file path c).
Proof. intros st r st' H. inversion H; subst. exists [(path, c)]. reflexivity. Qed.

Ltac adds_files_tac :=
  repeat first
    [ apply adds_files_ret | apply adds_files_raise | apply adds_files_lift
    | apply adds_files_emit | apply adds_files_requests_get
    | apply adds_files_ensure_dir | apply adds_files_put_file
    | apply adds_files_bind; [|intros ?]
    | apply adds_files_try; [|intros ?]
    | match goal with
      | |- adds_files (if ?c then _ else _) => destruct c
      | |- adds_files (match ?x with _ => _ end) => destruct x
      | |- adds_files (say _) => unfold say
      | |- adds_files (sleep _) => unfold sleep
      end ].

Lemma count_pause_snoc p l e :
  count_pause p (l ++ [e])
  = (count_pause p l + count_pause p [e])%nat.
Proof.
  induction l as [|x l IH]; simpl; [lia|].
  destruct x; rewrite IH; simpl; lia.
Qed.

(** ** The fetch layer: what [get] does in every run *)

Section Fetch.

Variable w : world.

(** One round of [get_attempts], spelled out. *)
Lemma get_attempts_step n url timeout last st :
  get_attempts w (S n) url timeout last st
  = match net w (requests_made st) url with
    | Responds resp =>
        if (status_code resp =? 200)%Z
        then (Ok resp, request_sent url timeout st)
        else if (status_code resp =? 429)%Z
        then get_attempts w n url timeout last
               (snd (rand_sleep (snd (sleep Cooldown30
                 (snd (say MsgRateLimited
                    (request_sent url timeout st)))))))
        else get_attempts w n url timeout last
               (snd (rand_sleep
                 (snd (say (MsgHttpStatus (status_code resp) url)
                    (request_sent url timeout st)))))
    | Fails Timeout =>
        get_attempts w n url timeout last
          (snd (rand_sleep (snd (say (MsgTimeout url)
             (request_sent url timeout st)))))
    | Fails e =>
        get_attempts w n url timeout (Some e)
          (snd (rand_sleep (snd (say (MsgNetworkError e)
             (request_sent url timeout st)))))
    end.
Proof.
  simpl get_attempts. unfold requests_get.
  destruct (net w (requests_made st) url) as [resp|e].
  - destruct (status_code resp =? 200)%Z; [reflexivity|].
    destruct (status_code resp =? 429)%Z; reflexivity.
  - destruct e; reflexivity.
Qed.

(** What a run of the retry loop costs and logs: [k] requests, no more than
    the rounds allowed; one 30-second cooldown for each 429 among their
    answers; one backoff pause for each failed attempt; nothing written and
    no identifier drawn. *)
Lemma get_attempts_account n url timeout : forall last st r st',
  get_attempts w n url timeout last st = (r, st') ->
  exists k,
    (k <= n)%nat /\
    requests_made st' = (requests_made st + k)%nat /\
    count_pause Cooldown30 (log st')
    = (count_pause Cooldown30 (log st)
       + List.length (filter rate_limited (outcomes w url (requests_made st) k)))%nat /\
    count_pause Backoff (log st')
    = (count_pause Backoff (log st)
       + List.length (filter attempt_fails (outcomes w url (requests_made st) k)))%nat /\
    disk st' = disk st /\ id_counter st' = id_counter st.
Proof.
  induction n as [|n IH]; intros last st r st' H.
  - exists 0. simpl in H. destruct last; inversion H; subst; simpl;
      repeat split; lia.
  - rewrite get_attempts_step in H.
    assert (Hlen : forall (f : net_outcome -> bool) k,
      List.length (filter f (outcomes w url (requests_made st) (S k)))
      = ((if f (net w (requests_made st) url) then 1 else 0)
         + List.length (filter f (outcomes w url (S (requests_made st)) k)))%nat).
    { intros f k. simpl. destruct (f (net w (requests_made st) url)); reflexivity. }
    destruct (net w (requests_made st) url) as [resp|e] eqn:Hnet.
    + destruct (status_code resp =? 200)%Z eqn:H200.
      * exists 1. inversion H; subst; clear H.
        rewrite !Hlen. unfold rate_limited, attempt_fails. rewrite H200.
        assert (H429 : (status_code resp =? 429)%Z = false).
        { apply Z.eqb_eq in H200. rewrite H200. reflexivity. }
        rewrite H429. unfold request_sent. simpl.
        rewrite !count_pause_snoc. simpl. repeat split; lia.
      * destruct (status_code resp =? 429)%Z eqn:H429;
          apply IH in H; destruct H as (k & Hk & Hr & Hc & Hb & Hd & Hi);
          exists (S k); rewrite !Hlen; unfold rate_limited at 1;
          unfold attempt_fails at 1; rewrite H200, H429;
          unfold request_sent in Hr, Hc, Hb, Hd, Hi;
          unfold request_sent in Hr, Hc, Hb, Hd, Hi;
        simpl in Hr, Hc, Hb, Hd, Hi |- *;
          rewrite ?count_pause_snoc in Hc, Hb; simpl in Hc, Hb;
          repeat split; try lia; try assumption.
    + destruct e; apply IH in H;
        destruct H as (k & Hk & Hr & Hc & Hb & Hd & Hi);
        exists (S k); rewrite !Hlen; unfold rate_limited at 1;
        unfold attempt_fails at 1;
        unfold request_sent in Hr, Hc, Hb, Hd, Hi;
        simpl in Hr, Hc, Hb, Hd, Hi |- *;
        rewrite ?count_pause_snoc in Hc, Hb; simpl in Hc, Hb;
        repeat split; try lia; try assumption.
Qed.

End Fetch.

Section FetchRuns.

Variable w : world.

Lemma get_attempts_first_success url timeout resp : forall k n last st,
  (k < n)%nat ->
  forallb attempt_fails (outcomes w url (requests_made st) k) = true ->
  net w (requests_made st + k) url = Responds resp ->
  status_code resp = 200%Z ->
  exists st',
    get_attempts w n url timeout last st = (Ok resp, st') /\
    requests_made st' = (requests_made st + S k)%nat.
Proof.
  induction k as [|k IH]; intros n last st Hk Hfail Hnet H200;
    (destruct n as [|n]; [lia|]); rewrite get_attempts_step.
  - rewrite Nat.add_0_r in Hnet. rewrite Hnet.
    apply Z.eqb_eq in H200. rewrite H200.
    eexists. split; [reflexivity|]. unfold request_sent. simpl. lia.
  - simpl in Hfail. apply andb_true_iff in Hfail. destruct Hfail as [Hf Hrest].
    assert (Hgo : forall last' st1,
      requests_made st1 = S (requests_made st) ->
      exists st',
        get_attempts w n url timeout last' st1 = (Ok resp, st') /\
        requests_made st' = (requests_made st + S (S k))%nat).
    { intros last' st1 E.
      destruct (IH n last' st1) as (st' & Hrun & Hreq); try lia.
      - rewrite E. exact Hrest.
      - rewrite E. rewrite <- Hnet. f_equal. lia.
      - exists st'. split; [exact Hrun | lia]. }
    destruct (net w (requests_made st) url) as [r0|e].
    + simpl in Hf. apply negb_true_iff in Hf. rewrite Hf.
      destruct (status_code r0 =? 429)%Z; apply Hgo; reflexivity.
    + destruct e; apply Hgo; reflexivity.
Qed.

Lemma get_attempts_fail_count n url timeout : forall last st,
  forallb attempt_fails (outcomes w url (requests_made st) n) = true ->
  exists st',
    get_attempts w n url timeout last st
    = (Raise (match recorded last (outcomes w url (requests_made st) n) with
              | Some e => e
              | None => RuntimeError ("Failed to GET " ++ url)
              end), st') /\
    requests_made st' = (requests_made st + n)%nat.
Proof.
  induction n as [|n IH]; intros last st Hall.
  - simpl. destruct last; eexists; (split; [reflexivity | lia]).
  - simpl in Hall. apply andb_true_iff in Hall. destruct Hall as [Hf Hrest].
    rewrite get_attempts_step. simpl outcomes.
    assert (Hgo : forall last' st1,
      requests_made st1 = S (requests_made st) ->
      exists st',
        get_attempts w n url timeout last' st1
        = (Raise (match recorded last'
                          (outcomes w url (S (requests_made st)) n) with
                  | Some e => e
                  | None => RuntimeError ("Failed to GET " ++ url)
                  end), st') /\
        requests_made st' = (requests_made st + S n)%nat).
    { intros last' st1 E.
      destruct (IH last' st1) as (st' & Hrun & Hreq).
      - rewrite E. exact Hrest.
      - rewrite E in Hrun. exists st'. split; [exact Hrun | lia]. }
    destruct (net w (requests_made st) url) as [r0|e].
    + simpl in Hf. apply negb_true_iff in Hf. rewrite Hf. simpl recorded.
      destruct (status_code r0 =? 429)%Z; apply Hgo; reflexivity.
    + simpl recorded. destruct e; apply Hgo; reflexivity.
Qed.

(** X1: the first attempt answered with status 200 ends the retries: when
    the [k] attempts before it fail, [k] below the bound of three, [get]
    returns that response after exactly [k + 1] requests. *)
Theorem get_returns_first_success url timeout st k resp :
  (k < RETRIES)%nat ->
  forallb attempt_fails (outcomes w url (requests_made st) k) = true ->
  net w (requests_made st + k) url = Responds resp ->
  status_code resp = 200%Z ->
  exists st',
    get w url timeout st = (Ok resp, st') /\
    requests_made st' = (requests_made st + S k)%nat.
Proof.
  intros Hk Hfail Hnet H200. unfold get.
  eapply get_attempts_first_success; eassumption.
Qed.

(** X2: when all three attempts fail, [get] never returns a response: after
    exactly three requests it raises the exception it recorded last - the
    most recent one other than a timeout - or, when it recorded none, the
    RuntimeError "Failed to GET <url>". *)
Theorem get_raises_when_all_fail url timeout st :
  forallb attempt_fails (outcomes w url (requests_made st) RETRIES) = true ->
  exists st',
    get w url timeout st
    = (Raise (match recorded None
                      (outcomes w url (requests_made st) RETRIES) with
              | Some e => e
              | None => RuntimeError ("Failed to GET " ++ url)
              end), st') /\
    requests_made st' = (requests_made st + RETRIES)%nat.
Proof.
  intros Hall. unfold get. apply get_attempts_fail_count. exact Hall.
Qed.

(** X3: in every run, [get] issues [k] requests, at most three; it takes
    one 30-second cooldown for each 429 among the answers and one backoff
    pause for each failed attempt; it writes no file and draws no
    identifier. *)
Theorem get_accounts url timeout st r st' :
  get w url timeout st = (r, st') ->
  exists k,
    (k <= RETRIES)%nat /\
    requests_made st' = (requests_made st + k)%nat /\
    count_pause Cooldown30 (log st')
    = (count_pause Cooldown30 (log st)
       + List.length (filter rate_limited
                        (outcomes w url (requests_made st) k)))%nat /\
    count_pause Backoff (log st')
    = (count_pause Backoff (log st)
       + List.length (filter attempt_fails
                        (outcomes w url (requests_made st) k)))%nat /\
    disk st' = disk st /\ id_counter st' = id_counter st.
Proof.
  unfold get. apply get_attempts_account.
Qed.

End FetchRuns.

(** Two failures, then a 200. *)
Lemma get_returns_first_success_witness :
  exists st',
    get (scripted [Responds (status_response 500); Fails Timeout;
                   Responds (json_response JNull)] LinksMissing)
        "https://civitai.com/api/v1/models/12" None initial_state
    = (Ok (json_response JNull), st') /\
    requests_made st' = 3.
Proof.
  apply (get_returns_first_success
           (scripted [Responds (status_response 500); Fails Timeout;
                      Responds (json_response JNull)] LinksMissing)
           "https://civitai.com/api/v1/models/12" None initial_state 2
           (json_response JNull)).
  - unfold RETRIES. lia.
  - reflexivity.
  - reflexivity.
  - reflexivity.
Defined.

(** Three answers with status 500. *)
Lemma get_raises_when_all_fail_witness :
  exists st',
    get (scripted [Responds (status_response 500);
                   Responds (status_response 500);
                   Responds (status_response 500)] LinksMissing)
        "https://civitai.com/api/v1/models/12" None initial_state
    = (Raise (RuntimeError
                "Failed to GET https://civitai.com/api/v1/models/12"), st') /\
    requests_made st' = 3.
Proof.
  apply (get_raises_when_all_fail
           (scripted [Responds (status_response 500);
                      Responds (status_response 500);
                      Responds (status_response 500)] LinksMissing)
           "https://civitai.com/api/v1/models/12" None initial_state).
  reflexivity.
Defined.

(** One 429, then a 200: one cooldown. *)
Lemma get_accounts_witness :
  exists r st',
    get (scripted [Responds (status_response 429);
                   Responds (json_response JNull)] LinksMissing)
        "https://civitai.com/api/v1/models/12" None initial_state = (r, st') /\
    count_pause Cooldown30 (log st') = 1.
Proof.
  eexists. eexists. split; [vm_compute; reflexivity|].
  edestruct (get_accounts
           (scripted [Responds (status_response 429);
                      Responds (json_response JNull)] LinksMissing)
           "https://civitai.com/api/v1/models/12" None initial_state)
    as (k & Hk & Hr & Hc & _).
  - vm_compute. reflexivity.
  - vm_compute. reflexivity.
Defined.

(** ** The thumbnail acquirer: failures and files *)

Section Acquirer.

Variable w : world.
Variable up : string -> result string.

(** X4: called on a non-empty URL, [download_thumbnail] raises only before
    it sends anything - when the thumbnail directory cannot be created or
    the URL does not parse - and then leaves the disk as it was; in every
    other case it sends exactly one request and returns the URL it was
    given as remote URL. *)
Theorem download_raises_only_before_request url out_id timeout st r st' :
  url <> EmptyString ->
  download_thumbnail w up (JStr url) out_id timeout st = (r, st') ->
  match r with
  | Raise e =>
      (mkdir_fails w THUMB_DIR = true \/ up url = Raise e) /\
      requests_made st' = requests_made st /\ disk st' = disk st
  | Ok (remote, local) =>
      remote = url /\ requests_made st' = S (requests_made st)
  end.
Proof.
  intros Hurl H. unfold download_thumbnail in H.
  destruct url as [|c url']; [contradiction Hurl; reflexivity|].
  simpl Py.truthy in H. simpl negb in H. cbv iota in H.
  unfold bind, ensure_dir, lift, try_except, requests_get, write_stream,
    failed_write, bind, put_file, say, emit, ret, raise in H.
  destruct (mkdir_fails w THUMB_DIR) eqn:Hm.
  { inversion H; subst. repeat split. left. reflexivity. }
  destruct (up (String c url')) as [path|e] eqn:Hup.
  2: { inversion H; subst. simpl. repeat split. right. reflexivity. }
  simpl in H.
  destruct (net w (requests_made st) (String c url')) as [resp|e].
  2: { inversion H; subst. simpl. split; reflexivity. }
  destruct (status_code resp =? 200)%Z; simpl in H.
  2: { inversion H; subst. simpl. split; reflexivity. }
  destruct (open_fails w _).
  { destruct (write_breaks w _); inversion H; subst; simpl; split;
      reflexivity. }
  destruct (body_breaks resp); inversion H; subst; simpl; split; reflexivity.
Qed.

(** X5: a failed fetch - a request that raises, or an answer with a status
    other than 200 - is not an error of the acquirer: it returns the remote
    URL with an empty local path and writes no file. *)
Theorem failed_fetch_keeps_remote_url url out_id timeout st path :
  url <> EmptyString ->
  mkdir_fails w THUMB_DIR = false ->
  up url = Ok path ->
  attempt_fails (net w (requests_made st) url) = true ->
  exists st',
    download_thumbnail w up (JStr url) out_id timeout st
      = (Ok (url, EmptyString), st') /\
    disk st' = disk st.
Proof.
  intros Hurl Hm Hup Hfail. unfold download_thumbnail.
  destruct url as [|c url']; [contradiction Hurl; reflexivity|].
  simpl Py.truthy. simpl negb. cbv iota.
  unfold bind, ensure_dir, lift, try_except, requests_get, write_stream,
    put_file, say, emit, ret, raise.
  rewrite Hm, Hup. simpl.
  destruct (net w (requests_made st) (String c url')) as [resp|e].
  - simpl in Hfail. apply negb_true_iff in Hfail. rewrite Hfail. simpl.
    eexists. split; reflexivity.
  - eexists. split; reflexivity.
Qed.

(** X6: when the answer is 200 and the file is opened but the body stream
    breaks, the acquirer reports the download as failed (empty local path)
    and the partly written file stays on disk. *)
Theorem broken_stream_leaves_partial_file url out_id timeout st path resp :
  url <> EmptyString ->
  mkdir_fails w THUMB_DIR = false ->
  up url = Ok path ->
  net w (requests_made st) url = Responds resp ->
  status_code resp = 200%Z ->
  body_breaks resp = true ->
  let local_path :=
    OsPath.join THUMB_DIR
      (out_id ++ choose_ext (PyStr.lower (OsPath.splitext_ext path))
                   (PyStr.lower (match content_type resp with
                                 | Some c => c
                                 | None => EmptyString
                                 end))) in
  open_fails w local_path = false ->
  exists st',
    download_thumbnail w up (JStr url) out_id timeout st
      = (Ok (url, EmptyString), st') /\
    disk st'
    = (local_path, Bytes (String.concat EmptyString (body_chunks resp)))
        :: disk st.
Proof.
  intros Hurl Hm Hup Hnet H200 Hbreak local_path Hopen.
  unfold download_thumbnail.
  destruct url as [|c url']; [contradiction Hurl; reflexivity|].
  simpl Py.truthy. simpl negb. cbv iota.
  unfold bind, ensure_dir, lift, try_except, requests_get, write_stream,
    put_file, say, emit, ret, raise.
  rewrite Hm, Hup. simpl. rewrite Hnet.
  apply Z.eqb_eq in H200. rewrite H200. simpl.
  fold local_path. rewrite Hopen, Hbreak.
  eexists. split; reflexivity.
Qed.

End Acquirer.

(** X7: the extension chosen for a saved file is never empty; under an
    image content type it is one of .jpg .jpeg .png .webp, and under a video
    content type (that is not also an image type) one of .mp4 .webm. *)
Theorem chosen_extension_fits_media ext ctype :
  choose_ext ext ctype <> EmptyString /\
  (PyStr.contains "image" ctype = true ->
   mem_str (choose_ext ext ctype) image_exts = true) /\
  (PyStr.contains "image" ctype = false ->
   PyStr.contains "video" ctype = true ->
   mem_str (choose_ext ext ctype) video_exts = true).
Proof.
  unfold choose_ext.
  destruct (PyStr.contains "image" ctype);
    [|destruct (PyStr.contains "video" ctype)].
  - destruct (mem_str ext image_exts) eqn:Hmem.
    + destruct ext; [discriminate Hmem|]. simpl.
      split; [discriminate|]. split; [intros _; exact Hmem | discriminate].
    + rewrite orb_true_r.
      split; [discriminate|]. split; [reflexivity | discriminate].
  - destruct (mem_str ext video_exts) eqn:Hmem.
    + destruct ext; [discriminate Hmem|]. simpl.
      split; [discriminate|]. split; [discriminate | intros _ _; exact Hmem].
    + rewrite orb_true_r.
      split; [discriminate|]. split; [discriminate | reflexivity].
  - destruct ext; simpl; (split; [discriminate|]); split; discriminate.
Qed.

(** A download whose request times out. *)
Lemma failed_fetch_keeps_remote_url_witness :
  exists st',
    download_thumbnail (scripted [Fails Timeout] LinksMissing) Urllib.path_of
      (JStr "https://img.example/a.png") "A0001_T1" THUMB_TIMEOUT
      initial_state
    = (Ok ("https://img.example/a.png", EmptyString), st') /\
    disk st' = [].
Proof.
  apply (failed_fetch_keeps_remote_url
           (scripted [Fails Timeout] LinksMissing) Urllib.path_of
           "https://img.example/a.png" "A0001_T1" THUMB_TIMEOUT initial_state
           "/a.png").
  - discriminate.
  - reflexivity.
  - vm_compute. reflexivity.
  - reflexivity.
Defined.

(** A download that is answered. *)
Lemma download_raises_only_before_request_witness :
  exists local st',
    download_thumbnail
      (scripted [Responds (media_response "image/jpeg")] LinksMissing)
      Urllib.path_of (JStr "https://img.example/a.png") "A0001_T1"
      THUMB_TIMEOUT initial_state
    = (Ok ("https://img.example/a.png", local), st') /\
    requests_made st' = 1.
Proof.
  eexists. eexists. split; [vm_compute; reflexivity|].
  refine (proj2 (download_raises_only_before_request
            (scripted [Responds (media_response "image/jpeg")] LinksMissing)
            Urllib.path_of "https://img.example/a.png" "A0001_T1"
            THUMB_TIMEOUT initial_state (Ok (_, _)) _ _ _)).
  - discriminate.
  - vm_compute. reflexivity.
Defined.

(** A body that breaks after its first chunk. *)
Lemma broken_stream_leaves_partial_file_witness :
  exists st',
    download_thumbnail
      (scripted [Responds broken_png_response] LinksMissing)
      Urllib.path_of (JStr "https://img.example/a.png") "A0001_T1"
      THUMB_TIMEOUT initial_state
    = (Ok ("https://img.example/a.png", EmptyString), st') /\
    disk st' = [(OsPath.join THUMB_DIR "A0001_T1.png", Bytes "<part>")].
Proof.
  apply (broken_stream_leaves_partial_file
           (scripted [Responds broken_png_response] LinksMissing)
           Urllib.path_of "https://img.example/a.png" "A0001_T1"
           THUMB_TIMEOUT initial_state "/a.png" broken_png_response).
  - discriminate.
  - reflexivity.
  - vm_compute. reflexivity.
  - reflexivity.
  - reflexivity.
  - reflexivity.
  - reflexivity.
Defined.

(** A .png URL under an image content type. *)
Lemma chosen_extension_fits_media_witness :
  mem_str (choose_ext ".png" "image/jpeg") image_exts = true.
Proof.
  apply (proj1 (proj2 (chosen_extension_fits_media ".png" "image/jpeg"))).
  reflexivity.
Defined.

(** ** What a resolution costs *)

Lemma uses_say m ids reqs : uses (say m) ids reqs.
Proof. apply uses_emit. Qed.

Lemma uses_sleep p ids reqs : uses (sleep p) ids reqs.
Proof. apply uses_emit. Qed.

(** A pure step, then the rest, which may rely on the step's value. *)
Lemma uses_then_lift {A B} (x : result A) (k : A -> M B) c d :
  (forall a, x = Ok a -> uses (k a) c d) -> uses (bind (lift x) k) c d.
Proof.
  intros Hk st r st' H. unfold bind, lift in H. destruct x as [a|e].
  - exact (Hk a eq_refl _ _ _ H).
  - inversion H; subst. lia.
Qed.

Ltac uses_pure :=
  repeat first
    [ apply uses_ret | apply uses_raise | apply uses_lift
    | apply uses_say | apply uses_sleep
    | apply uses_then_lift; intros ? ?
    | apply uses_then; [first [apply uses_say | apply uses_sleep]|intros ?]
    | match goal with
      | |- uses (if ?c then _ else _) _ _ => destruct c
      | |- uses (match ?x with _ => _ end) _ _ => destruct x
      end ].

Lemma first_five_length v images :
  Dyn.first_five v = Ok images -> (List.length images <= 5)%nat.
Proof.
  assert (Hcap : forall A (l : list A), (List.length (firstn 5 l) <= 5)%nat).
  { intros A l. apply firstn_le_length. }
  destruct v; unfold Dyn.first_five; intros H; try discriminate H.
  - remember (firstn 5 (PyStr.chars s)) as l eqn:El.
    injection H as <-. rewrite length_map, El. apply Hcap.
  - remember (firstn 5 items) as l eqn:El.
    injection H as <-. rewrite El. apply Hcap.
Qed.

Section Cost.

Variable w : world.
Variable up : string -> result string.

Lemma uses_failed_write path : uses (failed_write w path) 0 0.
Proof.
  unfold failed_write. destruct (write_breaks w path); [|apply uses_raise].
  apply uses_then; [apply uses_put_file | intros _]. apply uses_raise.
Qed.

Lemma uses_write_stream path r : uses (write_stream w path r) 0 0.
Proof.
  unfold write_stream.
  destruct (open_fails w path); [apply uses_failed_write|].
  apply uses_then; [apply uses_put_file | intros _]. uses_pure.
Qed.

Lemma uses_download_thumbnail v out_id timeout :
  uses (download_thumbnail w up v out_id timeout) 0 1.
Proof.
  unfold download_thumbnail. destruct (negb (Py.truthy v)); [apply uses_ret|].
  apply uses_then; [apply uses_ensure_dir | intros _].
  apply uses_then_lift; intros url _. apply uses_then_lift; intros path _.
  apply (uses_try _ _ 0 1 0 0).
  - apply (uses_bind _ _ 0 1 0 0); [apply uses_requests_get | intros r].
    destruct (negb (status_code r =? 200)%Z); [uses_pure|].
    apply uses_then; [apply uses_write_stream | intros _]. uses_pure.
  - intros e. uses_pure.
Qed.

Lemma uses_find_version n model_api : uses (find_version w n model_api) 0 n.
Proof.
  induction n as [|n IH]; simpl; [apply uses_ret|].
  apply (uses_bind _ _ 0 1 0 n).
  - apply (uses_try _ _ 0 1 0 0).
    + apply (uses_bind _ _ 0 1 0 0); [apply uses_requests_get | intros r].
      uses_pure.
    + intros e. uses_pure.
  - intros [id|]; [apply uses_ret | exact IH].
Qed.

Lemma uses_fetch_version n version_api :
  uses (fetch_version w n version_api) 0 n.
Proof.
  induction n as [|n IH]; simpl; [apply uses_ret|].
  apply (uses_bind _ _ 0 1 0 n).
  - apply (uses_try _ _ 0 1 0 0).
    + apply (uses_bind _ _ 0 1 0 0); [apply uses_requests_get | intros r].
      uses_pure.
    + intros e. uses_pure.
  - intros [v|]; [apply uses_ret | exact IH].
Qed.

Lemma uses_thumbs_loop out_id images : forall j remote0 local0,
  uses (thumbs_loop w up out_id j images remote0 local0)
       0 (List.length images).
Proof.
  induction images as [|img rest IH]; intros j remote0 local0; simpl;
    [apply uses_ret|].
  apply uses_then_lift; intros thumb_url _.
  destruct (negb (Py.truthy thumb_url)).
  - eapply uses_le; [apply IH | lia | lia].
  - apply (uses_bind _ _ 0 1 0 (List.length rest)).
    + apply (uses_try _ _ 0 1 0 0).
      * apply (uses_bind _ _ 0 1 0 0);
          [apply uses_download_thumbnail | intros [remote local]].
        apply uses_ret.
      * intros e. uses_pure.
    + intros lists. apply IH.
Qed.

Lemma uses_build_record filename url mid v :
  uses (build_record w up filename url mid v) 1 5.
Proof.
  unfold build_record.
  do 20 (apply uses_then_lift; intros ? ?).
  apply (uses_bind _ _ 1 0 0 5); [apply uses_gen_id_from | intros out_id].
  apply uses_then_lift; intros images1 _.
  apply uses_then_lift; intros images Himages.
  apply first_five_length in Himages.
  apply (uses_bind _ _ 0 5 0 0).
  - eapply uses_le; [apply uses_thumbs_loop | lia | exact Himages].
  - intros [thumbs_remote thumbs_local]. uses_pure.
Qed.

Lemma uses_fetch_from_api filename url :
  uses (fetch_from_api w up filename url) 1 11.
Proof.
  unfold fetch_from_api.
  destruct (PyStr.search_digits_after "/models/" url) as [mid|];
    [|apply uses_raise].
  apply (uses_bind _ _ 0 3 1 8).
  - destruct (PyStr.search_digits_after "modelVersionId=" url);
      [apply uses_ret|].
    apply (uses_bind _ _ 0 3 0 0); [apply uses_find_version | intros found].
    uses_pure.
  - intros version_id.
    apply (uses_bind _ _ 0 3 1 5); [apply uses_fetch_version | intros v].
    destruct (negb (Py.truthy v)); [apply uses_raise|].
    apply uses_build_record.
Qed.

(** The thumbnail loop draws no identifier, whatever its result. *)
Lemma thumbs_loop_ids out_id j images remote0 local0 st r st' :
  thumbs_loop w up out_id j images remote0 local0 st = (r, st') ->
  id_counter st' = id_counter st.
Proof.
  intros H. apply uses_thumbs_loop in H. lia.
Qed.

(** X8: resolving one entry sends at most eleven requests - three to the
    model endpoint, three to the version endpoint, five for thumbnails - and
    draws at most one identifier, whether it succeeds or raises. *)
Theorem resolution_is_bounded filename url st r st' :
  fetch_from_api w up filename url st = (r, st') ->
  (requests_made st <= requests_made st' <= requests_made st + 11)%nat /\
  (id_counter st <= id_counter st' <= id_counter st + 1)%nat.
Proof.
  intros H. apply uses_fetch_from_api in H. lia.
Qed.

(** A successful resolution draws exactly one identifier. *)
Lemma fetch_from_api_ids filename url st rec st' :
  fetch_from_api w up filename url st = (Ok rec, st') ->
  id_counter st' = S (id_counter st).
Proof.
  intros H. unfold fetch_from_api in H.
  destruct (PyStr.search_digits_after "/models/" url) as [mid|];
    [|discriminate H].
  eff_step H version_id st1 E1. eff_step H v st2 E2.
  destruct (negb (Py.truthy v)); [discriminate H|].
  assert (H1 : id_counter st1 = id_counter st).
  { destruct (PyStr.search_digits_after "modelVersionId=" url).
    - apply ret_ok in E1. destruct E1 as [_ ->]. reflexivity.
    - eff_step E1 found st0 E0. apply uses_find_version in E0.
      assert (st1 = st0).
      { destruct found as [[|c id]|]; inversion E1; reflexivity. }
      subst st0. lia. }
  assert (H2 : id_counter st2 = id_counter st1).
  { apply uses_fetch_version in E2. lia. }
  apply build_record_inv in H.
  destruct H as (model_info & files & file_info & name_m & name_v & model_type
    & base_model & base_model_type & words & trained_words & size_kb & size
    & hashes & download_url & description & created & created_at & id_m
    & images0 & images & thumbs_remote & thumbs_local & type_lower & out_id
    & st3 & H).
  destruct H as (_ & _ & _ & _ & _ & _ & _ & _ & _ & _ & _ & _
    & _ & _ & _ & _ & _ & _ & _ & _ & Hid & Hloop & _ & _).
  apply thumbs_loop_ids in Hloop. inversion Hid; subst. simpl in Hloop. lia.
Qed.

End Cost.

(** ** The thumbnails of a record: how many, and where *)

Section Files.

Variable w : world.
Variable up : string -> result string.

Lemma adds_files_download_thumbnail v out_id timeout :
  adds_files (download_thumbnail w up v out_id timeout).
Proof.
  unfold download_thumbnail, write_stream, failed_write. adds_files_tac.
Qed.

Lemma adds_files_attempt_assets out_id images : forall j,
  adds_files (attempt_assets w up out_id j images).
Proof.
  induction images as [|img rest IH]; intros j; simpl; [apply adds_files_ret|].
  apply adds_files_bind; [apply adds_files_lift | intros thumb_url].
  destruct (negb (Py.truthy thumb_url)); [apply IH|].
  apply adds_files_bind.
  - apply adds_files_try.
    + apply adds_files_bind; [apply adds_files_download_thumbnail|].
      intros p. apply adds_files_ret.
    + intros e. adds_files_tac.
  - intros got. apply adds_files_bind; [apply IH | intros more].
    apply adds_files_ret.
Qed.

(** A download that reports a local path has written that file, named
    after the identifier it was given. *)
Lemma download_saved v out_id timeout st remote local st' :
  download_thumbnail w up v out_id timeout st = (Ok (remote, local), st') ->
  local <> EmptyString ->
  exists ext data,
    local = OsPath.join THUMB_DIR (out_id ++ ext) /\
    In (local, Bytes data) (disk st').
Proof.
  unfold download_thumbnail. intros H Hlocal.
  destruct (Py.truthy v); simpl in H.
  2: { inversion H; subst. contradiction Hlocal; reflexivity. }
  unfold bind, ensure_dir, lift, try_except, requests_get, write_stream,
    failed_write, bind, put_file, say, emit, ret, raise in H.
  destruct (mkdir_fails w THUMB_DIR); [discriminate H|].
  destruct v as [| | |url| |]; try discriminate H.
  destruct (up url) as [path|e]; [|discriminate H].
  simpl in H.
  destruct (net w (requests_made st) url) as [r|e].
  2: { inversion H; subst. contradiction Hlocal; reflexivity. }
  destruct (status_code r =? 200)%Z; simpl in H.
  2: { inversion H; subst. contradiction Hlocal; reflexivity. }
  destruct (open_fails w _).
  { destruct (write_breaks w _); inversion H; subst;
      contradiction Hlocal; reflexivity. }
  destruct (body_breaks r).
  { inversion H; subst. contradiction Hlocal; reflexivity. }
  inversion H; subst; clear H. do 2 eexists. split; [reflexivity|].
  simpl. left. reflexivity.
Qed.

(** The assets of a record: no more than the images walked, each saved one
    a file on disk named after the record's identifier and the position of
    its image. *)
Lemma attempt_assets_named out_id images : forall j st assets st',
  attempt_assets w up out_id j images st = (Ok assets, st') ->
  (List.length assets <= List.length images)%nat /\
  Forall (fun a =>
            snd a <> EmptyString ->
            exists i ext data,
              (j <= i < j + List.length images)%nat /\
              snd a = OsPath.join THUMB_DIR
                        ((out_id ++ "_T" ++ PyStr.of_nat i) ++ ext) /\
              In (snd a, Bytes data) (disk st')) assets.
Proof.
  induction images as [|img rest IH]; intros j st assets st' H.
  - apply ret_ok in H. destruct H as [-> _]. split; [simpl; lia | constructor].
  - rewrite attempt_assets_cons in H.
    destruct (Dyn.get img "url" JNull) as [thumb_url|e]; [|discriminate H].
    assert (Hshift : forall st0 assets0,
      attempt_assets w up out_id (S j) rest st0 = (Ok assets0, st') ->
      (List.length assets0 <= List.length rest)%nat /\
      Forall (fun a =>
            snd a <> EmptyString ->
            exists i ext data,
              (j <= i < j + List.length (img :: rest))%nat /\
              snd a = OsPath.join THUMB_DIR
                        ((out_id ++ "_T" ++ PyStr.of_nat i) ++ ext) /\
              In (snd a, Bytes data) (disk st')) assets0).
    { intros st0 assets0 H0. apply IH in H0. destruct H0 as [Hlen Hall].
      split; [exact Hlen|]. eapply Forall_impl; [|exact Hall].
      intros a Ha Hne. destruct (Ha Hne) as (i & ext & data & Hi & Hp & Hin).
      exists i, ext, data. simpl. repeat split; try assumption; lia. }
    destruct (Py.truthy thumb_url).
    2: { apply Hshift in H. destruct H as [Hlen Hall].
         split; [simpl; lia | exact Hall]. }
    destruct (download_thumbnail w up thumb_url _ THUMB_TIMEOUT st)
      as [[[remote local]|e] st1] eqn:Hd.
    2: { apply Hshift in H. destruct H as [Hlen Hall].
         split; [simpl; lia | exact Hall]. }
    destruct (attempt_assets w up out_id (S j) rest st1)
      as [[more|e] st2] eqn:Hm; [|discriminate H].
    inversion H; subst; clear H.
    pose proof (adds_files_attempt_assets _ _ _ _ _ _ Hm) as [added Hadd].
    apply Hshift in Hm. destruct Hm as [Hlen Hall].
    split; [simpl; lia|]. constructor; [|exact Hall].
    simpl. intros Hne.
    destruct (download_saved _ _ _ _ _ _ _ Hd Hne) as (ext & data & Hp & Hin).
    exists j, ext, data. repeat split; try lia; [exact Hp|].
    rewrite Hadd. apply in_or_app. right. exact Hin.
Qed.

Lemma lower_char_fixed c :
  PyStr.lower_char (PyStr.lower_char c) = PyStr.lower_char c.
Proof.
  unfold PyStr.lower_char.
  destruct (Nat.leb 65 (nat_of_ascii c) && Nat.leb (nat_of_ascii c) 90) eqn:E.
  - apply andb_true_iff in E. destruct E as [E1 E2].
    apply Nat.leb_le in E1. apply Nat.leb_le in E2.
    rewrite nat_ascii_embedding by lia.
    replace (Nat.leb (nat_of_ascii c + 32) 90) with false.
    + rewrite andb_false_r. reflexivity.
    + symmetry. apply Nat.leb_gt. lia.
  - rewrite E. reflexivity.
Qed.

Lemma lower_fixed s : PyStr.lower (PyStr.lower s) = PyStr.lower s.
Proof.
  induction s as [|c s IH]; simpl; [reflexivity|].
  rewrite lower_char_fixed, IH. reflexivity.
Qed.

(** What a successful resolution leaves in the record and on disk, read
    from the steps of [build_record]. *)
Lemma resolved_thumbnails filename url st rec st' :
  fetch_from_api w up filename url st = (Ok rec, st') ->
  exists assets type_lower,
    Dyn.item rec "thumbnails_all" = Ok (strs (map fst assets)) /\
    Dyn.item rec "thumbnails_local"
      = Ok (strs (filter PyStr.nonempty (map snd assets))) /\
    Dyn.item rec "type" = Ok (JStr type_lower) /\
    PyStr.lower type_lower = type_lower /\
    (List.length assets <= 5)%nat /\
    Forall (fun a =>
            snd a <> EmptyString ->
            exists i ext data,
              (1 <= i <= 5)%nat /\
              snd a = OsPath.join THUMB_DIR
                        ((("A" ++ PyStr.pad4 (S (id_counter st))) ++ "_T"
                            ++ PyStr.of_nat i) ++ ext) /\
              In (snd a, Bytes data) (disk st')) assets.
Proof.
  intros H. unfold fetch_from_api in H.
  destruct (PyStr.search_digits_after "/models/" url) as [mid|];
    [|discriminate H].
  eff_step H version_id st1 E1. eff_step H v st2 E2.
  destruct (negb (Py.truthy v)); [discriminate H|].
  assert (H1 : id_counter st1 = id_counter st).
  { destruct (PyStr.search_digits_after "modelVersionId=" url).
    - apply ret_ok in E1. destruct E1 as [_ ->]. reflexivity.
    - eff_step E1 found st0 E0. apply uses_find_version in E0.
      assert (st1 = st0).
      { destruct found as [[|c id]|]; inversion E1; reflexivity. }
      subst st0. lia. }
  assert (H2 : id_counter st2 = id_counter st1).
  { apply uses_fetch_version in E2. lia. }
  apply build_record_inv in H.
  destruct H as (model_info & files & file_info & name_m & name_v & model_type
    & base_model & base_model_type & words & trained_words & size_kb & size
    & hashes & download_url & description & created & created_at & id_m
    & images0 & images & thumbs_remote & thumbs_local & type_lower & out_id
    & st3 & H).
  destruct H as (_ & _ & _ & _ & _ & _ & _ & _ & _ & _ & _ & _
    & _ & _ & _ & _ & _ & _ & _ & Hfive & Hid & Hloop & Hlower & ->).
  rewrite thumbs_loop_assets in Hloop.
  destruct (attempt_assets w up out_id 1 images st3) as [[assets|e] st4] eqn:Ha;
    [|discriminate Hloop].
  injection Hloop as <- <- ->.
  pose proof (attempt_assets_remote _ _ _ _ _ _ _ _ Ha) as Hrem.
  assert (Hf : filter PyStr.nonempty (map fst assets) = map fst assets).
  { apply filter_all_true. apply Forall_map. exact Hrem. }
  apply attempt_assets_named in Ha. destruct Ha as [Hlen Hall].
  apply first_five_length in Hfive.
  exists assets, type_lower. simpl app. rewrite Hf.
  split; [reflexivity|]. split; [reflexivity|]. split; [reflexivity|].
  split.
  { destruct model_type; try discriminate Hlower.
    injection Hlower as <-. apply lower_fixed. }
  split; [lia|].
  inversion Hid; subst. rewrite H2, H1 in Hall.
  eapply Forall_impl; [|exact Hall].
  intros a Hex Hne. destruct (Hex Hne) as (i & ext & data & Hi & Hp & Hin).
  exists i, ext, data. repeat split; try assumption; lia.
Qed.

End Files.

Section ResolvedRecord.

Variable w : world.
Variable up : string -> result string.

(** X9: a resolved record lists at most five remote thumbnail URLs, and no
    more local paths than remote URLs. *)
Theorem thumbnails_are_capped filename url st rec st' :
  fetch_from_api w up filename url st = (Ok rec, st') ->
  exists remote local,
    Dyn.item rec "thumbnails_all" = Ok (strs remote) /\
    Dyn.item rec "thumbnails_local" = Ok (strs local) /\
    (List.length local <= List.length remote <= 5)%nat.
Proof.
  intros H. apply resolved_thumbnails in H.
  destruct H as (assets & t & Hall & Hloc & _ & _ & Hlen & _).
  exists (map fst assets), (filter PyStr.nonempty (map snd assets)).
  split; [exact Hall|]. split; [exact Hloc|].
  rewrite length_map. split; [|exact Hlen].
  etransitivity; [apply filter_length_le|]. rewrite length_map. lia.
Qed.

(** X10: a successful resolution draws exactly one identifier, and every
    local thumbnail path of its record is a file on disk named
    [THUMB_DIR\<that identifier>_T<i><ext>] with [i] between 1 and 5. *)
Theorem thumbnail_files_carry_drawn_id filename url st rec st' :
  fetch_from_api w up filename url st = (Ok rec, st') ->
  id_counter st' = S (id_counter st) /\
  exists local,
    Dyn.item rec "thumbnails_local" = Ok (strs local) /\
    Forall (fun p =>
              exists i ext data,
                (1 <= i <= 5)%nat /\
                p = OsPath.join THUMB_DIR
                      ((("A" ++ PyStr.pad4 (S (id_counter st))) ++ "_T"
                          ++ PyStr.of_nat i) ++ ext) /\
                In (p, Bytes data) (disk st')) local.
Proof.
  intros H. split; [eapply fetch_from_api_ids; exact H|].
  apply resolved_thumbnails in H.
  destruct H as (assets & t & _ & Hloc & _ & _ & _ & Hall).
  exists (filter PyStr.nonempty (map snd assets)). split; [exact Hloc|].
  apply Forall_forall. intros p Hp. apply filter_In in Hp.
  destruct Hp as [Hin Hne]. apply in_map_iff in Hin.
  destruct Hin as (a & <- & Ha).
  rewrite Forall_forall in Hall. apply (Hall a Ha).
  intros E. rewrite E in Hne. discriminate Hne.
Qed.

(** X11: the [type] of a resolved record is in lower case: lower-casing it
    again changes nothing. *)
Theorem record_type_is_lower_case filename url st rec st' :
  fetch_from_api w up filename url st = (Ok rec, st') ->
  exists t, Dyn.item rec "type" = Ok (JStr t) /\ PyStr.lower t = t.
Proof.
  intros H. apply resolved_thumbnails in H.
  destruct H as (assets & t & _ & _ & Ht & Hl & _).
  exists t. split; assumption.
Qed.

Lemma fetch_version_gives_up n api : forall st,
  forallb no_record (outcomes w api (requests_made st) n) = true ->
  exists st',
    fetch_version w n api st = (Ok (JDict []), st') /\
    requests_made st' = (requests_made st + n)%nat /\
    id_counter st' = id_counter st /\ disk st' = disk st /\
    count_pause OneSecond (log st')
    = (count_pause OneSecond (log st) + n)%nat.
Proof.
  induction n as [|n IH]; intros st Hall.
  - exists st. simpl. repeat split; lia.
  - simpl in Hall. apply andb_true_iff in Hall. destruct Hall as [Hf Hrest].
    assert (Hgo : forall st1,
      requests_made st1 = S (requests_made st) ->
      id_counter st1 = id_counter st -> disk st1 = disk st ->
      count_pause OneSecond (log st1)
      = (count_pause OneSecond (log st) + 1)%nat ->
      exists st',
        fetch_version w n api st1 = (Ok (JDict []), st') /\
        requests_made st' = (requests_made st + S n)%nat /\
        id_counter st' = id_counter st /\ disk st' = disk st /\
        count_pause OneSecond (log st')
        = (count_pause OneSecond (log st) + S n)%nat).
    { intros st1 E1 E2 E3 E4. destruct (IH st1) as (st' & Hr & H1 & H2 & H3 & H4).
      - rewrite E1. exact Hrest.
      - exists st'. split; [exact Hr|]. repeat split; try congruence; lia. }
    simpl fetch_version.
    unfold bind at 1. unfold try_except. unfold bind at 1.
    unfold requests_get.
    destruct (net w (requests_made st) api) as [r|e].
    + simpl in Hf. destruct (status_code r =? 200)%Z; simpl in Hf |- *.
      * destruct (json_body r); [discriminate Hf|].
        unfold bind, lift, say, sleep, emit, ret. simpl.
        apply Hgo; simpl; rewrite ?count_pause_snoc; simpl; try lia;
          reflexivity.
      * unfold bind, lift, say, sleep, emit, ret. simpl.
        apply Hgo; simpl; rewrite ?count_pause_snoc; simpl; try lia;
          reflexivity.
    + unfold bind, lift, say, sleep, emit, ret. simpl.
      apply Hgo; simpl; rewrite ?count_pause_snoc; simpl; try lia;
        reflexivity.
Qed.

(** X12: when the URL names a version and each of the three answers of the
    version endpoint is an exception, a status other than 200 or not JSON,
    the resolution raises "Failed to fetch version <id>" after exactly
    three requests and three one-second pauses, without drawing an
    identifier or writing a file. *)
Theorem version_fetch_gives_up filename url mid vid st :
  PyStr.search_digits_after "/models/" url = Some mid ->
  PyStr.search_digits_after "modelVersionId=" url = Some vid ->
  forallb no_record
    (outcomes w ("https://civitai.com/api/v1/model-versions/" ++ vid)
              (requests_made st) 3) = true ->
  exists st',
    fetch_from_api w up filename url st
    = (Raise (RuntimeError ("Failed to fetch version " ++ vid)), st') /\
    requests_made st' = (requests_made st + 3)%nat /\
    id_counter st' = id_counter st /\ disk st' = disk st /\
    count_pause OneSecond (log st')
    = (count_pause OneSecond (log st) + 3)%nat.
Proof.
  intros Hmid Hvid Hall. unfold fetch_from_api. rewrite Hmid, Hvid.
  destruct (fetch_version_gives_up 3 _ st Hall) as (st' & Hr & H1 & H2 & H3 & H4).
  exists st'. split; [|repeat split; assumption].
  unfold bind at 1. unfold ret at 1. unfold bind at 1. rewrite Hr.
  reflexivity.
Qed.

End ResolvedRecord.

(** A resolved record with two thumbnails. *)
Lemma thumbnails_are_capped_witness :
  exists rec st',
    fetch_from_api
      (scripted [Responds (json_response version_with_two_images);
                 Responds (media_response "image/png");
                 Responds (media_response "image/jpeg")] LinksMissing)
      Urllib.path_of "foo" versioned_url initial_state = (Ok rec, st') /\
    exists remote local,
      Dyn.item rec "thumbnails_all" = Ok (strs remote) /\
      Dyn.item rec "thumbnails_local" = Ok (strs local) /\
      (List.length local <= List.length remote <= 5)%nat.
Proof.
  eexists. eexists. split; [vm_compute; reflexivity|].
  eapply (thumbnails_are_capped
            (scripted [Responds (json_response version_with_two_images);
                       Responds (media_response "image/png");
                       Responds (media_response "image/jpeg")] LinksMissing)
            Urllib.path_of "foo" versioned_url initial_state).
  vm_compute. reflexivity.
Defined.

Lemma thumbnail_files_carry_drawn_id_witness :
  exists rec st',
    fetch_from_api
      (scripted [Responds (json_response version_with_two_images);
                 Responds (media_response "image/png");
                 Responds (media_response "image/jpeg")] LinksMissing)
      Urllib.path_of "foo" versioned_url initial_state = (Ok rec, st') /\
    id_counter st' = 1.
Proof.
  eexists. eexists. split; [vm_compute; reflexivity|].
  edestruct (thumbnail_files_carry_drawn_id
            (scripted [Responds (json_response version_with_two_images);
                       Responds (media_response "image/png");
                       Responds (media_response "image/jpeg")] LinksMissing)
            Urllib.path_of "foo" versioned_url initial_state)
    as [Hid _].
  - vm_compute. reflexivity.
  - exact Hid.
Defined.

(** The record of a model of type LORA: its type is "lora". *)
Lemma record_type_is_lower_case_witness :
  exists rec st',
    fetch_from_api serves_lora_version Urllib.path_of "foo" versioned_url
                   initial_state = (Ok rec, st') /\
    Dyn.item rec "type" = Ok (JStr "lora") /\
    exists t, Dyn.item rec "type" = Ok (JStr t) /\ PyStr.lower t = t.
Proof.
  eexists. eexists. split; [vm_compute; reflexivity|].
  split; [vm_compute; reflexivity|].
  eapply (record_type_is_lower_case serves_lora_version Urllib.path_of
            "foo" versioned_url initial_state).
  vm_compute. reflexivity.
Defined.

(** A version endpoint that answers 500, times out, and answers HTML. *)
Lemma version_fetch_gives_up_witness :
  exists st',
    fetch_from_api
      (scripted [Responds (status_response 500); Fails Timeout;
                 Responds (media_response "text/html")] LinksMissing)
      Urllib.path_of "foo" versioned_url initial_state
    = (Raise (RuntimeError "Failed to fetch version 7"), st') /\
    requests_made st' = 3.
Proof.
  edestruct (version_fetch_gives_up
           (scripted [Responds (status_response 500); Fails Timeout;
                      Responds (media_response "text/html")] LinksMissing)
           Urllib.path_of "foo" versioned_url "12" "7" initial_state)
    as (st' & Hr & Hreq & _).
  - vm_compute. reflexivity.
  - vm_compute. reflexivity.
  - vm_compute. reflexivity.
  - exists st'. split; [exact Hr | exact Hreq].
Defined.

(** ** Identifiers *)

Lemma digits_value_zero s :
  digits_value (String "0" s) = digits_value s.
Proof.
  unfold digits_value. simpl.
  destruct (NilEmpty.uint_of_string s); reflexivity.
Qed.

Lemma digits_value_uint d :
  digits_value (NilZero.string_of_uint d) = Some (Z.of_uint d).
Proof.
  assert (H : d = Decimal.Nil
              \/ NilZero.string_of_uint d = NilEmpty.string_of_uint d).
  { destruct d; auto. }
  destruct H as [-> | H]; [reflexivity|].
  unfold digits_value. rewrite H, NilEmpty.usu. reflexivity.
Qed.

Lemma digits_value_of_Z z :
  (0 <= z)%Z -> digits_value (PyStr.of_Z z) = Some z.
Proof.
  intros Hz. unfold PyStr.of_Z.
  pose proof (DecimalZ.of_to z) as Hof.
  destruct (Z.to_int z) as [d|d] eqn:E.
  - simpl NilZero.string_of_int. rewrite digits_value_uint.
    f_equal. exact Hof.
  - destruct z; try discriminate E. lia.
Qed.

Lemma digits_value_pad4 n : digits_value (PyStr.pad4 n) = Some (Z.of_nat n).
Proof.
  unfold PyStr.pad4, PyStr.of_nat.
  generalize (4 - String.length (PyStr.of_Z (Z.of_nat n)))%nat as k.
  induction k as [|k IH]; simpl.
  - apply digits_value_of_Z. lia.
  - rewrite digits_value_zero. exact IH.
Qed.

Lemma id_of_inj n m : id_of n = id_of m -> n = m.
Proof.
  unfold id_of. intros H. simpl in H. injection H as H.
  apply (f_equal digits_value) in H. rewrite !digits_value_pad4 in H.
  injection H as H. lia.
Qed.

(** X13: an identifier is never handed out twice: whatever is drawn after
    an identifier, from a counter that has not gone back, differs from it. *)
Theorem identifiers_never_repeat f1 u1 f2 u2 st1 st2 id1 id2 s1 s2 :
  gen_id_from f1 u1 st1 = (Ok id1, s1) ->
  (id_counter s1 <= id_counter st2)%nat ->
  gen_id_from f2 u2 st2 = (Ok id2, s2) ->
  id1 <> id2.
Proof.
  intros H1 Hle H2. inversion H1; subst. inversion H2; subst.
  simpl in Hle. intros E. apply (id_of_inj (S (id_counter st1))
                                            (S (id_counter st2))) in E. lia.
Qed.

Lemma identifiers_never_repeat_witness :
  "A0001" <> "A0002".
Proof.
  apply (identifiers_never_repeat "foo" "u" "bar" "v" initial_state
           (snd (gen_id_from "foo" "u" initial_state)) "A0001" "A0002"
           (snd (gen_id_from "foo" "u" initial_state))
           (snd (gen_id_from "bar" "v"
                   (snd (gen_id_from "foo" "u" initial_state))))).
  - reflexivity.
  - simpl. lia.
  - reflexivity.
Defined.

(** ** The registry after the loop *)

Lemma store_fresh key v out :
  ~ In key (map fst out) -> Py.store key v out = (out ++ [(key, v)])%list.
Proof.
  induction out as [|[k x] out IH]; simpl; intros Hn; [reflexivity|].
  destruct (String.eqb_spec key k) as [->|Hne].
  - exfalso. apply Hn. left. reflexivity.
  - rewrite IH; [reflexivity|]. intros Hin. apply Hn. right. exact Hin.
Qed.

Section Registry.

Variable w : world.
Variable up : string -> result string.

Lemma process_links_registry entries : forall total i out s f st out' s' f' st',
  registry_ok out s st ->
  process_links w up total i entries out s f st = (Ok (out', s', f'), st') ->
  registry_ok out' s' st'.
Proof.
  induction entries as [|[filename url] rest IH];
    intros total i out s f st out' s' f' st' Hok H.
  - simpl in H. inversion H; subst. exact Hok.
  - destruct Hok as (Hlen & Hnd & Hkeys).
    destruct (fetch_from_api w up filename url (announced total i filename st))
      as [[meta|e] st1] eqn:Hf;
      pose proof (uses_fetch_from_api w up filename url _ _ _ Hf) as [Hids _];
      unfold announced in Hids; simpl in Hids.
    + rewrite (process_links_success _ _ _ _ _ _ _ _ _ _ _ _ _ Hf) in H.
      apply IH in H; [exact H|].
      assert (Hfresh : ~ In (registry_key st1) (map fst out)).
      { intros Hin. apply in_map_iff in Hin. destruct Hin as (kv & Hk & Hin).
        rewrite Forall_forall in Hkeys. destruct (Hkeys kv Hin) as (k & Hle & Ek).
        rewrite Ek in Hk. apply id_of_inj in Hk. lia. }
      rewrite (store_fresh _ _ _ Hfresh).
      split; [rewrite length_app; simpl; lia|]. split.
      * rewrite map_app. simpl. apply NoDup_app; [exact Hnd| |].
        -- constructor; [intros []|constructor].
        -- intros x Hx [<-|[]]. exact (Hfresh Hx).
      * apply Forall_app. split.
        -- eapply Forall_impl; [|exact Hkeys]. intros kv (k & Hle & Ek).
           exists k. split; [simpl; lia | exact Ek].
        -- constructor; [|constructor]. exists (S (id_counter st1)).
           split; [simpl; lia | reflexivity].
    + rewrite (process_links_failure _ _ _ _ _ _ _ _ _ _ _ _ _ Hf) in H.
      apply IH in H; [exact H|].
      split; [exact Hlen|]. split; [exact Hnd|].
      eapply Forall_impl; [|exact Hkeys]. intros kv (k & Hle & Ek).
      exists k. split; [simpl; lia | exact Ek].
Qed.

(** The loop, entry by entry: it stores the record of every entry that
    resolved, under the key drawn for it, after those already there, and
    counts every entry once, as a success or as a failure. *)
Lemma process_links_outcomes entries : forall total i out s f st,
  Forall (fun kv => exists k, (k <= id_counter st)%nat /\ fst kv = id_of k)
         out ->
  exists st',
    process_links w up total i entries out s f st
    = (Ok ((out ++ resolved_records
                     (batch_outcomes w up total i entries st))%list,
           (s + List.length (resolved_records
                               (batch_outcomes w up total i entries st)))%nat,
           (f + failures (batch_outcomes w up total i entries st))%nat), st').
Proof.
  induction entries as [|[filename url] rest IH];
    intros total i out s f st Hkeys.
  - exists st. simpl. rewrite app_nil_r, !Nat.add_0_r. reflexivity.
  - simpl batch_outcomes.
    destruct (fetch_from_api w up filename url (announced total i filename st))
      as [[meta|e] st1] eqn:Hf;
      pose proof (uses_fetch_from_api w up filename url _ _ _ Hf) as [Hids _];
      unfold announced in Hids; simpl in Hids.
    + rewrite (process_links_success _ _ _ _ _ _ _ _ _ _ _ _ _ Hf).
      assert (Hfresh : ~ In (registry_key st1) (map fst out)).
      { intros Hin. apply in_map_iff in Hin. destruct Hin as (kv & Hk & Hin).
        rewrite Forall_forall in Hkeys. destruct (Hkeys kv Hin) as (k & Hle & Ek).
        rewrite Ek in Hk. apply id_of_inj in Hk. lia. }
      rewrite (store_fresh _ _ _ Hfresh).
      destruct (IH total (S i) (out ++ [(registry_key st1, meta)])%list (S s) f
                  (after_success meta st1)) as (st' & Hr).
      { apply Forall_app. split.
        - eapply Forall_impl; [|exact Hkeys]. intros kv (k & Hle & Ek).
          exists k. split; [simpl; lia | exact Ek].
        - constructor; [|constructor]. exists (S (id_counter st1)).
          split; [simpl; lia | reflexivity]. }
      exists st'. rewrite Hr. unfold resolved_records, failures. simpl.
      rewrite <- app_assoc. simpl. rewrite Nat.add_succ_r. reflexivity.
    + rewrite (process_links_failure _ _ _ _ _ _ _ _ _ _ _ _ _ Hf).
      destruct (IH total (S i) out s (S f) (after_failure e st1))
        as (st' & Hr).
      { eapply Forall_impl; [|exact Hkeys]. intros kv (k & Hle & Ek).
        exists k. split; [simpl; lia | exact Ek]. }
      exists st'. rewrite Hr. unfold resolved_records, failures. simpl.
      rewrite Nat.add_succ_r. reflexivity.
Qed.

(** Every entry is a success or a failure. *)
Lemma outcomes_counted total i entries : forall st,
  (List.length (resolved_records (batch_outcomes w up total i entries st))
   + failures (batch_outcomes w up total i entries st)
   = List.length entries)%nat.
Proof.
  revert i. induction entries as [|[filename url] rest IH]; intros i st;
    [reflexivity|].
  simpl batch_outcomes.
  destruct (fetch_from_api w up filename url (announced total i filename st))
    as [[meta|e] st1].
  - specialize (IH (S i) (after_success meta st1)).
    unfold resolved_records, failures in *. simpl. lia.
  - specialize (IH (S i) (after_failure e st1)).
    unfold resolved_records, failures in *. simpl. lia.
Qed.

(** The run of a batch, read entry by entry. *)
Lemma run_batch_outcomes links_list st :
  exists st1 st',
    process_links w up (List.length links_list) 1 links_list [] 0 0
                  (snd (say (MsgStart (List.length links_list)) st))
    = (Ok (resolved_records (run_outcomes w up links_list st),
           List.length (resolved_records (run_outcomes w up links_list st)),
           failures (run_outcomes w up links_list st)), st1) /\
    run_batch w up links_list st = (Ok JNull, st') /\
    reported_counts (log st')
    = Some (List.length (resolved_records (run_outcomes w up links_list st)),
            failures (run_outcomes w up links_list st),
            List.length (resolved_records (run_outcomes w up links_list st))) /\
    (open_fails w OUTPUT_JSON = false -> mkdir_fails w OUTPUT_DIR = false ->
     saved_registry st'
     = Some (JDict (resolved_records (run_outcomes w up links_list st)))).
Proof.
  destruct (process_links_outcomes links_list (List.length links_list) 1 [] 0 0
              (snd (say (MsgStart (List.length links_list)) st)))
    as (st1 & Hloop); [constructor|].
  simpl in Hloop. fold (run_outcomes w up links_list st) in Hloop.
  destruct (run_batch_after_loop w up _ _ _ _ _ _ Hloop)
    as (st' & Hr & Hrep & Hsaved).
  exists st1, st'. repeat split; assumption.
Qed.

(** C7 (amended): [main] returns [None] whenever it returns, so the summary
    counts are no part of what it returns; they are only printed, as the
    last lines of the console: first the number of entries whose resolution
    returned a record, then the number of entries whose resolution raised,
    then the number of records in the output, which is the first number
    again - and is the number of records of the registry file when that is
    written; the first two add up to the number of entries. *)
Theorem summary_is_console_only :
  (forall st r st', main w up st = (Ok r, st') -> r = JNull) /\
  (forall links_list st,
     exists st',
       run_batch w up links_list st = (Ok JNull, st') /\
       reported_counts (log st')
       = Some (List.length (resolved_records (run_outcomes w up links_list st)),
               failures (run_outcomes w up links_list st),
               List.length
                 (resolved_records (run_outcomes w up links_list st))) /\
       (List.length (resolved_records (run_outcomes w up links_list st))
        + failures (run_outcomes w up links_list st)
        = List.length links_list)%nat /\
       (open_fails w OUTPUT_JSON = false -> mkdir_fails w OUTPUT_DIR = false ->
        exists out,
          saved_registry st' = Some (JDict out) /\
          List.length out
          = List.length
              (resolved_records (run_outcomes w up links_list st)))).
Proof.
  split.
  - intros st r st'. unfold main.
    unfold bind at 1. unfold ensure_dir.
    destruct (mkdir_fails w THUMB_DIR); [discriminate|].
    unfold emit at 1. unfold bind at 1. unfold try_except, bind at 1.
    destruct (load_links w up LINKS _) as [[l|e] st1].
    + unfold ret at 1. destruct l as [|entry l].
      * unfold bind, say, emit, ret. intros H. now inversion H.
      * destruct (run_batch_total w up (entry :: l) st1)
          as (out & s & f & st2 & Hr & _).
        rewrite Hr. intros H. now inversion H.
    + unfold bind, say, emit, ret. intros H. now inversion H.
  - intros links_list st.
    destruct (run_batch_outcomes links_list st)
      as (st1 & st' & _ & Hr & Hrep & Hsaved).
    exists st'. split; [exact Hr|]. split; [exact Hrep|].
    split; [apply outcomes_counted|].
    intros Ho Hm. eexists. split; [exact (Hsaved Ho Hm) | reflexivity].
Qed.

(** X14: every batch run completes, and the registry it writes holds
    exactly the records of the entries whose resolution returned one, in
    the order of the entries, each under a key of its own: the keys are
    pairwise distinct, and nothing is stored for an entry that failed. *)
Theorem registry_has_one_record_per_success links_list st :
  exists st',
    run_batch w up links_list st = (Ok JNull, st') /\
    NoDup (map fst (resolved_records (run_outcomes w up links_list st))) /\
    (open_fails w OUTPUT_JSON = false -> mkdir_fails w OUTPUT_DIR = false ->
     saved_registry st'
     = Some (JDict (resolved_records (run_outcomes w up links_list st)))).
Proof.
  destruct (run_batch_outcomes links_list st)
    as (st1 & st' & Hloop & Hr & _ & Hsaved).
  exists st'. split; [exact Hr|]. split; [|exact Hsaved].
  assert (Hok : registry_ok
                  (resolved_records (run_outcomes w up links_list st))
                  (List.length
                     (resolved_records (run_outcomes w up links_list st)))
                  st1).
  { eapply process_links_registry; [|exact Hloop].
    split; [reflexivity|]. split; [constructor | constructor]. }
  apply Hok.
Qed.

(** X15: saving the registry never raises and touches no other file: either
    the directory is there and the file is written, and then the registry
    file holds the registry, in front of the files already there, and the
    console says so; or the save error is printed, and the disk is as it
    was or holds a truncated registry file, in front of the files already
    there. *)
Theorem saving_only_adds_the_registry out st :
  exists st',
    save_registry w out st = (Ok tt, st') /\
    ((mkdir_fails w OUTPUT_DIR = false /\ open_fails w OUTPUT_JSON = false /\
      disk st' = (OUTPUT_JSON, JsonText (JDict out)) :: disk st /\
      last (log st') (EvConsole MsgSummary)
      = EvConsole (MsgSaved OUTPUT_JSON))
     \/
     (exists e,
        (mkdir_fails w OUTPUT_DIR = true \/ open_fails w OUTPUT_JSON = true) /\
        last (log st') (EvConsole MsgSummary) = EvConsole (MsgSaveFailed e) /\
        (disk st' = disk st \/
         disk st' = (OUTPUT_JSON, Truncated) :: disk st))).
Proof.
  unfold save_registry, try_except, bind, ensure_dir, failed_write, bind,
    put_file, say, emit, raise.
  destruct (mkdir_fails w OUTPUT_DIR).
  - eexists. split; [reflexivity|]. right. eexists.
    split; [left; reflexivity|]. split; [simpl; apply last_last|].
    left. reflexivity.
  - destruct (open_fails w OUTPUT_JSON).
    + destruct (write_breaks w OUTPUT_JSON) as [e|].
      * eexists. split; [reflexivity|]. right. eexists.
        split; [right; reflexivity|]. split; [simpl; apply last_last|].
        right. reflexivity.
      * eexists. split; [reflexivity|]. right. eexists.
        split; [right; reflexivity|]. split; [simpl; apply last_last|].
        left. reflexivity.
    + eexists. split; [reflexivity|]. left.
      split; [reflexivity|]. split; [reflexivity|]. split; [reflexivity|].
      simpl. apply last_last.
Qed.

(** X16: the only exception that leaves [main] is the failure to create
    the thumbnail directory at its very start, raised before anything else
    happens; in every other world [main] returns [None]. *)
Theorem main_raises_only_for_thumb_dir st :
  (mkdir_fails w THUMB_DIR = true ->
   main w up st = (Raise (OSError THUMB_DIR), st)) /\
  (mkdir_fails w THUMB_DIR = false ->
   exists st', main w up st = (Ok JNull, st')).
Proof.
  split; intros Hm; unfold main; unfold bind at 1; unfold ensure_dir;
    rewrite Hm.
  - reflexivity.
  - unfold emit at 1. unfold bind at 1. unfold try_except, bind at 1.
    destruct (load_links w up LINKS _) as [[l|e] st1].
    + unfold ret at 1. destruct l as [|entry l].
      * eexists. reflexivity.
      * destruct (run_batch_total w up (entry :: l) st1)
          as (out & s & f & st2 & Hr & _).
        exists st2. exact Hr.
    + eexists. reflexivity.
Qed.

(** X17: when the link file is missing, cannot be read, is not JSON, or is
    not an object at top level, [main] reports the load error and returns
    at once: no request, no identifier, no file. *)
Theorem main_stops_on_load_error st :
  mkdir_fails w THUMB_DIR = false ->
  (forall items, links w <> LinksData (JDict items)) ->
  exists e st',
    main w up st = (Ok JNull, st') /\
    log st' = (log st ++ [EvMkdir THUMB_DIR; EvConsole (MsgLoadError e)])%list /\
    requests_made st' = requests_made st /\
    id_counter st' = id_counter st /\ disk st' = disk st.
Proof.
  intros Hm Hlinks. unfold main. unfold bind at 1. unfold ensure_dir.
  rewrite Hm. unfold emit at 1. unfold bind at 1.
  unfold try_except, bind at 1. unfold load_links.
  destruct (links w) as [|e0|detail|data] eqn:El.
  - eexists. eexists. split; [reflexivity|]. simpl.
    rewrite <- app_assoc. repeat split.
  - eexists. eexists. split; [reflexivity|]. simpl.
    rewrite <- app_assoc. repeat split.
  - eexists. eexists. split; [reflexivity|]. simpl.
    rewrite <- app_assoc. repeat split.
  - destruct data; try (exfalso; eapply Hlinks; reflexivity);
      (eexists; eexists; split; [reflexivity|]; simpl;
       rewrite <- app_assoc; repeat split).
Qed.

End Registry.

(** A run of [main] that resolves one entry. *)
Lemma summary_is_console_only_witness :
  exists r st',
    main one_model_one_image Urllib.path_of initial_state = (Ok r, st') /\
    r = JNull /\ reported_counts (log st') = Some (1, 0, 1).
Proof.
  eexists. eexists. split; [vm_compute; reflexivity|]. split.
  - eapply (proj1 (summary_is_console_only one_model_one_image Urllib.path_of)
              initial_state).
    vm_compute. reflexivity.
  - vm_compute. reflexivity.
Defined.

Lemma main_raises_only_for_thumb_dir_witness :
  exists st', main one_model_unreachable Urllib.path_of initial_state
              = (Ok JNull, st').
Proof.
  apply (proj2 (main_raises_only_for_thumb_dir one_model_unreachable
                  Urllib.path_of initial_state)).
  reflexivity.
Defined.

Lemma main_stops_on_load_error_witness :
  exists e st',
    main offline Urllib.path_of initial_state = (Ok JNull, st') /\
    log st' = [EvMkdir THUMB_DIR; EvConsole (MsgLoadError e)].
Proof.
  edestruct (main_stops_on_load_error offline Urllib.path_of initial_state)
    as (e & st' & Hr & Hlog & _).
  - reflexivity.
  - intros items. discriminate.
  - exists e, st'. split; [exact Hr | exact Hlog].
Defined.

(** A resolution that fetches a version record and two thumbnails. *)
Lemma resolution_is_bounded_witness :
  exists r st',
    fetch_from_api
      (scripted [Responds (json_response version_with_two_images);
                 Responds (media_response "image/png");
                 Responds (media_response "image/jpeg")] LinksMissing)
      Urllib.path_of "foo" versioned_url initial_state = (r, st') /\
    (requests_made st' <= 11)%nat /\ (id_counter st' <= 1)%nat.
Proof.
  eexists. eexists. split; [vm_compute; reflexivity|].
  edestruct (resolution_is_bounded
            (scripted [Responds (json_response version_with_two_images);
                       Responds (media_response "image/png");
                       Responds (media_response "image/jpeg")] LinksMissing)
            Urllib.path_of "foo" versioned_url initial_state)
    as [[_ Hr] [_ Hi]].
  - vm_compute. reflexivity.
  - split; [exact Hr | exact Hi].
Defined.

(** ** Names given by the link loader *)

Lemma split_on_not_nil sep s : PyStr.split_on sep s <> [].
Proof.
  destruct s as [|c s]; simpl; [discriminate|].
  destruct (Ascii.eqb c sep); [discriminate|].
  destruct (PyStr.split_on sep s); discriminate.
Qed.

(** No piece of a split holds the separator. *)
Lemma split_on_pieces sep s : forall p,
  In p (PyStr.split_on sep s) -> ~ In sep (PyStr.chars p).
Proof.
  induction s as [|c s IH]; intros p Hp; simpl in Hp.
  - destruct Hp as [<-|[]]. intros [].
  - destruct (Ascii.eqb_spec c sep) as [->|Hne].
    + destruct Hp as [<-|Hp]; [intros []|]. apply IH. exact Hp.
    + destruct (PyStr.split_on sep s) as [|q qs] eqn:E.
      * destruct Hp as [<-|[]]. simpl. intros [H|[]]. congruence.
      * destruct Hp as [<-|Hp].
        -- simpl. intros [H|H]; [congruence|].
           apply (IH q); [left; reflexivity | exact H].
        -- apply IH. right. exact Hp.
Qed.

Lemma last_in {A} (l : list A) d : l <> [] -> In (last l d) l.
Proof.
  induction l as [|a l IH]; intros Hn; [congruence|].
  destruct l as [|b l]; [left; reflexivity|].
  right. apply IH. discriminate.
Qed.

(** X18: the name the loader derives from a URL path is never empty and
    never holds a slash: it is one path segment, or [unnamed]. *)
Theorem derived_name_is_one_segment path :
  PyStr.nonempty (name_from_path path) = true /\
  ~ In "/"%char (PyStr.chars (name_from_path path)).
Proof.
  unfold name_from_path.
  set (pieces := PyStr.split_on "/" (PyStr.strip_chars "/" path)).
  destruct (PyStr.nonempty (last pieces EmptyString)) eqn:E.
  - split; [exact E|]. apply (split_on_pieces "/" (PyStr.strip_chars "/" path)).
    apply last_in. apply split_on_not_nil.
  - split; [reflexivity|]. simpl. intros H.
    repeat (destruct H as [H|H]; [discriminate H|]). exact H.
Qed.

Section LoaderNames.

Variable up : string -> result string.
Variable items : list (string * json).

Lemma name_each_named value key urls : forall acc pairs,
  In (key, value) items ->
  PyStr.nonempty (PyStr.strip key) = false ->
  incl urls (urls_of value) ->
  name_each up urls acc = Ok pairs ->
  (forall p, In p acc -> named_entry up items p) ->
  forall p, In p pairs -> named_entry up items p.
Proof.
  induction urls as [|url rest IH]; intros acc pairs Hin Hblank Hincl H Hacc;
    simpl in H.
  - injection H as <-. exact Hacc.
  - destruct (up url) as [path|e] eqn:Eu; [|discriminate H].
    eapply IH; [exact Hin | exact Hblank | | exact H |].
    + intros x Hx. apply Hincl. right. exact Hx.
    + intros p Hp. apply in_app_or in Hp. destruct Hp as [Hp|[<-|[]]].
      * apply Hacc. exact Hp.
      * split; [apply derived_name_is_one_segment|].
        exists key, value. split; [exact Hin|].
        split; [apply Hincl; left; reflexivity|].
        right. split; [exact Hblank|]. exists path. split; [exact Eu|].
        reflexivity.
Qed.

Lemma load_items_named rest : forall acc pairs,
  incl rest items ->
  load_items up rest acc = Ok pairs ->
  (forall p, In p acc -> named_entry up items p) ->
  forall p, In p pairs -> named_entry up items p.
Proof.
  induction rest as [|[key value] rest IH]; intros acc pairs Hincl H Hacc.
  - simpl in H. injection H as <-. exact Hacc.
  - assert (Hrest : incl rest items).
    { intros x Hx. apply Hincl. right. exact Hx. }
    assert (Hin : In (key, value) items).
    { apply Hincl. left. reflexivity. }
    simpl in H.
    destruct (Py.truthy value); simpl in H; [|eapply IH; eassumption].
    destruct (match urls_of value with [] => true | _ :: _ => false end
              || forallb comment_or_no_http (urls_of value)); simpl in H;
      [eapply IH; eassumption|].
    destruct (PyStr.nonempty (PyStr.strip key)) eqn:Ek; simpl in H.
    + eapply IH; [exact Hrest | exact H |].
      intros p Hp. apply in_app_or in Hp. destruct Hp as [Hp|Hp];
        [apply Hacc; exact Hp|].
      apply in_map_iff in Hp. destruct Hp as (url & <- & Hu).
      split; [exact Ek|]. exists key, value.
      split; [exact Hin|]. split; [exact Hu|]. left. reflexivity.
    + destruct (name_each up (urls_of value) acc) as [acc'|e] eqn:En;
        [|discriminate H].
      eapply IH; [exact Hrest | exact H |].
      eapply name_each_named; [exact Hin | exact Ek | apply incl_refl
                              | exact En | exact Hacc].
Qed.

(** X19: every entry the loader returns has a non-empty name and comes from
    a key of the link file: its url is a piece of that key's value, and its
    name is the key stripped, or - under a blank key - the name derived from
    the url's path. *)
Theorem entries_are_named w st pairs st' :
  links w = LinksData (JDict items) ->
  load_links w up LINKS st = (Ok pairs, st') ->
  forall p, In p pairs -> named_entry up items p.
Proof.
  intros Hfile H. unfold load_links in H. rewrite Hfile in H.
  apply lift_ok in H. destruct H as [H _].
  eapply load_items_named; [apply incl_refl | exact H |].
  intros p [].
Qed.

Lemma name_each_raises value key urls : forall acc e,
  In (key, value) items ->
  PyStr.nonempty (PyStr.strip key) = false ->
  incl urls (urls_of value) ->
  name_each up urls acc = Raise e ->
  parser_raised up items e.
Proof.
  induction urls as [|url rest IH]; intros acc e Hin Hblank Hincl H;
    simpl in H; [discriminate H|].
  destruct (up url) as [path|e'] eqn:Eu.
  - eapply IH; [exact Hin | exact Hblank | | exact H].
    intros x Hx. apply Hincl. right. exact Hx.
  - injection H as <-. exists key, value, url.
    split; [exact Hin|]. split; [exact Hblank|].
    split; [apply Hincl; left; reflexivity | exact Eu].
Qed.

Lemma load_items_raises rest : forall acc e,
  incl rest items ->
  load_items up rest acc = Raise e ->
  parser_raised up items e.
Proof.
  induction rest as [|[key value] rest IH]; intros acc e Hincl H;
    [discriminate H|].
  assert (Hrest : incl rest items).
  { intros x Hx. apply Hincl. right. exact Hx. }
  assert (Hin : In (key, value) items).
  { apply Hincl. left. reflexivity. }
  simpl in H.
  destruct (Py.truthy value); simpl in H; [|eapply IH; eassumption].
  destruct (match urls_of value with [] => true | _ :: _ => false end
            || forallb comment_or_no_http (urls_of value)); simpl in H;
    [eapply IH; eassumption|].
  destruct (PyStr.nonempty (PyStr.strip key)) eqn:Ek; simpl in H;
    [eapply IH; eassumption|].
  destruct (name_each up (urls_of value) acc) as [acc'|e'] eqn:En.
  - eapply IH; eassumption.
  - injection H as <-.
    eapply name_each_raises; [exact Hin | exact Ek | apply incl_refl | exact En].
Qed.

End LoaderNames.

(** X20: [load_links] changes nothing, and what it raises is: for a
    missing file the [FileNotFoundError]; for a file that cannot be opened
    or decoded the exception of that, as it is; for a file that is not JSON
    the [RuntimeError] that quotes the path and the decoder's message; for
    JSON that is not an object the [AttributeError] of [data.items()]; and
    for an object only the URL parser's own exception, raised on a piece of
    a value under a blank key - so an object whose keys are all non-blank
    never makes it raise. *)
Theorem loader_raises_only up w st e st' :
  load_links w up LINKS st = (Raise e, st') ->
  st' = st /\
  match links w with
  | LinksMissing => e = FileNotFoundError ("Link file not found: " ++ LINKS)
  | LinksUnreadable e0 => e = e0
  | LinksInvalid detail =>
      e = RuntimeError ("Invalid JSON format in " ++ LINKS ++ ": " ++ detail)
  | LinksData (JDict items) =>
      parser_raised up items e /\
      ~ Forall (fun kv => PyStr.nonempty (PyStr.strip (fst kv)) = true) items
  | LinksData _ => e = AttributeError
  end.
Proof.
  intros H. unfold load_links in H.
  destruct (links w) as [|e0|detail|data].
  - inversion H. split; reflexivity.
  - inversion H. split; reflexivity.
  - inversion H. split; reflexivity.
  - destruct data; try (inversion H; split; reflexivity).
    unfold lift in H. injection H as H <-. split; [reflexivity|].
    assert (Hp : parser_raised up fields e).
    { eapply load_items_raises; [apply incl_refl | exact H]. }
    split; [exact Hp|].
    intros Hall. destruct Hp as (key & value & url & Hin & Hblank & _).
    rewrite Forall_forall in Hall. specialize (Hall _ Hin). simpl in Hall.
    rewrite Hall in Hblank. discriminate Hblank.
Qed.

(** A link file with a blank key: the name comes from the path. *)
Lemma entries_are_named_witness :
  exists st',
    load_links (scripted [] (LinksData (JDict blank_key_links)))
               Urllib.path_of LINKS initial_state
    = (Ok [("foo", "https://civitai.com/models/12/foo")], st') /\
    named_entry Urllib.path_of blank_key_links
                ("foo", "https://civitai.com/models/12/foo").
Proof.
  eexists. split; [vm_compute; reflexivity|].
  eapply (entries_are_named Urllib.path_of blank_key_links
            (scripted [] (LinksData (JDict blank_key_links))) initial_state).
  - reflexivity.
  - vm_compute. reflexivity.
  - left. reflexivity.
Defined.

(** A link file with a blank key over a url the parser refuses, and a link
    file that is not JSON. *)
Lemma loader_raises_only_witness :
  (exists st',
     load_links (scripted [] (LinksData (JDict blank_key_bad_url)))
                Urllib.path_of LINKS initial_state
     = (Raise (ValueError "Invalid IPv6 URL"), st') /\
     parser_raised Urllib.path_of blank_key_bad_url
                   (ValueError "Invalid IPv6 URL")) /\
  (exists e st',
     load_links (scripted [] (LinksInvalid "Expecting value: line 1 column 1 (char 0)"))
                Urllib.path_of LINKS initial_state = (Raise e, st') /\
     e = RuntimeError
           ("Invalid JSON format in " ++ LINKS
              ++ ": Expecting value: line 1 column 1 (char 0)")).
Proof.
  split.
  - eexists. split; [vm_compute; reflexivity|].
    edestruct (loader_raises_only Urllib.path_of
                 (scripted [] (LinksData (JDict blank_key_bad_url)))
                 initial_state) as [_ H].
    + vm_compute. reflexivity.
    + exact (proj1 H).
  - eexists. eexists. split; [vm_compute; reflexivity|].
    edestruct (loader_raises_only Urllib.path_of
                 (scripted [] (LinksInvalid "Expecting value: line 1 column 1 (char 0)"))
                 initial_state) as [_ H].
    + vm_compute. reflexivity.
    + exact H.
Defined.

(** ** Cutting a string at a separator *)







(** ** The loader against its description *)






Section LoaderDescribed.

Variable up : string -> result string.







End LoaderDescribed.


(** ** File names *)

Lemma chars_text l : PyStr.chars (PyStr.text l) = l.
Proof. apply list_ascii_of_string_of_list_ascii. Qed.

Lemma text_chars s : PyStr.text (PyStr.chars s) = s.
Proof. apply string_of_list_ascii_of_string. Qed.

Lemma length_text l : String.length (PyStr.text l) = List.length l.
Proof. induction l as [|c l IH]; simpl; [reflexivity | now rewrite IH]. Qed.

Lemma sub_runs_safe l : forall b,
  forallb (fun c => negb (forbidden c)) (sub_runs b l) = true.
Proof.
  induction l as [|c l IH]; intros b; simpl; [reflexivity|].
  destruct (forbidden c) eqn:E.
  - destruct b; [apply IH|]. simpl. apply IH.
  - simpl. rewrite E. apply IH.
Qed.

Lemma sub_runs_clean l : forall b,
  forallb (fun c => negb (forbidden c)) l = true -> sub_runs b l = l.
Proof.
  induction l as [|c l IH]; intros b H; simpl in *; [reflexivity|].
  apply andb_true_iff in H. destruct H as [Hc Hl].
  apply negb_true_iff in Hc. rewrite Hc. f_equal. apply IH. exact Hl.
Qed.

Lemma sub_runs_length l : forall b,
  (List.length (sub_runs b l) <= List.length l)%nat.
Proof.
  induction l as [|c l IH]; intros b; simpl; [lia|].
  destruct (forbidden c).
  - destruct b; [specialize (IH true); lia|].
    simpl. specialize (IH true). lia.
  - simpl. specialize (IH false). lia.
Qed.

(** X21: the result of [safe_filename] holds none of the characters the
    pattern forbids (backslash, slash, star, question mark, colon, double
    quote, angle brackets, bar), is not longer than the name, and is left as
    it is when the function is applied again. *)
Theorem safe_filename_is_safe name :
  clean (safe_filename name) = true /\
  (String.length (safe_filename name) <= String.length name)%nat /\
  safe_filename (safe_filename name) = safe_filename name.
Proof.
  unfold clean, safe_filename. rewrite !chars_text. split; [|split].
  - apply sub_runs_safe.
  - rewrite length_text. rewrite <- (text_chars name) at 2.
    rewrite length_text. apply sub_runs_length.
  - f_equal. apply sub_runs_clean. apply sub_runs_safe.
Qed.

(** X22: a name without forbidden characters is returned unchanged. *)
Theorem safe_filename_keeps_clean_names name :
  clean name = true -> safe_filename name = name.
Proof.
  intros H. unfold safe_filename. rewrite (sub_runs_clean _ _ H).
  apply text_chars.
Qed.

Lemma safe_filename_keeps_clean_names_witness :
  safe_filename "model_v1.safetensors" = "model_v1.safetensors".
Proof.
  apply (safe_filename_keeps_clean_names "model_v1.safetensors").
  reflexivity.
Defined.

(** ** Trigger words *)

Lemma mem_str_in x l : mem_str x l = true <-> In x l.
Proof.
  unfold mem_str. rewrite existsb_exists. split.
  - intros (y & Hy & E). apply String.eqb_eq in E. subst. exact Hy.
  - intros H. exists x. split; [exact H | apply String.eqb_refl].
Qed.

Lemma mem_str_not_in x l : mem_str x l = false <-> ~ In x l.
Proof.
  rewrite <- mem_str_in. destruct (mem_str x l); split; intros H;
    congruence.
Qed.

(** The loop appends to [uniq], without repetition, the words not seen. *)
Lemma dedupe_loop_tail words : forall seen uniq,
  exists tail,
    dedupe_loop words seen uniq = (uniq ++ tail)%list /\
    NoDup tail /\
    forall x, In x tail <-> In x words /\ ~ In x seen.
Proof.
  induction words as [|w rest IH]; intros seen uniq; simpl.
  - exists []. split; [now rewrite app_nil_r|]. split; [constructor|].
    intros x. split; [intros [] | intros [[] _]].
  - destruct (mem_str w seen) eqn:E.
    + apply mem_str_in in E.
      destruct (IH seen uniq) as (tail & Hr & Hnd & Hin).
      exists tail. split; [exact Hr|]. split; [exact Hnd|].
      intros x. rewrite Hin. split.
      * intros [H1 H2]. split; [right; exact H1 | exact H2].
      * intros [[<-|H1] H2]; [contradiction|]. split; assumption.
    + apply mem_str_not_in in E.
      destruct (IH (w :: seen) (uniq ++ [w])%list) as (tail & Hr & Hnd & Hin).
      exists (w :: tail). split; [rewrite Hr, <- app_assoc; reflexivity|].
      split.
      * constructor; [|exact Hnd]. intros H. apply Hin in H.
        destruct H as [_ H]. apply H. left. reflexivity.
      * intros x. simpl. rewrite Hin. split.
        -- intros [<-|[H1 H2]]; [split; [left; reflexivity | exact E]|].
           split; [right; exact H1|]. intros H. apply H2. right. exact H.
        -- intros [[<-|H1] H2]; [left; reflexivity|].
           destruct (string_dec w x) as [<-|Hne]; [left; reflexivity|].
           right. split; [exact H1|]. intros [H|H]; [congruence|contradiction].
Qed.

(** The word [x], first met after the words [a], stands in the result after
    the new words of [a]. *)
Lemma dedupe_loop_first x b a : forall seen uniq,
  ~ In x a -> ~ In x seen ->
  exists a' b',
    dedupe_loop (a ++ x :: b) seen uniq = (uniq ++ a' ++ x :: b')%list /\
    forall y, In y a' <-> In y a /\ ~ In y seen.
Proof.
  induction a as [|w a IH]; intros seen uniq Ha Hs.
  - simpl. apply mem_str_not_in in Hs. rewrite Hs.
    destruct (dedupe_loop_tail b (x :: seen) (uniq ++ [x])%list)
      as (tail & Hr & _).
    exists [], tail. split; [rewrite Hr, <- app_assoc; reflexivity|].
    intros y. split; [intros [] | intros [[] _]].
  - assert (Hxw : w <> x). { intros ->. apply Ha. left. reflexivity. }
    assert (Ha' : ~ In x a). { intros H. apply Ha. right. exact H. }
    simpl. destruct (mem_str w seen) eqn:E.
    + apply mem_str_in in E.
      destruct (IH seen uniq Ha' Hs) as (a' & b' & Hr & Hin).
      exists a', b'. split; [exact Hr|]. intros y. rewrite Hin. split.
      * intros [H1 H2]. split; [right; exact H1 | exact H2].
      * intros [[<-|H1] H2]; [contradiction|]. split; assumption.
    + apply mem_str_not_in in E.
      destruct (IH (w :: seen) (uniq ++ [w])%list Ha') as (a' & b' & Hr & Hin).
      { intros [H|H]; [congruence | contradiction]. }
      exists (w :: a'), b'. split; [rewrite Hr, <- app_assoc; reflexivity|].
      intros y. simpl. rewrite Hin. split.
      * intros [<-|[H1 H2]]; [split; [left; reflexivity | exact E]|].
        split; [right; exact H1|]. intros H. apply H2. right. exact H.
      * intros [[<-|H1] H2]; [left; reflexivity|].
        destruct (string_dec w y) as [<-|Hne]; [left; reflexivity|].
        right. split; [exact H1|]. intros [H|H]; [congruence|contradiction].
Qed.

(** X23: the de-duplication loop of the trigger-word finders keeps every
    word once, and in the order of first occurrence: the result has no
    repetition, holds exactly the collected words, and a word stands after
    exactly the words that occur before its first occurrence. *)
Theorem trigger_words_are_deduplicated words :
  NoDup (unique_words words) /\
  (forall x, In x (unique_words words) <-> In x words) /\
  (forall a x b, words = (a ++ x :: b)%list -> ~ In x a ->
     exists a' b', unique_words words = (a' ++ x :: b')%list /\
                   forall y, In y a' <-> In y a).
Proof.
  unfold unique_words. split; [|split].
  - destruct (dedupe_loop_tail words [] []) as (tail & -> & Hnd & _).
    exact Hnd.
  - destruct (dedupe_loop_tail words [] []) as (tail & -> & _ & Hin).
    intros x. simpl. rewrite Hin. split; [intros [H _]; exact H|].
    intros H. split; [exact H | intros []].
  - intros a x b -> Ha.
    destruct (dedupe_loop_first x b a [] [] Ha) as (a' & b' & Hr & Hin);
      [intros []|].
    exists a', b'. split; [exact Hr|]. intros y. rewrite Hin.
    split; [intros [H _]; exact H|]. intros H. split; [exact H | intros []].
Qed.

Lemma trigger_words_are_deduplicated_witness :
  unique_words ["cat"; "dog"; "cat"; "owl"; "dog"] = ["cat"; "dog"; "owl"] /\
  exists a' b',
    unique_words ["cat"; "dog"; "cat"; "owl"; "dog"] = (a' ++ "owl" :: b')%list
    /\ forall y, In y a' <-> In y ["cat"; "dog"; "cat"].
Proof.
  split; [reflexivity|].
  apply (proj2 (proj2 (trigger_words_are_deduplicated
                         ["cat"; "dog"; "cat"; "owl"; "dog"]))
           ["cat"; "dog"; "cat"] "owl" ["dog"]).
  - reflexivity.
  - simpl. intros [H|[H|[H|H]]]; try discriminate H. exact H.
Defined.

(** ** The model endpoint *)

Section ModelLookup.

Variable w : world.
Variable up : string -> result string.

Lemma find_version_gives_up n api : forall st,
  forallb no_version (outcomes w api (requests_made st) n) = true ->
  exists st',
    find_version w n api st = (Ok None, st') /\
    requests_made st' = (requests_made st + n)%nat /\
    id_counter st' = id_counter st /\ disk st' = disk st /\
    count_pause OneSecond (log st')
    = (count_pause OneSecond (log st) + n)%nat.
Proof.
  induction n as [|n IH]; intros st Hall.
  - exists st. simpl. repeat split; lia.
  - simpl in Hall. apply andb_true_iff in Hall. destruct Hall as [Hf Hrest].
    assert (Hgo : forall st1,
      requests_made st1 = S (requests_made st) ->
      id_counter st1 = id_counter st -> disk st1 = disk st ->
      count_pause OneSecond (log st1)
      = (count_pause OneSecond (log st) + 1)%nat ->
      exists st',
        find_version w n api st1 = (Ok None, st') /\
        requests_made st' = (requests_made st + S n)%nat /\
        id_counter st' = id_counter st /\ disk st' = disk st /\
        count_pause OneSecond (log st')
        = (count_pause OneSecond (log st) + S n)%nat).
    { intros st1 E1 E2 E3 E4. destruct (IH st1) as (st' & Hr & H1 & H2 & H3 & H4).
      - rewrite E1. exact Hrest.
      - exists st'. split; [exact Hr|]. repeat split; try congruence; lia. }
    simpl find_version.
    unfold bind at 1. unfold try_except. unfold bind at 1.
    unfold requests_get.
    destruct (net w (requests_made st) api) as [r|e].
    + simpl in Hf. destruct (status_code r =? 200)%Z; simpl in Hf |- *.
      * destruct (json_body r) as [j|].
        -- destruct j as [|b|z|s|js|d]; try discriminate Hf.
           unfold bind, lift, say, sleep, emit, ret, Dyn.get; simpl.
           destruct (Py.lookup "modelVersions" d) as [v|];
             [destruct v as [|b|z|s|vs|d']; try discriminate Hf;
              destruct vs; try discriminate Hf|];
             simpl;
             apply Hgo; simpl; rewrite ?count_pause_snoc; simpl; try lia;
               reflexivity.
        -- unfold bind, lift, say, sleep, emit, ret. simpl.
           apply Hgo; simpl; rewrite ?count_pause_snoc; simpl; try lia;
             reflexivity.
      * unfold bind, lift, say, sleep, emit, ret. simpl.
        apply Hgo; simpl; rewrite ?count_pause_snoc; simpl; try lia;
          reflexivity.
    + unfold bind, lift, say, sleep, emit, ret. simpl.
      apply Hgo; simpl; rewrite ?count_pause_snoc; simpl; try lia;
        reflexivity.
Qed.

(** X24: when the URL names no version and each of the three answers of the
    model endpoint is an exception, a status other than 200, not JSON, or a
    model without versions, the resolution raises "Could not determine
    version ID for model <id>" after exactly three requests and three
    one-second pauses; the version endpoint is never asked, no identifier is
    drawn and no file is written. *)
Theorem model_lookup_gives_up filename url mid st :
  PyStr.search_digits_after "/models/" url = Some mid ->
  PyStr.search_digits_after "modelVersionId=" url = None ->
  forallb no_version
    (outcomes w ("https://civitai.com/api/v1/models/" ++ mid)
              (requests_made st) 3) = true ->
  exists st',
    fetch_from_api w up filename url st
    = (Raise (RuntimeError
                ("Could not determine version ID for model " ++ mid)), st') /\
    requests_made st' = (requests_made st + 3)%nat /\
    id_counter st' = id_counter st /\ disk st' = disk st /\
    count_pause OneSecond (log st')
    = (count_pause OneSecond (log st) + 3)%nat.
Proof.
  intros Hmid Hvid Hall. unfold fetch_from_api. rewrite Hmid, Hvid.
  destruct (find_version_gives_up 3 _ st Hall) as (st' & Hr & H1 & H2 & H3 & H4).
  exists st'. split; [|repeat split; assumption].
  unfold bind at 1. unfold bind at 1. rewrite Hr.
  reflexivity.
Qed.

End ModelLookup.

(** A model endpoint that answers 404, then a model without versions, then
    times out. *)
Lemma model_lookup_gives_up_witness :
  exists st',
    fetch_from_api
      (scripted [Responds (status_response 404);
                 Responds (json_response (JDict [("modelVersions", JList [])]));
                 Fails Timeout] LinksMissing)
      Urllib.path_of "foo" "https://civitai.com/models/12" initial_state
    = (Raise (RuntimeError "Could not determine version ID for model 12"),
       st') /\
    requests_made st' = 3.
Proof.
  edestruct (model_lookup_gives_up
           (scripted [Responds (status_response 404);
                      Responds (json_response
                                  (JDict [("modelVersions", JList [])]));
                      Fails Timeout] LinksMissing)
           Urllib.path_of "foo" "https://civitai.com/models/12" "12"
           initial_state)
    as (st' & Hr & Hreq & _).
  - vm_compute. reflexivity.
  - vm_compute. reflexivity.
  - vm_compute. reflexivity.
  - exists st'. split; [exact Hr | exact Hreq].
Defined.

(** ** What a batch costs *)

Section BatchCost.

Variable w : world.
Variable up : string -> result string.

(** The loop sends at most eleven requests per entry; it draws two
    identifiers for every success, and at most one for a failure. *)
Lemma process_links_cost entries : forall total i out s f st out' s' f' st',
  process_links w up total i entries out s f st = (Ok (out', s', f'), st') ->
  (s <= s' /\ f <= f')%nat /\
  (requests_made st <= requests_made st'
   <= requests_made st + 11 * List.length entries)%nat /\
  (id_counter st + 2 * (s' - s) <= id_counter st'
   <= id_counter st + 2 * (s' - s) + (f' - f))%nat.
Proof.
  induction entries as [|[filename url] rest IH];
    intros total i out s f st out' s' f' st' H.
  - simpl in H. inversion H; subst. simpl. lia.
  - destruct (fetch_from_api w up filename url (announced total i filename st))
      as [[meta|e] st1] eqn:Hf;
      pose proof (uses_fetch_from_api w up filename url _ _ _ Hf)
        as [Hids Hreqs];
      unfold announced in Hids, Hreqs; simpl in Hids, Hreqs.
    + pose proof (fetch_from_api_ids w up _ _ _ _ _ Hf) as Hone.
      unfold announced in Hone; simpl in Hone.
      rewrite (process_links_success _ _ _ _ _ _ _ _ _ _ _ _ _ Hf) in H.
      apply IH in H. simpl in H. simpl List.length. lia.
    + rewrite (process_links_failure _ _ _ _ _ _ _ _ _ _ _ _ _ Hf) in H.
      apply IH in H. simpl in H. simpl List.length. lia.
Qed.

(** After the loop, [run_batch] sends no request and draws no identifier. *)
Lemma run_batch_counters links_list st out s f st1 :
  process_links w up (List.length links_list) 1 links_list [] 0 0
                (snd (say (MsgStart (List.length links_list)) st))
    = (Ok (out, s, f), st1) ->
  exists st',
    run_batch w up links_list st = (Ok JNull, st') /\
    reported_counts (log st') = Some (s, f, List.length out) /\
    requests_made st' = requests_made st1 /\
    id_counter st' = id_counter st1.
Proof.
  intros Hloop. unfold run_batch.
  change (negb (Nat.eqb TEST_LIMIT 0)
          && Nat.ltb TEST_LIMIT (List.length links_list))
    with false. cbv iota.
  unfold bind at 1. unfold ret at 1.
  unfold bind at 1. unfold say at 1, emit at 1.
  unfold say, emit in Hloop. simpl in Hloop.
  unfold bind at 1. rewrite Hloop.
  unfold save_registry, try_except, bind, ensure_dir, failed_write, bind,
    put_file, say, emit, raise, ret.
  destruct (mkdir_fails w OUTPUT_DIR) eqn:Hm;
    [|destruct (open_fails w OUTPUT_JSON) eqn:Ho;
      [destruct (write_breaks w OUTPUT_JSON)|]];
    eexists; (split; [reflexivity|]); (split; [|split; reflexivity]);
    simpl log; unfold reported_counts; rewrite ?rev_app_distr;
    reflexivity.
Qed.

(** X25: a batch sends at most eleven requests per entry, and draws two
    identifiers for every entry it reports as successful - one that names
    the thumbnails, one that keys the record - and at most one for every
    entry it reports as failed. *)
Theorem batch_is_bounded links_list st r st' s f n :
  run_batch w up links_list st = (r, st') ->
  reported_counts (log st') = Some (s, f, n) ->
  (requests_made st <= requests_made st'
   <= requests_made st + 11 * List.length links_list)%nat /\
  (id_counter st + 2 * s <= id_counter st'
   <= id_counter st + 2 * s + f)%nat.
Proof.
  intros Hrun Hrep.
  destruct (process_links_total w up links_list (List.length links_list) 1
              [] 0 0 (snd (say (MsgStart (List.length links_list)) st)))
    as (out & s0 & f0 & st1 & Hloop & _).
  destruct (run_batch_counters _ _ _ _ _ _ Hloop)
    as (st2 & Hr & Hrep2 & Hreq & Hid).
  rewrite Hr in Hrun. injection Hrun as _ <-.
  rewrite Hrep2 in Hrep. injection Hrep as <- <- _.
  apply process_links_cost in Hloop. simpl in Hloop.
  rewrite Hreq, Hid. lia.
Qed.

End BatchCost.

(** A batch of one failing and one resolved entry. *)
Lemma batch_is_bounded_witness :
  exists st',
    run_batch serves_one_version Urllib.path_of bad_then_good initial_state
      = (Ok JNull, st') /\
    (requests_made st' <= 22)%nat /\ (2 <= id_counter st' <= 3)%nat.
Proof.
  eexists. split; [vm_compute; reflexivity|].
  edestruct (batch_is_bounded serves_one_version Urllib.path_of bad_then_good
               initial_state) as [[_ Hr] Hi].
  - vm_compute. reflexivity.
  - vm_compute. reflexivity.
  - split; [exact Hr | exact Hi].
Defined.

(** ** Keys of the registry and names of the thumbnails *)

Lemma store_in key v out : forall kv,
  In kv (Py.store key v out) -> kv = (key, v) \/ In kv out.
Proof.
  induction out as [|[k x] out IH]; simpl; intros kv H.
  - destruct H as [<-|[]]. left. reflexivity.
  - destruct (String.eqb key k).
    + destruct H as [<-|H]; [left; reflexivity | right; right; exact H].
    + destruct H as [<-|H]; [right; left; reflexivity|].
      destruct (IH kv H) as [E|Hin]; [left; exact E | right; right; exact Hin].
Qed.

Section RegistryKeys.

Variable w : world.
Variable up : string -> result string.

(** A record resolved from a counter at [k - 1] has its thumbnails named
    after the identifier of [k]. *)
Lemma fetch_from_api_thumbs_named filename url st rec st' :
  fetch_from_api w up filename url st = (Ok rec, st') ->
  thumbs_named (S (id_counter st)) rec.
Proof.
  intros H. apply resolved_thumbnails in H.
  destruct H as (assets & t & _ & Hloc & _ & _ & _ & Hall).
  exists (filter PyStr.nonempty (map snd assets)). split; [exact Hloc|].
  apply Forall_forall. intros p Hp. apply filter_In in Hp.
  destruct Hp as [Hin Hne]. apply in_map_iff in Hin.
  destruct Hin as (a & <- & Ha).
  rewrite Forall_forall in Hall.
  destruct (Hall a Ha) as (i & ext & data & Hi & Hp & _).
  { intros E. rewrite E in Hne. discriminate Hne. }
  exists i, ext. split; [exact Hi | exact Hp].
Qed.

Lemma process_links_keys entries : forall total i out s f st out' s' f' st',
  Forall keyed_after_thumbnails out ->
  process_links w up total i entries out s f st = (Ok (out', s', f'), st') ->
  Forall keyed_after_thumbnails out'.
Proof.
  induction entries as [|[filename url] rest IH];
    intros total i out s f st out' s' f' st' Hok H.
  - simpl in H. inversion H; subst. exact Hok.
  - destruct (fetch_from_api w up filename url (announced total i filename st))
      as [[meta|e] st1] eqn:Hf.
    + rewrite (process_links_success _ _ _ _ _ _ _ _ _ _ _ _ _ Hf) in H.
      apply IH in H; [exact H|].
      apply Forall_forall. intros kv Hkv. apply store_in in Hkv.
      destruct Hkv as [->|Hin]; [|rewrite Forall_forall in Hok; auto].
      pose proof (fetch_from_api_ids w up _ _ _ _ _ Hf) as Hone.
      apply fetch_from_api_thumbs_named in Hf.
      exists (id_counter st1). split; [reflexivity|].
      split; [rewrite Hone; exact Hf|].
      simpl fst. intros E. apply id_of_inj in E. lia.
    + rewrite (process_links_failure _ _ _ _ _ _ _ _ _ _ _ _ _ Hf) in H.
      apply IH in H; [exact H | exact Hok].
Qed.

(** X26: in every batch, every record of the registry is stored under the
    identifier that follows the one its thumbnails are named after: the
    record keyed [A<k+1>] lists local thumbnails named [A<k>_T<i><ext>], so
    no thumbnail file carries the key of its record. *)
Theorem registry_keys_follow_thumbnail_ids links_list st :
  exists (out : list (string * json)) st',
    run_batch w up links_list st = (Ok JNull, st') /\
    (open_fails w OUTPUT_JSON = false -> mkdir_fails w OUTPUT_DIR = false ->
     saved_registry st' = Some (JDict out)) /\
    Forall keyed_after_thumbnails out.
Proof.
  destruct (process_links_total w up links_list (List.length links_list) 1 [] 0 0
              (snd (say (MsgStart (List.length links_list)) st)))
    as (out & s & f & st1 & Hloop & _).
  destruct (run_batch_after_loop w up _ _ _ _ _ _ Hloop)
    as (st' & Hr & _ & Hsaved).
  exists out, st'. split; [exact Hr|]. split; [exact Hsaved|].
  eapply process_links_keys; [|exact Hloop]. constructor.
Qed.

End RegistryKeys.
